(** * OSSF malicious-packages connector: a shallow embedding

    Source: [src/ossf_malicious_packages_connector.py], class
    [OSSFMaliciousPackagesConnector].

    Python values are embedded as the inductive [PyVal]; methods that log,
    send bundles or write the connector state run in the monad [M], a state
    monad over [World] with Python exceptions.  Everything the connector
    calls but does not define (git, the file system, stix2, pycti) is a field
    of [Library] or of [Env]. *)

From Stdlib Require Import String Ascii List ZArith Bool Arith Lia.
From Stdlib Require Import SpecFloat.
Import ListNotations.

Local Open Scope string_scope.
Local Open Scope list_scope.
#[local] Set Warnings "-register-all,-abstract-large-number".

(** ** Python values *)

(** What [json.load] can return, which is also what the connector state
    holds.  A [dict] is an association list; [dict_get] reads the first
    binding of a key. *)
Inductive PyVal : Type :=
| PNone
| PBool (b : bool)
| PInt (n : Z)
| PFloat (f : spec_float)
| PStr (s : string)
| PList (l : list PyVal)
| PDict (d : list (string * PyVal)).

Definition Dict : Type := list (string * PyVal).

Fixpoint dict_get (d : Dict) (k : string) : option PyVal :=
  match d with
  | [] => None
  | (k', v) :: d' => if String.eqb k' k then Some v else dict_get d' k
  end.

Definition dict_keys (d : Dict) : list string := map fst d.

(** [d.get(k, default)] on a dict *)
Definition dict_get_default (d : Dict) (k : string) (default : PyVal) : PyVal :=
  match dict_get d k with
  | Some v => v
  | None => default
  end.

(** Python truth value testing, as [not x], [x or y] and [if x] use it. *)
Definition truthy (v : PyVal) : bool :=
  match v with
  | PNone => false
  | PBool b => b
  | PInt n => negb (Z.eqb n 0)
  | PFloat (S754_zero _) => false
  | PFloat _ => true
  | PStr s => negb (String.eqb s "")
  | PList l => match l with [] => false | _ => true end
  | PDict d => match d with [] => false | _ => true end
  end.

(** [x or y] *)
Definition py_or (x y : PyVal) : PyVal := if truthy x then x else y.

(** ** Strings and paths *)

Definition endswith (s suffix : string) : bool :=
  let n := String.length s in
  let m := String.length suffix in
  (m <=? n)%nat && String.eqb (substring (n - m) m s) suffix.

Definition startswith (s pre : string) : bool :=
  String.eqb (substring 0 (String.length pre) s) pre.

(** [posixpath.join(a, b)] *)
Definition path_join (a b : string) : string :=
  if startswith b "/" then b
  else if String.eqb a "" || endswith a "/" then a ++ b
  else a ++ "/" ++ b.

(** ** Exceptions and the connector monad *)

(** The exceptions of class [Exception], which [except Exception] catches:
    those the connector's own code raises, and [ExternalError] for what a
    call outside it raises ([CalledProcessError], [OSError],
    [JSONDecodeError] and the like). *)
Inductive PyExn : Type :=
| AttributeError (attr : string)
| NameError (name : string)
| InvalidValueError (cls : string)
| ValueError (msg : string)
| ExternalError (what : string).

Inductive Result (A : Type) : Type :=
| Ok (a : A)
| Raise (e : PyExn).
Arguments Ok {A} a.
Arguments Raise {A} e.

(** ** STIX objects

    The properties each constructor is called with, and the identifier. *)

(** TLP:CLEAR marking definition (STIX ID) *)
Definition TLP_CLEAR_ID : string :=
  "marking-definition--613f2e26-407d-48c7-9eca-b8e91df99dc9".

Record ExternalReference : Type := mkExternalReference {
  source_name : string;
  url : string
}.

Record File : Type := mkFile {
  file_id : string;
  file_name : PyVal;
  file_sha256 : PyVal;                 (* hashes["SHA-256"] *)
  x_opencti_description : PyVal;
  file_marking_refs : list string
}.

Record Indicator : Type := mkIndicator {
  indicator_id : string;
  indicator_name : string;
  description : PyVal;
  pattern : string;
  pattern_type : string;
  external_references : list ExternalReference;
  indicator_marking_refs : list string;
  x_opencti_main_observable_type : string;
  x_opencti_score : Z
}.

Record Relationship : Type := mkRelationship {
  relationship_id : string;
  relationship_type : string;
  source_ref : string;
  target_ref : string;
  relationship_marking_refs : list string
}.

Inductive StixObject : Type :=
| SCO (f : File)
| SDO (i : Indicator)
| SRO (r : Relationship).

(** ** The libraries the connector calls

    [stix2] and [pycti] are not part of the repository.  Their identifier
    generators are deterministic functions of the arguments shown; their
    constructors validate the properties they are given and raise when they
    reject them.  [py_str] is [str()] on a value that is not a string, as an
    f-string applies it; [relpath] is [os.path.relpath]. *)
Class Library : Type := {
  File_generate_id : PyVal -> PyVal -> string;      (* from name and hashes *)
  Indicator_generate_id : string -> string;         (* pycti Indicator.generate_id *)
  StixCoreRelationship_generate_id : string -> string -> string -> string;
  File_accepts : File -> bool;
  ExternalReference_accepts : ExternalReference -> bool;
  Indicator_accepts : Indicator -> bool;
  Relationship_accepts : Relationship -> bool;
  py_str : PyVal -> string;
  relpath : string -> string -> string
}.

(** [f"{v}"] *)
Definition format_value `{Library} (v : PyVal) : string :=
  match v with
  | PStr s => s
  | _ => py_str v
  end.

(** ** Connector configuration ([__init__]) *)

Record Connector : Type := mkConnector {
  github_repo_url : string;
  github_branch : string;
  local_repo_path : string;
  run_interval : Z;
  default_score : Z
}.

(** ** What a run can observe and change *)

Inductive Message : Type :=
| MsgMainLoop
| MsgCloning (github_repo_url local_repo_path : string)
| MsgUpdating (local_repo_path : string)
| MsgStarting
| MsgLastCommit (last_commit : PyVal) (current_head : string)
| MsgFound (n : nat)
| MsgParseFailed (file_path : string) (e : PyExn)
| MsgNoId
| MsgNoSha256 (osv_id : PyVal)
| MsgNoNewObjects
| MsgPreparing (total chunk_size : nat)
| MsgSendingChunk (chunk_index n first last : nat)
| MsgBundleImportFailed (e : PyExn)
| MsgStateUpdated (new_state : Dict)
| MsgSuccess (current_head : string)
| MsgProcessingError (e : PyExn)
| MsgSleeping (seconds : Z).

Inductive Level : Type := INFO | ERROR.

(** A serialized bundle, as [stix2_create_bundle] returns it: the objects
    it was made from. *)
Record Bundle : Type := mkBundle { bundle_objects : list StixObject }.

Inductive WorkMessage : Type :=
| WorkFailed (e : PyExn)
| WorkDone (current_head : string).

Record World : Type := mkWorld {
  connector_state : PyVal;                     (* helper.get_state() *)
  log : list (Level * Message);                (* oldest first *)
  sent : list Bundle;                          (* send_stix2_bundle calls that returned *)
  processed : list (string * WorkMessage)      (* work.to_processed calls that returned *)
}.

Definition M (A : Type) : Type := World -> Result A * World.

Definition ret {A} (a : A) : M A := fun w => (Ok a, w).
Definition raise {A} (e : PyExn) : M A := fun w => (Raise e, w).
Definition bind {A B} (m : M A) (k : A -> M B) : M B :=
  fun w => match m w with
           | (Ok a, w') => k a w'
           | (Raise e, w') => (Raise e, w')
           end.
(** [try: body except Exception as e: handler] *)
Definition try_except {A} (body : M A) (handler : PyExn -> M A) : M A :=
  fun w => match body w with
           | (Ok a, w') => (Ok a, w')
           | (Raise e, w') => handler e w'
           end.
Definition lift {A} (r : Result A) : M A := fun w => (r, w).

Declare Scope py_scope.
Delimit Scope py_scope with py.
Notation "x <- m ;; k" := (bind m (fun x => k))
  (at level 61, m at next level, right associativity) : py_scope.
Notation "m ;;; k" := (bind m (fun _ => k))
  (at level 61, right associativity) : py_scope.
Local Open Scope py_scope.

Definition log_info (m : Message) : M unit :=
  fun w => (Ok tt, mkWorld (connector_state w) (log w ++ [(INFO, m)]) (sent w) (processed w)).
Definition log_error (m : Message) : M unit :=
  fun w => (Ok tt, mkWorld (connector_state w) (log w ++ [(ERROR, m)]) (sent w) (processed w)).

(** [v.get(k, default)]: only a dict has the method. *)
Definition py_get (v : PyVal) (k : string) (default : PyVal) : M PyVal :=
  match v with
  | PDict d => ret (dict_get_default d k default)
  | _ => raise (AttributeError "get")
  end.

(** [s.replace(c, d)] for one-character [c] and [d] *)
Fixpoint str_replace (c d : ascii) (s : string) : string :=
  match s with
  | EmptyString => EmptyString
  | String a s' => String (if Ascii.eqb a c then d else a) (str_replace c d s')
  end.

(** ** OSV parsing and STIX object creation *)

Section Objects.
Context `{Library}.

Definition stix2_File (name sha256 summary : PyVal) : M File :=
  let f := mkFile (File_generate_id name sha256) name sha256 summary [TLP_CLEAR_ID] in
  if File_accepts f then ret f else raise (InvalidValueError "File").

Definition stix2_ExternalReference (source_name url : string) : M ExternalReference :=
  let r := mkExternalReference source_name url in
  if ExternalReference_accepts r then ret r else raise (InvalidValueError "ExternalReference").

Definition stix2_Indicator (i : Indicator) : M Indicator :=
  if Indicator_accepts i then ret i else raise (InvalidValueError "Indicator").

Definition stix2_Relationship (r : Relationship) : M Relationship :=
  if Relationship_accepts r then ret r else raise (InvalidValueError "Relationship").

(** [osv_data.get("summary") or osv_data.get("details") or "Malicious package"] *)
Definition summary_of (osv_data : PyVal) : M PyVal :=
  s <- py_get osv_data "summary" PNone ;;
  if truthy s then ret s
  else
    d <- py_get osv_data "details" PNone ;;
    ret (py_or d (PStr "Malicious package")).

Definition sha256_pattern (sha256 : PyVal) : string :=
  "[file:hashes.'SHA-256' = '" ++ format_value sha256 ++ "']".

Definition _create_objects_for_entry (self : Connector) (osv_data : PyVal)
    (source_url : string) : M (list StixObject) :=
  let objects : list StixObject := [] in
  osv_id <- py_get osv_data "id" PNone ;;
  summary <- summary_of osv_data ;;
  if negb (truthy osv_id) then
    log_error MsgNoId ;;;
    ret objects
  else
    (* SHA-256 from database_specific.malicious-packages-origins[0].sha256 *)
    let sha256 := PNone in
    db_spec <- py_get osv_data "database_specific" (PDict []) ;;
    o <- py_get db_spec "malicious-packages-origins" PNone ;;
    origins <- (if truthy o then ret o
                else py_get db_spec
                       (str_replace "_" "-" "malicious-packages-origins") PNone) ;;
    sha256 <- match origins with
              | PList (first :: _) => py_get first "sha256" PNone
              | _ => ret sha256
              end ;;
    if negb (truthy sha256) then
      log_error (MsgNoSha256 osv_id) ;;;
      ret objects
    else
      let pattern := sha256_pattern sha256 in
      file_sco <- stix2_File osv_id sha256 summary ;;
      ext_ref <- stix2_ExternalReference "ossf-malicious-packages" source_url ;;
      indicator <- stix2_Indicator
        (mkIndicator (Indicator_generate_id pattern)
           ("Malicious package " ++ format_value osv_id)
           summary
           (sha256_pattern sha256)
           "stix"
           [ext_ref]
           [TLP_CLEAR_ID]
           "File"
           (default_score self)) ;;
      let relationship_type := "based-on" in
      let source_ref := indicator_id indicator in
      let target_ref := file_id file_sco in
      relation <- stix2_Relationship
        (mkRelationship
           (StixCoreRelationship_generate_id relationship_type source_ref target_ref)
           relationship_type source_ref target_ref [TLP_CLEAR_ID]) ;;
      ret (objects ++ [SCO file_sco; SDO indicator; SRO relation]).

End Objects.

(** ** The local clone and the repository history *)

(** What [os.walk] sees below a path: regular files, with the time they were
    last modified, and directories, with their entries in listing order. *)
Inductive Node : Type :=
| RegularFile (mtime : Z)
| Directory (entries : list (string * Node)).

Definition is_dir (n : Node) : bool :=
  match n with Directory _ => true | RegularFile _ => false end.

Definition dirnames (entries : list (string * Node)) : list string :=
  map fst (filter (fun e => is_dir (snd e)) entries).
Definition filenames (entries : list (string * Node)) : list string :=
  map fst (filter (fun e => negb (is_dir (snd e))) entries).

(** [os.walk(top)], top-down, with the default [onerror=None]: a [top] that
    is not a directory yields nothing. *)
Fixpoint os_walk (top : string) (n : Node) : list (string * list string * list string) :=
  match n with
  | RegularFile _ => []
  | Directory entries =>
      (top, dirnames entries, filenames entries) ::
      (fix subdirs (es : list (string * Node)) :=
         match es with
         | [] => []
         | (name, child) :: es' => os_walk (path_join top name) child ++ subdirs es'
         end) entries
  end.

(** A tree of the history: what it records at each path, the mode and the
    blob of the file, as one string. *)
Definition Snapshot : Type := list (string * string).

Fixpoint blob_at (t : Snapshot) (path : string) : option string :=
  match t with
  | [] => None
  | (p, b) :: t' => if String.eqb p path then Some b else blob_at t' path
  end.

Definition option_string_eqb (a b : option string) : bool :=
  match a, b with
  | Some x, Some y => String.eqb x y
  | None, None => true
  | _, _ => false
  end.

(** A path matches the pathspec [dir] when it is [dir] or lies below it. *)
Definition under (dir path : string) : bool :=
  String.eqb path dir || startswith path (dir ++ "/").

(** The path is in one tree and not in the other, or the two trees record
    different files for it. *)
Definition differs (a b : Snapshot) (path : string) : bool :=
  negb (option_string_eqb (blob_at a path) (blob_at b path)).

(** The path is in the old tree and no longer in the new one. *)
Definition deleted (a b : Snapshot) (path : string) : bool :=
  match blob_at a path, blob_at b path with
  | Some _, None => true
  | _, _ => false
  end.

(** The path is in the new tree and was not in the old one. *)
Definition added (a b : Snapshot) (path : string) : bool :=
  match blob_at a path, blob_at b path with
  | None, Some _ => true
  | _, _ => false
  end.

(** git lists paths in byte order. *)
Fixpoint insert_path (p : string) (l : list string) : list string :=
  match l with
  | [] => [p]
  | q :: l' => if String.leb p q then p :: l else q :: insert_path p l'
  end.

Definition sort_paths (l : list string) : list string := fold_right insert_path [] l.

(** The bytes git does not print as they are (core.quotePath, on by
    default): control characters, the double quote, the backslash, DEL and
    every byte above 127. *)
Definition unusual (c : ascii) : bool :=
  let n := nat_of_ascii c in
  (n <? 32)%nat || (n =? 34)%nat || (n =? 92)%nat || (127 <=? n)%nat.

Fixpoint must_quote (path : string) : bool :=
  match path with
  | EmptyString => false
  | String c path' => unusual c || must_quote path'
  end.

(** What one run finds outside the connector: the outcome of each call to
    git, the file system, the clock and the OpenCTI helper. *)
Record Env : Type := mkEnv {
  initiate_work : string -> Result string;         (* helper.api.work.initiate_work *)
  isdir : string -> bool;                          (* os.path.isdir *)
  check_call : list string -> Result unit;         (* subprocess.check_call, by command *)
  rev_parse_head : Result string;                  (* git rev-parse HEAD *)
  fs_at : string -> option Node;                   (* the local clone, by path *)
  revisions : string -> option Snapshot;           (* the trees git can resolve *)
  rename_detected : Snapshot -> Snapshot -> string -> bool;
                                                   (* git pairs the path with a new one *)
  c_escape : string -> string;                     (* a path with its unusual bytes escaped *)
  sleep_error : Z -> option PyExn;                 (* time.sleep, for a length >= 0 *)
  json_load : string -> Result PyVal;              (* open(path) and json.load *)
  utcnow_isoformat : string;                       (* datetime.now(timezone.utc).isoformat() *)
  create_bundle_error : list StixObject -> option PyExn;
  send_error : nat -> Bundle -> option PyExn;      (* by number of bundles sent before *)
  to_processed_error : WorkMessage -> option PyExn
}.

Definition double_quote : ascii := "034"%char.

(** A path as git prints it: between double quotes and escaped when it
    holds an unusual byte, as it is otherwise. *)
Definition print_path (env : Env) (path : string) : string :=
  if must_quote path
  then String double_quote (c_escape env path ++ String double_quote EmptyString)
  else path.

(** With the default [diff.renames], git pairs a deleted path with an added
    one of similar content, when the diff has one, and lists the pair under
    the new path only. *)
Definition renamed_away (env : Env) (a b : Snapshot) (pathspec path : string) : bool :=
  deleted a b path
  && existsb (fun q => under pathspec q && added a b q) (map fst b)
  && rename_detected env a b path.

(** [git diff --name-only old..new -- pathspec], one path a line, in byte
    order: the paths matching the pathspec that differ between the two
    trees, whether added, modified or deleted, but for the old paths of
    the renames git detects.  The command fails when a revision does not
    resolve. *)
Definition git_diff_name_only (env : Env) (old new pathspec : string)
    : Result (list string) :=
  match revisions env old, revisions env new with
  | Some a, Some b =>
      Ok (map (print_path env)
            (sort_paths
               (filter (fun p => under pathspec p && differs a b p
                                 && negb (renamed_away env a b pathspec p))
                       (nodup string_dec (map fst a ++ map fst b)))))
  | _, _ => Raise (ExternalError "git diff")
  end.

(** [range(start, stop, step)] for a positive [step] *)
Definition py_range (start stop step : nat) : list nat :=
  map (fun k => start + k * step) (seq 0 ((stop - start + step - 1) / step)).

(** [l[i:j]] for [0 <= i] and [0 <= j] *)
Definition py_slice {A} (l : list A) (i j : nat) : list A :=
  firstn (j - i) (skipn i l).

(** [for x in xs: acc = body(x, acc)]: the loop stops at the first exception. *)
Fixpoint for_each {A S} (xs : list A) (body : A -> S -> M S) (acc : S) : M S :=
  match xs with
  | [] => ret acc
  | x :: xs' => acc' <- body x acc ;; for_each xs' body acc'
  end.

(** Reading a name in a function body: the value bound to it, or
    [NameError].  [scope] lists the bindings visible at that point. *)
Fixpoint load_name {A} (scope : list (string * A)) (name : string) : M A :=
  match scope with
  | [] => raise (NameError name)
  | (n, v) :: scope' => if String.eqb n name then ret v else load_name scope' name
  end.

(** The helper's calls *)

Definition get_state : M PyVal := fun w => (Ok (connector_state w), w).

Definition set_state (new_state : Dict) : M unit :=
  fun w => (Ok tt, mkWorld (PDict new_state) (log w) (sent w) (processed w)).

Definition stix2_create_bundle (env : Env) (objects : list StixObject) : M Bundle :=
  match create_bundle_error env objects with
  | None => ret (mkBundle objects)
  | Some e => raise e
  end.

Definition send_stix2_bundle (env : Env) (bundle : Bundle) : M unit :=
  fun w => match send_error env (length (sent w)) bundle with
           | None => (Ok tt, mkWorld (connector_state w) (log w) (sent w ++ [bundle]) (processed w))
           | Some e => (Raise e, w)
           end.

Definition to_processed (env : Env) (work_id : string) (message : WorkMessage) : M unit :=
  fun w => match to_processed_error env message with
           | None => (Ok tt, mkWorld (connector_state w) (log w) (sent w)
                                     (processed w ++ [(work_id, message)]))
           | Some e => (Raise e, w)
           end.

(** ** The connector's methods *)

Section Connector.
Context `{Library}.
Variable self : Connector.
Variable env : Env.

(** Clone or pull the OSSF malicious-packages repo. *)
Definition _init_or_update_repo : M unit :=
  if negb (isdir env (local_repo_path self)) then
    log_info (MsgCloning (github_repo_url self) (local_repo_path self)) ;;;
    lift (check_call env ["git"; "clone"; "--branch"; github_branch self;
                          github_repo_url self; local_repo_path self])
  else
    log_info (MsgUpdating (local_repo_path self)) ;;;
    lift (check_call env ["git"; "-C"; local_repo_path self; "fetch"; "origin";
                          github_branch self]) ;;;
    lift (check_call env ["git"; "-C"; local_repo_path self; "checkout";
                          github_branch self]) ;;;
    lift (check_call env ["git"; "-C"; local_repo_path self; "pull"; "origin";
                          github_branch self]).

(** The current HEAD commit hash of the local repo. *)
Definition _get_current_head : M string := lift (rev_parse_head env).

(** The JSON files under osv/malicious that changed between [old_commit]
    and [new_commit]; all of them when [old_commit] is [None]. *)
Definition _get_changed_files (old_commit : PyVal) (new_commit : string)
    : M (list string) :=
  match old_commit with
  | PNone =>
      (* First run: no previous commit -> process all malicious JSONs *)
      let malicious_dir := path_join (path_join (local_repo_path self) "osv") "malicious" in
      let walk := match fs_at env malicious_dir with
                  | Some n => os_walk malicious_dir n
                  | None => []
                  end in
      ret (flat_map (fun '(root, _, files) =>
                       map (path_join root)
                           (filter (fun f => endswith f ".json") files)) walk)
  | _ =>
      (* Normal run: only files changed between old_commit and new_commit *)
      output <- lift (git_diff_name_only env (format_value old_commit) new_commit
                        "osv/malicious") ;;
      ret (map (path_join (local_repo_path self))
               (filter (fun p => endswith p ".json") output))
  end.

(** The parsed file, or [None] with an error logged when reading or parsing
    raised. *)
Definition _parse_osv_json (file_path : string) : M PyVal :=
  try_except (lift (json_load env file_path))
             (fun e => log_error (MsgParseFailed file_path e) ;;; ret PNone).

Definition _build_github_blob_url (file_path commit : string) : string :=
  let repo_http := github_repo_url self in
  let repo_http := if endswith repo_http ".git"
                   then substring 0 (String.length repo_http - 4) repo_http
                   else repo_http in
  let rel_path := relpath file_path (local_repo_path self) in
  repo_http ++ "/blob/" ++ commit ++ "/" ++ rel_path.

(** Step 4 of a run: parse each changed file and create its STIX objects. *)
Definition collect_objects (changed_files : list string) (current_head : string)
    : M (list StixObject) :=
  for_each changed_files
    (fun file_path all_objects =>
       parsed <- _parse_osv_json file_path ;;
       if negb (truthy parsed) then ret all_objects
       else
         let github_url := _build_github_blob_url file_path current_head in
         objs <- _create_objects_for_entry self parsed github_url ;;
         match objs with
         | [] => ret all_objects
         | _ => ret (all_objects ++ objs)
         end)
    [].

Definition CHUNK_SIZE : nat := 5000.

(** One pass of the chunk loop of step 5.  The argument of
    [stix2_create_bundle] is the name [chunck]; the function binds
    [all_objects] and [chunk], and the module binds no name [chunck]. *)
Definition send_chunk (all_objects : list StixObject) (i chunk_index : nat) : M nat :=
  let chunk_index := chunk_index + 1 in
  let chunk := py_slice all_objects i (i + CHUNK_SIZE) in
  chunck <- load_name [("all_objects", all_objects); ("chunk", chunk)] "chunck" ;;
  bundle_str <- stix2_create_bundle env chunck ;;
  log_info (MsgSendingChunk chunk_index (length chunk) i (i + length chunk - 1)) ;;;
  send_stix2_bundle env bundle_str ;;;
  ret chunk_index.

(** The body of the [try] of step 5: bundle and send to OpenCTI, in chunks. *)
Definition send_in_chunks (all_objects : list StixObject) (total : nat) : M unit :=
  let chunk_index := 0 in
  for_each (py_range 0 total CHUNK_SIZE) (send_chunk all_objects) chunk_index ;;;
  ret tt.

(** How a block ends: by falling through, or by [return]. *)
Inductive Flow : Type := Next | Return.

Definition _process_once : M unit :=
  log_info MsgStarting ;;;
  let friendly_name := "OSSF Malicious Packages full run" in
  work_id <- lift (initiate_work env friendly_name) ;;
  (* 1. Ensure repository is up-to-date *)
  _init_or_update_repo ;;;
  current_head <- _get_current_head ;;
  (* 2. Get connector state *)
  st <- get_state ;;
  let state := py_or st (PDict []) in
  last_commit <- py_get state "last_commit" PNone ;;
  log_info (MsgLastCommit last_commit current_head) ;;;
  (* 3. Determine which JSON files to process *)
  changed_files <- _get_changed_files last_commit current_head ;;
  log_info (MsgFound (length changed_files)) ;;;
  (* 4. Parse each changed file and create STIX objects *)
  all_objects <- collect_objects changed_files current_head ;;
  flow <- match all_objects with
          | [] => log_info MsgNoNewObjects ;;; ret Next
          | _ =>
              (* 5. Bundle and send to OpenCTI, in chunks *)
              let total := length all_objects in
              log_info (MsgPreparing total CHUNK_SIZE) ;;;
              try_except
                (send_in_chunks all_objects total ;;; ret Next)
                (fun e =>
                   log_error (MsgBundleImportFailed e) ;;;
                   to_processed env work_id (WorkFailed e) ;;;
                   ret Return)        (* Don't update state if import failed *)
          end ;;
  match flow with
  | Return => ret tt
  | Next =>
      (* 6. Update connector state *)
      let new_state := [("last_commit", PStr current_head);
                        ("last_run", PStr (utcnow_isoformat env))] in
      set_state new_state ;;;
      log_info (MsgStateUpdated new_state) ;;;
      (* 7. Mark work as processed in OpenCTI *)
      to_processed env work_id (WorkDone current_head) ;;;
      log_info (MsgSuccess current_head)
  end.

(** [time.sleep(secs)] for an [int]: a negative length is refused. *)
Definition time_sleep (secs : Z) : M unit :=
  if (secs <? 0)%Z then raise (ValueError "sleep length must be non-negative")
  else match sleep_error env secs with
       | Some e => raise e
       | None => ret tt
       end.

(** One turn of the main loop of [run]. *)
Definition run_once : M unit :=
  try_except _process_once (fun e => log_error (MsgProcessingError e)) ;;;
  log_info (MsgSleeping (run_interval self)) ;;;
  time_sleep (run_interval self).

End Connector.

(** * Specification vocabulary *)

(** The hash a record declares: the [sha256] of the first entry of
    [database_specific["malicious-packages-origins"]], when the record has
    that shape. *)
Definition declared_sha256 (d : Dict) : option PyVal :=
  match dict_get_default d "database_specific" (PDict []) with
  | PDict db =>
      match dict_get_default db "malicious-packages-origins" PNone with
      | PList (PDict first :: _) => Some (dict_get_default first "sha256" PNone)
      | _ => None
      end
  | _ => None
  end.

(** [osv_data.get("summary") or osv_data.get("details") or "Malicious package"]
    on a dict *)
Definition fallback_summary (d : Dict) : PyVal :=
  py_or (dict_get_default d "summary" PNone)
        (py_or (dict_get_default d "details" PNone) (PStr "Malicious package")).

(** The three objects of a record with id [osv_id] and hash [sha256]. *)
Definition triple `{Library} (self : Connector) (osv_id sha256 summary : PyVal)
    (source_url : string) : list StixObject :=
  let indicator := Indicator_generate_id (sha256_pattern sha256) in
  let file := File_generate_id osv_id sha256 in
  [ SCO (mkFile file osv_id sha256 summary [TLP_CLEAR_ID]);
    SDO (mkIndicator indicator ("Malicious package " ++ format_value osv_id)%string
           summary (sha256_pattern sha256) "stix"
           [mkExternalReference "ossf-malicious-packages" source_url]
           [TLP_CLEAR_ID] "File" (default_score self));
    SRO (mkRelationship
           (StixCoreRelationship_generate_id "based-on" indicator file)
           "based-on" indicator file [TLP_CLEAR_ID]) ].

(** [file_below top n name p]: the directory [n], found at path [top], holds
    at some depth a regular file called [name] whose path is [p]. *)
Inductive file_below : string -> Node -> string -> string -> Prop :=
| file_here : forall top entries name mtime,
    In (name, RegularFile mtime) entries ->
    file_below top (Directory entries) name (path_join top name)
| file_deeper : forall top entries dir child name p,
    In (dir, child) entries ->
    file_below (path_join top dir) child name p ->
    file_below top (Directory entries) name p.

(** The chunks the loop of step 5 cuts: [all_objects[i : i + CHUNK_SIZE]]
    for [i] in [range(0, total, CHUNK_SIZE)]. *)
Definition loop_chunks {A} (all_objects : list A) : list (list A) :=
  map (fun i => py_slice all_objects i (i + CHUNK_SIZE))
      (py_range 0 (length all_objects) CHUNK_SIZE).

(** The JSON files one directory listing of [os.walk] contributes. *)
Definition json_paths (entry : string * list string * list string) : list string :=
  let '(root, _, files) := entry in
  map (path_join root) (filter (fun f => endswith f ".json") files).

(** The directory the first run walks. *)
Definition malicious_dir (self : Connector) : string :=
  path_join (path_join (local_repo_path self) "osv") "malicious".

(** The records a computation added to the log. *)
Definition logged (w w' : World) : list (Level * Message) :=
  skipn (length (log w)) (log w').

(** [appends P w w']: from [w] to [w'] the connector state was left alone
    and the log grew by records that satisfy [P]. *)
Definition appends (P : Level * Message -> Prop) (w w' : World) : Prop :=
  connector_state w' = connector_state w /\
  exists delta, log w' = log w ++ delta /\ Forall P delta.

Definition keeps {A} (P : Level * Message -> Prop) (m : M A) : Prop :=
  forall w, appends P w (snd (m w)).

(** [grows P m]: whatever [m] does, the log only grows, by records that
    satisfy [P]. *)
Definition grows {A} (P : Level * Message -> Prop) (m : M A) : Prop :=
  forall w, exists delta, log (snd (m w)) = log w ++ delta /\ Forall P delta.

(** [preserves f m]: [m] leaves the component [f] of the world as it was. *)
Definition preserves {A X} (f : World -> X) (m : M A) : Prop :=
  forall w, f (snd (m w)) = f w.

(** [world_blind m]: the result of [m] does not depend on the world it
    runs in. *)
Definition world_blind {A} (m : M A) : Prop :=
  forall w1 w2, fst (m w1) = fst (m w2).

Definition not_import_failed (r : Level * Message) : Prop :=
  match snd r with
  | MsgBundleImportFailed _ => False
  | _ => True
  end.

Definition not_preparing (r : Level * Message) : Prop :=
  match snd r with
  | MsgPreparing _ _ => False
  | _ => True
  end.

Definition not_last_commit (r : Level * Message) : Prop :=
  match snd r with
  | MsgLastCommit _ _ => False
  | _ => True
  end.

(** The git commands [_init_or_update_repo] runs, in order. *)
Definition repo_commands (self : Connector) (env : Env) : list (list string) :=
  if isdir env (local_repo_path self)
  then [ ["git"; "-C"; local_repo_path self; "fetch"; "origin"; github_branch self];
         ["git"; "-C"; local_repo_path self; "checkout"; github_branch self];
         ["git"; "-C"; local_repo_path self; "pull"; "origin"; github_branch self] ]
  else [ ["git"; "clone"; "--branch"; github_branch self; github_repo_url self;
          local_repo_path self] ].

(** Every git command of the update succeeds. *)
Definition repo_ready (self : Connector) (env : Env) : Prop :=
  Forall (fun cmd => check_call env cmd = Ok tt) (repo_commands self env).

(** What [_init_or_update_repo] logs before it calls git. *)
Definition repo_record (self : Connector) (env : Env) : Level * Message :=
  if isdir env (local_repo_path self)
  then (INFO, MsgUpdating (local_repo_path self))
  else (INFO, MsgCloning (github_repo_url self) (local_repo_path self)).

(** The state a run saves in step 6. *)
Definition new_state_of (current_head : string) (env : Env) : Dict :=
  [("last_commit", PStr current_head); ("last_run", PStr (utcnow_isoformat env))].

(** * Sample data *)

Module Sample.

(** Identifier generators that keep their arguments readable, and
    constructors that accept everything. *)
Definition library : Library := {|
  File_generate_id := fun name sha256 =>
    (("file--" ++ match sha256 with PStr s => s | _ => "" end ++ "/")
       ++ match name with PStr s => s | _ => "" end)%string;
  Indicator_generate_id := fun pattern => ("indicator--" ++ pattern)%string;
  StixCoreRelationship_generate_id := fun kind source target =>
    (("relationship--" ++ kind ++ "/" ++ source ++ "/") ++ target)%string;
  File_accepts := fun _ => true;
  ExternalReference_accepts := fun _ => true;
  Indicator_accepts := fun _ => true;
  Relationship_accepts := fun _ => true;
  py_str := fun _ => "";
  relpath := fun path start =>
    substring (String.length start + 1) (String.length path) path
|}.

Definition connector : Connector := {|
  github_repo_url := "https://github.com/ossf/malicious-packages.git";
  github_branch := "main";
  local_repo_path := "/data/repo";
  run_interval := 3600;
  default_score := 80
|}.

Definition fields (osv_id : string) (extra : Dict) (origins : PyVal) : Dict :=
  [("id", PStr osv_id)] ++ extra ++
  [("database_specific", PDict [("malicious-packages-origins", origins)])].

(** A well-formed record. *)
Definition fields_1 : Dict :=
  fields "MAL-1" [("summary", PStr "bad pkg")] (PList [PDict [("sha256", PStr "abc123")]]).
Definition mal_1 : PyVal := PDict fields_1.

(** The same hash under another id. *)
Definition fields_2 : Dict :=
  fields "MAL-2" [("summary", PStr "bad pkg")] (PList [PDict [("sha256", PStr "abc123")]]).
Definition mal_2 : PyVal := PDict fields_2.

(** An empty summary, with details. *)
Definition fields_3 : Dict :=
  fields "MAL-3" [("summary", PStr ""); ("details", PStr "steals tokens")]
         (PList [PDict [("sha256", PStr "abc123")]]).
Definition mal_3 : PyVal := PDict fields_3.

(** A record whose first origin is a string, not an object. *)
Definition mal_5 : PyVal :=
  PDict (fields "MAL-5" [] (PList [PStr "abc123"])).

(** A record whose [database_specific] is [null]. *)
Definition mal_6 : PyVal :=
  PDict [("id", PStr "MAL-6"); ("database_specific", PNone)].

(** A record without [database_specific]. *)
Definition mal_7 : PyVal := PDict [("id", PStr "MAL-7")].

(** The well-formed record with the fields of a full OSV entry around it. *)
Definition fields_1_full : Dict :=
  [("schema_version", PStr "1.5.0"); ("modified", PStr "2024-04-01T00:00:00Z")]
  ++ fields_1 ++ [("affected", PList [PDict [("package", PDict [("name", PStr "evil")])]])].

(** The well-formed record with a second origin. *)
Definition fields_1_two_origins : Dict :=
  fields "MAL-1" [("summary", PStr "bad pkg")]
         (PList [PDict [("sha256", PStr "abc123")]; PDict [("sha256", PStr "def456")]]).

(** A record whose origins are not a list. *)
Definition fields_9 : Dict := fields "MAL-9" [] (PStr "abc123").

Definition world0 : World := mkWorld PNone [] [] [].

(** A state left by an earlier run. *)
Definition world1 : World :=
  mkWorld (PDict [("last_commit", PStr "a1"); ("last_run", PStr "2024-04-30T00:00:00+00:00")])
          [] [] [].

(** A clone at revision [b2] whose osv/malicious holds [files] under
    npm/evil, each with what opening and parsing it gives. *)
Definition clone (files : list (string * Result PyVal)) : Env := {|
  initiate_work := fun _ => Ok "work-1";
  isdir := fun p => String.eqb p "/data/repo";
  check_call := fun _ => Ok tt;
  rev_parse_head := Ok "b2";
  fs_at := fun p =>
    if String.eqb p "/data/repo/osv/malicious"
    then Some (Directory
                 [("npm", Directory
                            [("evil", Directory (map (fun f => (fst f, RegularFile 1700000000))
                                                      files));
                             ("README.md", RegularFile 5)])])
    else None;
  revisions := fun r =>
    if String.eqb r "a1"
    then Some [("osv/malicious/npm/evil/MAL-0.json", "blob-0");
               ("osv/malicious/npm/evil/MAL-1.json", "blob-1");
               ("README.md", "blob-r")]
    else if String.eqb r "b2"
    then Some (map (fun f => (("osv/malicious/npm/evil/" ++ fst f)%string, "blob-b2")) files
               ++ [("README.md", "blob-r2")])
    else None;
  rename_detected := fun _ _ _ => false;
  c_escape := fun p => p;
  sleep_error := fun _ => None;
  json_load := fun p =>
    match find (fun f => String.eqb (fst f)
                           (substring (String.length "/data/repo/osv/malicious/npm/evil/")
                                      (String.length p) p)) files with
    | Some f => snd f
    | None => Raise (ExternalError "open")
    end;
  utcnow_isoformat := "2024-05-01T00:00:00+00:00";
  create_bundle_error := fun _ => None;
  send_error := fun _ _ => None;
  to_processed_error := fun _ => None
|}.

(** One well-formed record. *)
Definition env : Env := clone [("MAL-1.json", Ok mal_1)].

(** A file that does not parse and a malformed record, ahead of a
    well-formed one. *)
Definition env_malformed : Env :=
  clone [("MAL-8.json", Raise (ExternalError "json.load"));
         ("MAL-5.json", Ok mal_5);
         ("MAL-1.json", Ok mal_1)].

(** A record that yields no object. *)
Definition env_quiet : Env := clone [("MAL-7.json", Ok mal_7)].



(** The remote cannot be reached: every git command of the update fails. *)
Definition env_offline : Env := {|
  initiate_work := initiate_work env;
  isdir := isdir env;
  check_call := fun _ => Raise (ExternalError "git");
  rev_parse_head := rev_parse_head env;
  fs_at := fs_at env;
  revisions := revisions env;
  rename_detected := rename_detected env;
  c_escape := c_escape env;
  sleep_error := sleep_error env;
  json_load := json_load env;
  utcnow_isoformat := utcnow_isoformat env;
  create_bundle_error := create_bundle_error env;
  send_error := send_error env;
  to_processed_error := to_processed_error env
|}.

End Sample.

(** * More of the connector, and the vocabulary to speak of it *)

Definition is_dict (v : PyVal) : bool :=
  match v with PDict _ => true | _ => false end.

(** What [_create_objects_for_entry] does with a record, read off its
    branches: it logs a reason and returns nothing, it calls [.get] on a
    value that is not a dict, or it reaches the constructors with a hash. *)
Inductive Verdict : Type :=
| Skips (reason : Message)
| Trips
| Builds (sha256 : PyVal).

Definition verdict (osv_data : PyVal) : Verdict :=
  match osv_data with
  | PDict d =>
      let osv_id := dict_get_default d "id" PNone in
      if negb (truthy osv_id) then Skips MsgNoId
      else
        match dict_get_default d "database_specific" (PDict []) with
        | PDict db =>
            match dict_get_default db "malicious-packages-origins" PNone with
            | PList (PDict first :: _) =>
                let sha256 := dict_get_default first "sha256" PNone in
                if truthy sha256 then Builds sha256 else Skips (MsgNoSha256 osv_id)
            | PList (_ :: _) => Trips
            | _ => Skips (MsgNoSha256 osv_id)
            end
        | _ => Trips
        end
  | _ => Trips
  end.

(** All four constructors accept what the builder passes them for a record
    with id [osv_id] and hash [sha256]. *)
Definition library_accepts `{Library} (self : Connector) (osv_id sha256 summary : PyVal)
    (source_url : string) : bool :=
  let indicator := Indicator_generate_id (sha256_pattern sha256) in
  let file := File_generate_id osv_id sha256 in
  File_accepts (mkFile file osv_id sha256 summary [TLP_CLEAR_ID])
  && ExternalReference_accepts (mkExternalReference "ossf-malicious-packages" source_url)
  && Indicator_accepts
       (mkIndicator indicator ("Malicious package " ++ format_value osv_id)%string
          summary (sha256_pattern sha256) "stix"
          [mkExternalReference "ossf-malicious-packages" source_url]
          [TLP_CLEAR_ID] "File" (default_score self))
  && Relationship_accepts
       (mkRelationship (StixCoreRelationship_generate_id "based-on" indicator file)
          "based-on" indicator file [TLP_CLEAR_ID]).

(** [object_marking_refs] of an object *)
Definition marking_refs (o : StixObject) : list string :=
  match o with
  | SCO f => file_marking_refs f
  | SDO i => indicator_marking_refs i
  | SRO r => relationship_marking_refs r
  end.

(** A world with one more record in its log. *)
Definition with_log (w : World) (records : list (Level * Message)) : World :=
  mkWorld (connector_state w) (log w ++ records) (sent w) (processed w).

(** The main loop of [run], cut after [turns] turns.  [envs k] is what turn
    [k] finds outside the connector.  An exception of [time.sleep] is not
    caught and ends the loop. *)
Fixpoint run_turns `{Library} (self : Connector) (envs : nat -> Env) (turns : nat)
    : M unit :=
  match turns with
  | 0 => ret tt
  | S n => run_once self (envs 0) ;;; run_turns self (fun k => envs (S k)) n
  end.

(** [run], cut after [turns] turns of its loop. *)
Definition run `{Library} (self : Connector) (envs : nat -> Env) (turns : nat) : M unit :=
  log_info MsgMainLoop ;;; run_turns self envs turns.

(** The body of the file loop of step 4, for one changed file. *)
Definition collect_step `{Library} (self : Connector) (env : Env) (current_head : string)
    (file_path : string) (all_objects : list StixObject) : M (list StixObject) :=
  parsed <- _parse_osv_json env file_path ;;
  if negb (truthy parsed) then ret all_objects
  else
    let github_url := _build_github_blob_url self file_path current_head in
    objs <- _create_objects_for_entry self parsed github_url ;;
    match objs with
    | [] => ret all_objects
    | _ => ret (all_objects ++ objs)
    end.

(** What the parser logs for a file, if anything. *)
Definition parse_log (env : Env) (file_path : string) : list (Level * Message) :=
  match json_load env file_path with
  | Raise e => [(ERROR, MsgParseFailed file_path e)]
  | Ok _ => []
  end.

(** A file the loop passes over before building anything: it cannot be read
    or parsed, or it parses to a falsy value (null, {}, [], "", 0, false). *)
Definition passed_over (env : Env) (file_path : string) : Prop :=
  match json_load env file_path with
  | Raise _ => True
  | Ok v => truthy v = false
  end.

Definition is_sleeping (r : Level * Message) : bool :=
  match snd r with
  | MsgSleeping _ => true
  | _ => false
  end.

Definition not_sleeping (r : Level * Message) : Prop :=
  match snd r with
  | MsgSleeping _ => False
  | _ => True
  end.

(** Two worlds that differ at most in the connector state. *)
Definition agree (w1 w2 : World) : Prop :=
  log w1 = log w2 /\ sent w1 = sent w2 /\ processed w1 = processed w2.

(** [w] with another connector state. *)
Definition with_state (s : PyVal) (w : World) : World :=
  mkWorld s (log w) (sent w) (processed w).

(** [state_blind m]: [m] neither reads nor writes the connector state. *)
Definition state_blind {A} (m : M A) : Prop :=
  forall w s, m (with_state s w) = (fst (m w), with_state s (snd (m w))).

(** * What the monad's operations leave alone *)

Lemma appends_refl (P : Level * Message -> Prop) (w : World) : appends P w w.
Proof.
  split; [reflexivity|]. exists []. rewrite app_nil_r. split; [reflexivity|constructor].
Qed.

Lemma appends_trans (P : Level * Message -> Prop) (w1 w2 w3 : World) :
  appends P w1 w2 -> appends P w2 w3 -> appends P w1 w3.
Proof.
  intros [Hs1 (d1 & Hl1 & Hp1)] [Hs2 (d2 & Hl2 & Hp2)]. split.
  - congruence.
  - exists (d1 ++ d2). split.
    + rewrite Hl2, Hl1, app_assoc. reflexivity.
    + apply Forall_app. split; assumption.
Qed.

Lemma appends_logged (P : Level * Message -> Prop) (w w' : World) :
  appends P w w' -> Forall P (logged w w').
Proof.
  intros [_ (d & Hl & Hp)]. unfold logged. rewrite Hl.
  rewrite skipn_app, skipn_all, Nat.sub_diag. simpl. exact Hp.
Qed.

Lemma logged_app (w w' : World) (delta : list (Level * Message)) :
  log w' = log w ++ delta -> logged w w' = delta.
Proof.
  intros Hl. unfold logged. rewrite Hl, skipn_app, skipn_all, Nat.sub_diag.
  reflexivity.
Qed.

Section Keeps.
Variable P : Level * Message -> Prop.

Lemma keeps_ret {A} (a : A) : keeps P (ret a).
Proof. intros w. apply appends_refl. Qed.

Lemma keeps_raise {A} (e : PyExn) : keeps P (@raise A e).
Proof. intros w. apply appends_refl. Qed.

Lemma keeps_lift {A} (r : Result A) : keeps P (lift r).
Proof. intros w. apply appends_refl. Qed.

Lemma keeps_bind {A B} (m : M A) (k : A -> M B) :
  keeps P m -> (forall a, keeps P (k a)) -> keeps P (bind m k).
Proof.
  intros Hm Hk w. unfold bind. specialize (Hm w).
  destruct (m w) as [[a|e] w1]; simpl in *.
  - eapply appends_trans; [exact Hm|apply Hk].
  - exact Hm.
Qed.

Lemma keeps_try_except {A} (body : M A) (handler : PyExn -> M A) :
  keeps P body -> (forall e, keeps P (handler e)) -> keeps P (try_except body handler).
Proof.
  intros Hm Hk w. unfold try_except. specialize (Hm w).
  destruct (body w) as [[a|e] w1]; simpl in *.
  - exact Hm.
  - eapply appends_trans; [exact Hm|apply Hk].
Qed.

Lemma keeps_log_info (m : Message) : P (INFO, m) -> keeps P (log_info m).
Proof.
  intros Hp w. split; [reflexivity|]. exists [(INFO, m)]. split; [reflexivity|].
  constructor; [exact Hp|constructor].
Qed.

Lemma keeps_log_error (m : Message) : P (ERROR, m) -> keeps P (log_error m).
Proof.
  intros Hp w. split; [reflexivity|]. exists [(ERROR, m)]. split; [reflexivity|].
  constructor; [exact Hp|constructor].
Qed.

Lemma keeps_py_get (v : PyVal) (k : string) (default : PyVal) :
  keeps P (py_get v k default).
Proof. destruct v; simpl; first [apply keeps_ret|apply keeps_raise]. Qed.

Lemma keeps_for_each {A S} (xs : list A) (body : A -> S -> M S) :
  (forall x acc, keeps P (body x acc)) -> forall acc, keeps P (for_each xs body acc).
Proof.
  intros Hb. induction xs as [|x xs IH]; intros acc; simpl.
  - apply keeps_ret.
  - apply keeps_bind; [apply Hb|]. intros acc'. apply IH.
Qed.

Lemma keeps_load_name {A} (scope : list (string * A)) (name : string) :
  keeps P (load_name scope name).
Proof.
  induction scope as [|[n v] scope IH]; simpl.
  - apply keeps_raise.
  - destruct (String.eqb n name); [apply keeps_ret|exact IH].
Qed.

Lemma keeps_get_state : keeps P get_state.
Proof. intros w. apply appends_refl. Qed.

Lemma keeps_stix2_create_bundle (env : Env) (objects : list StixObject) :
  keeps P (stix2_create_bundle env objects).
Proof.
  unfold stix2_create_bundle.
  destruct (create_bundle_error env objects); [apply keeps_raise|apply keeps_ret].
Qed.

Lemma keeps_send_stix2_bundle (env : Env) (bundle : Bundle) :
  keeps P (send_stix2_bundle env bundle).
Proof.
  intros w. unfold send_stix2_bundle.
  destruct (send_error env (length (sent w)) bundle); simpl.
  - apply appends_refl.
  - split; [reflexivity|]. exists []. simpl. rewrite app_nil_r. split; [reflexivity|constructor].
Qed.

Lemma keeps_to_processed (env : Env) (work_id : string) (message : WorkMessage) :
  keeps P (to_processed env work_id message).
Proof.
  intros w. unfold to_processed.
  destruct (to_processed_error env message); simpl.
  - apply appends_refl.
  - split; [reflexivity|]. exists []. simpl. rewrite app_nil_r. split; [reflexivity|constructor].
Qed.

End Keeps.

Section Grows.
Variable P : Level * Message -> Prop.

Lemma keeps_grows {A} (m : M A) : keeps P m -> grows P m.
Proof. intros K w. destruct (K w) as [_ Hl]. exact Hl. Qed.

Lemma grows_bind {A B} (m : M A) (k : A -> M B) :
  grows P m -> (forall a, grows P (k a)) -> grows P (bind m k).
Proof.
  intros Hm Hk w. unfold bind. specialize (Hm w).
  destruct (m w) as [[a|e] w1]; simpl in *; [|exact Hm].
  destruct Hm as (d1 & Hl1 & Hp1). destruct (Hk a w1) as (d2 & Hl2 & Hp2).
  exists (d1 ++ d2). split; [rewrite Hl2, Hl1, app_assoc; reflexivity|].
  apply Forall_app. split; assumption.
Qed.

Lemma grows_try_except {A} (body : M A) (handler : PyExn -> M A) :
  grows P body -> (forall e, grows P (handler e)) -> grows P (try_except body handler).
Proof.
  intros Hm Hk w. unfold try_except. specialize (Hm w).
  destruct (body w) as [[a|e] w1]; simpl in *; [exact Hm|].
  destruct Hm as (d1 & Hl1 & Hp1). destruct (Hk e w1) as (d2 & Hl2 & Hp2).
  exists (d1 ++ d2). split; [rewrite Hl2, Hl1, app_assoc; reflexivity|].
  apply Forall_app. split; assumption.
Qed.

Lemma grows_set_state (new_state : Dict) : grows P (set_state new_state).
Proof. intros w. exists []. simpl. rewrite app_nil_r. split; [reflexivity|constructor]. Qed.

End Grows.

(** Splits a [keeps] goal along the structure of the computation. *)
Ltac keeps_step :=
  first
    [ apply keeps_ret | apply keeps_raise | apply keeps_lift
    | apply keeps_py_get | apply keeps_get_state | apply keeps_load_name
    | apply keeps_stix2_create_bundle | apply keeps_send_stix2_bundle
    | apply keeps_to_processed
    | apply keeps_log_info; solve [auto | exact I]
    | apply keeps_log_error; solve [auto | exact I]
    | apply keeps_bind; [|intros]
    | apply keeps_try_except; [|intros]
    | apply keeps_for_each; intros
    | match goal with
      | |- keeps _ (if ?b then _ else _) => destruct b
      | |- keeps _ (match ?x with _ => _ end) => destruct x
      end ].

Section KeepsConnector.
Context `{Library}.
Variable P : Level * Message -> Prop.
Hypothesis P_no_id : P (ERROR, MsgNoId).
Hypothesis P_no_sha256 : forall v, P (ERROR, MsgNoSha256 v).
Hypothesis P_parse_failed : forall path e, P (ERROR, MsgParseFailed path e).
Hypothesis P_sending : forall k n i j, P (INFO, MsgSendingChunk k n i j).

Lemma keeps_create_objects (self : Connector) (osv_data : PyVal) (source_url : string) :
  keeps P (_create_objects_for_entry self osv_data source_url).
Proof.
  unfold _create_objects_for_entry, summary_of, stix2_File, stix2_ExternalReference,
    stix2_Indicator, stix2_Relationship.
  repeat keeps_step.
Qed.

Lemma keeps_init_or_update_repo (self : Connector) (env : Env) :
  (forall url path, P (INFO, MsgCloning url path)) ->
  (forall path, P (INFO, MsgUpdating path)) ->
  keeps P (_init_or_update_repo self env).
Proof.
  intros P_cloning P_updating. unfold _init_or_update_repo.
  destruct (negb (isdir env (local_repo_path self))); repeat keeps_step.
Qed.

Lemma keeps_get_changed_files (self : Connector) (env : Env) (old : PyVal) (new : string) :
  keeps P (_get_changed_files self env old new).
Proof.
  unfold _get_changed_files. destruct old; repeat keeps_step.
Qed.

Lemma keeps_collect_objects (self : Connector) (env : Env)
      (changed_files : list string) (current_head : string) :
  keeps P (collect_objects self env changed_files current_head).
Proof.
  unfold collect_objects. apply keeps_for_each. intros file_path all_objects.
  unfold _parse_osv_json.
  apply keeps_bind; [repeat keeps_step|]. intros parsed.
  destruct (negb (truthy parsed)); [apply keeps_ret|].
  apply keeps_bind; [apply keeps_create_objects|]. intros objs.
  destruct objs; apply keeps_ret.
Qed.

Lemma keeps_send_in_chunks (env : Env) (all_objects : list StixObject) (total : nat) :
  keeps P (send_in_chunks env all_objects total).
Proof.
  unfold send_in_chunks, send_chunk. repeat keeps_step.
Qed.

End KeepsConnector.

(** * One run, stage by stage *)

Lemma bind_ok {A B} (m : M A) (k : A -> M B) (w w1 : World) (a : A) :
  m w = (Ok a, w1) -> bind m k w = k a w1.
Proof. intros E. unfold bind. rewrite E. reflexivity. Qed.

Lemma bind_raise {A B} (m : M A) (k : A -> M B) (w w1 : World) (e : PyExn) :
  m w = (Raise e, w1) -> bind m k w = (Raise e, w1).
Proof. intros E. unfold bind. rewrite E. reflexivity. Qed.

Lemma keeps_at {A} (P : Level * Message -> Prop) (m : M A) (w w1 : World) (r : Result A) :
  keeps P m -> m w = (r, w1) -> appends P w w1.
Proof. intros K E. specialize (K w). rewrite E in K. exact K. Qed.

(** To establish [Post] of the world a [bind] leaves, when [Post] holds of
    every world reached by appending: run the first computation and go on. *)
Lemma post_bind {A B} (P : Level * Message -> Prop) (Post : World -> Prop)
      (m : M A) (k : A -> M B) (w w0 : World) :
  (forall w1, appends P w w1 -> Post w1) ->
  appends P w w0 ->
  keeps P m ->
  (forall a w1, appends P w w1 -> m w0 = (Ok a, w1) -> Post (snd (k a w1))) ->
  Post (snd (bind m k w0)).
Proof.
  intros Hleft K0 Km Hk. destruct (m w0) as [[a|e] w1] eqn:E.
  - rewrite (bind_ok m k w0 w1 a E). apply Hk; [|reflexivity].
    eapply appends_trans; [exact K0|]. eapply keeps_at; [exact Km|exact E].
  - rewrite (bind_raise m k w0 w1 e E). simpl. apply Hleft.
    eapply appends_trans; [exact K0|]. eapply keeps_at; [exact Km|exact E].
Qed.

(** Step 6 and 7: the state is saved, then only the log and the work grow. *)
Lemma save_state_post (P : Level * Message -> Prop) (env : Env)
      (work_id cur : string) (w0 : World) :
  (forall d, P (INFO, MsgStateUpdated d)) ->
  (forall c, P (INFO, MsgSuccess c)) ->
  let w' := snd ((set_state (new_state_of cur env) ;;;
                  log_info (MsgStateUpdated (new_state_of cur env)) ;;;
                  to_processed env work_id (WorkDone cur) ;;;
                  log_info (MsgSuccess cur)) w0) in
  connector_state w' = PDict (new_state_of cur env) /\
  exists delta, log w' = log w0 ++ delta /\ Forall P delta.
Proof.
  intros P1 P2. cbv zeta.
  rewrite (bind_ok _ _ w0
             (mkWorld (PDict (new_state_of cur env)) (log w0) (sent w0) (processed w0)) tt)
    by reflexivity.
  match goal with
  | |- context [snd (?m ?w1)] =>
      assert (K : keeps P m) by (repeat keeps_step); specialize (K w1);
      destruct K as [Ks Kl]; simpl in Ks, Kl
  end.
  split; [exact Ks|exact Kl].
Qed.

(** The handler of step 5 logs the failure, marks the work and returns; it
    never falls through to step 6. *)
Lemma import_failed_handler (env : Env) (work_id : string) (e : PyExn) (wb : World) :
  let r := (log_error (MsgBundleImportFailed e) ;;;
            to_processed env work_id (WorkFailed e) ;;;
            ret Return) wb in
  fst r <> Ok Next /\
  connector_state (snd r) = connector_state wb /\
  log (snd r) = log wb ++ [(ERROR, MsgBundleImportFailed e)].
Proof.
  cbv zeta. unfold bind, log_error, to_processed, ret. simpl.
  destruct (to_processed_error env (WorkFailed e)); simpl;
    (split; [discriminate|split; reflexivity]).
Qed.

(** Runs the first computation of the [bind] applied to a world, naming its
    result and the world it leaves. *)
Ltac run_bind a w1 E :=
  match goal with
  | |- context [bind ?m ?k ?w] =>
      destruct (m w) as [[a|a] w1] eqn:E;
      [ rewrite (bind_ok m k w w1 a E) | rewrite (bind_raise m k w w1 a E) ]
  end.

Section Run.
Context `{Library}.
Variable self : Connector.
Variable env : Env.

(** Every run either leaves the connector state alone, or saves
    [last_commit] and [last_run] and has logged no import failure. *)
Lemma process_once_outcome (w : World) :
  let w' := snd (_process_once self env w) in
  exists delta, log w' = log w ++ delta /\
    (connector_state w' = connector_state w
     \/ exists cur, rev_parse_head env = Ok cur
                     /\ connector_state w' = PDict (new_state_of cur env)
                     /\ Forall not_import_failed delta).
Proof.
  set (P := not_import_failed).
  set (Post := fun w1 : World => exists delta, log w1 = log w ++ delta /\
              (connector_state w1 = connector_state w
               \/ exists cur, rev_parse_head env = Ok cur
                     /\ connector_state w1 = PDict (new_state_of cur env)
                     /\ Forall not_import_failed delta)).
  assert (Hleft : forall w1, appends P w w1 -> Post w1).
  { intros w1 [Hs (d & Hl & _)]. exists d. split; [exact Hl|left; exact Hs]. }
  change (Post (snd (_process_once self env w))). unfold _process_once.
  apply (post_bind P Post _ _ w); [exact Hleft|apply appends_refl|repeat keeps_step|].
  intros _ w1 K1 _.
  apply (post_bind P Post _ _ w); [exact Hleft|exact K1|repeat keeps_step|].
  intros work_id w2 K2 _. clear K1 w1.
  apply (post_bind P Post _ _ w);
    [exact Hleft|exact K2|apply keeps_init_or_update_repo; intros; exact I|].
  intros _ w3 K3 _. clear K2 w2.
  apply (post_bind P Post _ _ w); [exact Hleft|exact K3|apply keeps_lift|].
  intros cur w4 K4 Ecur. clear K3.
  assert (Hcur : rev_parse_head env = Ok cur).
  { unfold _get_current_head, lift in Ecur. inversion Ecur. reflexivity. }
  clear Ecur w3.
  apply (post_bind P Post _ _ w); [exact Hleft|exact K4|apply keeps_get_state|].
  intros st w5 K5 _. clear K4 w4.
  apply (post_bind P Post _ _ w); [exact Hleft|exact K5|apply keeps_py_get|].
  intros last_commit w6 K6 _. clear K5 w5.
  apply (post_bind P Post _ _ w); [exact Hleft|exact K6|repeat keeps_step|].
  intros _ w7 K7 _. clear K6 w6.
  apply (post_bind P Post _ _ w); [exact Hleft|exact K7|apply keeps_get_changed_files|].
  intros changed_files w8 K8 _. clear K7 w7.
  apply (post_bind P Post _ _ w); [exact Hleft|exact K8|repeat keeps_step|].
  intros _ w9 K9 _. clear K8 w8.
  apply (post_bind P Post _ _ w);
    [exact Hleft|exact K9|apply keeps_collect_objects; intros; exact I|].
  intros all_objects w10 K10 _. clear K9 w9.
  (* the last two steps, from a world reached without an import failure *)
  assert (Hsave : forall w11, appends P w w11 ->
            Post (snd ((set_state (new_state_of cur env) ;;;
                        log_info (MsgStateUpdated (new_state_of cur env)) ;;;
                        to_processed env work_id (WorkDone cur) ;;;
                        log_info (MsgSuccess cur)) w11))).
  { intros w11 [Hs (d & Hl & Hd)].
    destruct (save_state_post P env work_id cur w11) as [Hs' (d' & Hl' & Hd')];
      [intros; exact I|intros; exact I|].
    exists (d ++ d'). split; [rewrite Hl', Hl, app_assoc; reflexivity|].
    right. exists cur. split; [exact Hcur|]. split; [exact Hs'|].
    apply Forall_app. split; assumption. }
  destruct all_objects as [|o objs].
  - apply (post_bind P Post _ _ w); [exact Hleft|exact K10|repeat keeps_step|].
    intros flow w11 K11 _. destruct flow; [apply Hsave; exact K11|apply Hleft; exact K11].
  - set (all_objects := o :: objs).
    match goal with
    | |- Post (snd (bind (bind ?m0 (fun _ => try_except ?body ?handler)) ?k ?w0)) =>
        destruct (bind m0 (fun _ => body) w0) as [[flow|e] wb] eqn:Eb;
        assert (Kb : appends P w0 wb)
          by (eapply keeps_at; [|exact Eb]; repeat keeps_step;
              apply keeps_send_in_chunks; intros; exact I)
    end.
    + (* every chunk was sent *)
      unfold bind at 1 2. unfold bind at 1 in Eb.
      destruct (log_info (MsgPreparing (length all_objects) CHUNK_SIZE) w10)
        as [[u|e] wp]; [|discriminate Eb].
      unfold try_except. rewrite Eb.
      assert (Kw : appends P w wb) by (eapply appends_trans; eassumption).
      destruct flow; [apply Hsave; exact Kw|apply Hleft; exact Kw].
    + (* sending raised: the handler runs and the run returns *)
      unfold bind at 1 2. unfold bind at 1 in Eb.
      destruct (log_info (MsgPreparing (length all_objects) CHUNK_SIZE) w10)
        as [[u|e0] wp] eqn:Ep.
      * unfold try_except. rewrite Eb.
        assert (Kw : appends (fun _ => True) w wb).
        { destruct (appends_trans P _ _ _ K10 Kb) as [Hs (d & Hl & _)].
          split; [exact Hs|]. exists d. split; [exact Hl|].
          apply Forall_forall. intros; exact I. }
        match goal with
        | |- context [snd (match ?h wb with _ => _ end)] =>
            destruct (import_failed_handler env work_id e wb) as (Hf & Hs' & Hl');
            destruct (h wb) as [[flow|e1] wh]; simpl in Hf, Hs', Hl'
        end.
        -- destruct flow; [congruence|]. simpl.
           destruct Kw as [Hs (d & Hl & _)].
           exists (d ++ [(ERROR, MsgBundleImportFailed e)]).
           split; [rewrite Hl', Hl, app_assoc; reflexivity|left; congruence].
        -- simpl. destruct Kw as [Hs (d & Hl & _)].
           exists (d ++ [(ERROR, MsgBundleImportFailed e)]).
           split; [rewrite Hl', Hl, app_assoc; reflexivity|left; congruence].
      * inversion Eb; subst. simpl. apply Hleft.
        eapply appends_trans; [exact K10|exact Kb].
Qed.



(** What a run reads from the state is its [last_commit]: the value it logs
    next to the current HEAD. *)
Lemma process_once_reads_last_commit (w : World) (v : PyVal) (c : string) :
  In (INFO, MsgLastCommit v c) (logged w (snd (_process_once self env w))) ->
  rev_parse_head env = Ok c /\
  exists d, py_or (connector_state w) (PDict []) = PDict d /\
            v = dict_get_default d "last_commit" PNone.
Proof.
  set (P := not_last_commit).
  set (Post := fun w1 : World =>
         In (INFO, MsgLastCommit v c) (logged w w1) ->
         rev_parse_head env = Ok c /\
         exists d, py_or (connector_state w) (PDict []) = PDict d /\
                   v = dict_get_default d "last_commit" PNone).
  assert (Hleft : forall w1, appends P w w1 -> Post w1).
  { intros w1 K Hin. exfalso. apply appends_logged in K.
    rewrite Forall_forall in K. exact (K _ Hin). }
  change (Post (snd (_process_once self env w))). unfold _process_once.
  apply (post_bind P Post _ _ w); [exact Hleft|apply appends_refl|repeat keeps_step|].
  intros _ w1 K1 _.
  apply (post_bind P Post _ _ w); [exact Hleft|exact K1|repeat keeps_step|].
  intros work_id w2 K2 _. clear K1 w1.
  apply (post_bind P Post _ _ w);
    [exact Hleft|exact K2|apply keeps_init_or_update_repo; intros; exact I|].
  intros _ w3 K3 _. clear K2 w2.
  apply (post_bind P Post _ _ w); [exact Hleft|exact K3|apply keeps_lift|].
  intros cur w4 K4 Ecur. clear K3.
  assert (Hcur : rev_parse_head env = Ok cur).
  { unfold _get_current_head, lift in Ecur. inversion Ecur. reflexivity. }
  clear Ecur w3.
  apply (post_bind P Post _ _ w); [exact Hleft|exact K4|apply keeps_get_state|].
  intros st w5 K5 Est.
  assert (Hst : st = connector_state w).
  { unfold get_state in Est. destruct K4 as [Hs _]. inversion Est. congruence. }
  clear Est K4 w4.
  apply (post_bind P Post _ _ w); [exact Hleft|exact K5|apply keeps_py_get|].
  intros last_commit w6 K6 Eget. clear K5.
  assert (Hget : exists d, py_or st (PDict []) = PDict d /\
                           last_commit = dict_get_default d "last_commit" PNone).
  { destruct (py_or st (PDict [])) as [| | | | | |d]; simpl in Eget;
      try discriminate Eget.
    exists d. split; [reflexivity|]. unfold ret in Eget. inversion Eget. reflexivity. }
  clear Eget w5. subst st.
  (* the record itself, then nothing like it *)
  match goal with
  | |- Post (snd (bind _ ?k w6)) =>
      assert (G : grows P (k tt))
  end.
  { repeat first
      [ apply grows_set_state
      | apply grows_bind; [|intros]
      | apply grows_try_except; [|intros]
      | match goal with
        | |- grows _ (match ?x with _ => _ end) => destruct x
        end
      | apply keeps_grows;
        solve [ apply keeps_get_changed_files
              | apply keeps_collect_objects; intros; exact I
              | apply keeps_send_in_chunks; intros; exact I
              | repeat keeps_step ] ]. }
  rewrite (bind_ok _ _ w6 (mkWorld (connector_state w6)
                             (log w6 ++ [(INFO, MsgLastCommit last_commit cur)])
                             (sent w6) (processed w6)) tt) by reflexivity.
  match goal with
  | |- Post (snd (?rest ?w7)) => destruct (G w7) as (d2 & Hl2 & Hp2)
  end.
  simpl in Hl2. destruct K6 as [_ (d1 & Hl1 & Hp1)].
  intros Hin.
  rewrite (logged_app w _ (d1 ++ (INFO, MsgLastCommit last_commit cur) :: d2)) in Hin.
  2:{ rewrite Hl2, Hl1, <- !app_assoc. reflexivity. }
  apply in_app_or in Hin. destruct Hin as [Hin|[Heq|Hin]].
  - exfalso. rewrite Forall_forall in Hp1. exact (Hp1 _ Hin).
  - inversion Heq; subst. split; [exact Hcur|exact Hget].
  - exfalso. rewrite Forall_forall in Hp2. exact (Hp2 _ Hin).
Qed.

End Run.

(** * The object builder *)

Lemma world_blind_ret {A} (a : A) : world_blind (ret a).
Proof. intros w1 w2. reflexivity. Qed.

Lemma world_blind_raise {A} (e : PyExn) : world_blind (@raise A e).
Proof. intros w1 w2. reflexivity. Qed.

Lemma world_blind_bind {A B} (m : M A) (k : A -> M B) :
  world_blind m -> (forall a, world_blind (k a)) -> world_blind (bind m k).
Proof.
  intros Hm Hk w1 w2. unfold bind. specialize (Hm w1 w2).
  destruct (m w1) as [[a1|e1] w1'], (m w2) as [[a2|e2] w2']; simpl in Hm;
    try discriminate Hm.
  - inversion Hm; subst. apply Hk.
  - simpl. inversion Hm; subst. reflexivity.
Qed.

Lemma world_blind_log_error (m : Message) : world_blind (log_error m).
Proof. intros w1 w2. reflexivity. Qed.

Lemma world_blind_py_get (v : PyVal) (k : string) (default : PyVal) :
  world_blind (py_get v k default).
Proof. destruct v; simpl; first [apply world_blind_ret|apply world_blind_raise]. Qed.

Section Builder.
Context `{Library}.
Variable self : Connector.

Lemma summary_of_dict (d : Dict) (w : World) :
  summary_of (PDict d) w = (Ok (fallback_summary d), w).
Proof.
  unfold summary_of, fallback_summary, py_or, py_get, bind, ret.
  destruct (truthy (dict_get_default d "summary" PNone)); reflexivity.
Qed.

(** The second lookup of the origins uses the key of the first: it holds no
    underscore to replace. *)
Lemma origins_key_unchanged :
  str_replace "_" "-" "malicious-packages-origins" = "malicious-packages-origins".
Proof. reflexivity. Qed.

(** The four constructor calls, when the record has id [osv_id] and hash
    [sha256]: the triple, or the exception of the constructor that refused. *)
Lemma construct_triple (osv_id sha256 summary : PyVal) (source_url : string)
      (w : World) (r : Result (list StixObject)) (w' : World) :
  (file_sco <- stix2_File osv_id sha256 summary ;;
   ext_ref <- stix2_ExternalReference "ossf-malicious-packages" source_url ;;
   indicator <- stix2_Indicator
     (mkIndicator (Indicator_generate_id (sha256_pattern sha256))
        ("Malicious package " ++ format_value osv_id)
        summary (sha256_pattern sha256) "stix" [ext_ref] [TLP_CLEAR_ID] "File"
        (default_score self)) ;;
   relation <- stix2_Relationship
     (mkRelationship
        (StixCoreRelationship_generate_id "based-on" (indicator_id indicator)
           (file_id file_sco))
        "based-on" (indicator_id indicator) (file_id file_sco) [TLP_CLEAR_ID]) ;;
   ret ([] ++ [SCO file_sco; SDO indicator; SRO relation])) w = (r, w') ->
  w' = w /\
  (r = Ok (triple self osv_id sha256 summary source_url)
   \/ exists cls, r = Raise (InvalidValueError cls)).
Proof.
  unfold stix2_File, stix2_ExternalReference, stix2_Indicator, stix2_Relationship,
    bind, ret, raise, triple.
  destruct (File_accepts _); simpl.
  2:{ intros E; inversion E; subst. split; [reflexivity|right; eexists; reflexivity]. }
  destruct (ExternalReference_accepts _); simpl.
  2:{ intros E; inversion E; subst. split; [reflexivity|right; eexists; reflexivity]. }
  destruct (Indicator_accepts _); simpl.
  2:{ intros E; inversion E; subst. split; [reflexivity|right; eexists; reflexivity]. }
  destruct (Relationship_accepts _); simpl.
  2:{ intros E; inversion E; subst. split; [reflexivity|right; eexists; reflexivity]. }
  intros E; inversion E; subst. split; [reflexivity|left; reflexivity].
Qed.

(** Whenever the builder returns, it returns nothing or the triple of a
    record with a truthy id and a truthy declared hash. *)
Lemma create_objects_returns (osv_data : PyVal) (source_url : string)
      (w : World) (objs : list StixObject) (w' : World) :
  _create_objects_for_entry self osv_data source_url w = (Ok objs, w') ->
  exists d, osv_data = PDict d /\
    (objs = [] /\
     (truthy (dict_get_default d "id" PNone) = false
      \/ forall sha256, declared_sha256 d = Some sha256 -> truthy sha256 = false)
     \/ exists sha256,
          declared_sha256 d = Some sha256 /\
          truthy (dict_get_default d "id" PNone) = true /\
          truthy sha256 = true /\
          objs = triple self (dict_get_default d "id" PNone) sha256
                        (fallback_summary d) source_url).
Proof.
  intros E. destruct osv_data as [| | | | | |d]; try discriminate E.
  exists d. split; [reflexivity|].
  unfold _create_objects_for_entry in E.
  rewrite (bind_ok _ _ w w (dict_get_default d "id" PNone)) in E by reflexivity.
  rewrite (bind_ok _ _ w w (fallback_summary d)) in E by apply summary_of_dict.
  destruct (truthy (dict_get_default d "id" PNone)) eqn:Hid; cbn [negb] in E.
  2:{ left. unfold bind, log_error, ret in E. inversion E.
      split; [reflexivity|left; reflexivity]. }
  rewrite (bind_ok _ _ w w (dict_get_default d "database_specific" (PDict []))) in E
    by reflexivity.
  unfold declared_sha256.
  destruct (dict_get_default d "database_specific" (PDict [])) as [| | | | | |db];
    try discriminate E.
  rewrite (bind_ok _ _ w w (dict_get_default db "malicious-packages-origins" PNone)) in E
    by reflexivity.
  rewrite (bind_ok _ _ w w (dict_get_default db "malicious-packages-origins" PNone)) in E.
  2:{ rewrite origins_key_unchanged. simpl.
      destruct (truthy (dict_get_default db "malicious-packages-origins" PNone));
        reflexivity. }
  destruct (dict_get_default db "malicious-packages-origins" PNone)
    as [| | | | |origins|];
    try (left; inversion E; split; [reflexivity|right; intros ? ?; discriminate]).
  destruct origins as [|first rest];
    [left; inversion E; split; [reflexivity|right; intros ? ?; discriminate]|].
  destruct first as [| | | | | |first]; try discriminate E.
  rewrite (bind_ok _ _ w w (dict_get_default first "sha256" PNone)) in E by reflexivity.
  destruct (truthy (dict_get_default first "sha256" PNone)) eqn:Hsha;
    cbn [negb] in E.
  2:{ left. unfold bind, log_error, ret in E. inversion E.
      split; [reflexivity|right]. intros sha Hsome. inversion Hsome; subst. exact Hsha. }
  apply construct_triple in E. destruct E as [_ [E|[cls E]]]; [|discriminate E].
  right. exists (dict_get_default first "sha256" PNone).
  inversion E. repeat split; assumption || reflexivity.
Qed.

(** The builder reads nothing of the world: built again, at any other
    moment, from the same record, URL and configuration, it gives the same
    objects or raises the same exception. *)
Lemma create_objects_world_blind (osv_data : PyVal) (source_url : string) :
  world_blind (_create_objects_for_entry self osv_data source_url).
Proof.
  unfold _create_objects_for_entry, summary_of, stix2_File, stix2_ExternalReference,
    stix2_Indicator, stix2_Relationship.
  repeat first
    [ apply world_blind_ret | apply world_blind_raise | apply world_blind_log_error
    | apply world_blind_py_get
    | apply world_blind_bind; [|intros]
    | match goal with
      | |- world_blind (if ?b then _ else _) => destruct b
      | |- world_blind (match ?x with _ => _ end) => destruct x
      end ].
Qed.

(** A record with a missing or empty id yields nothing, and an error is
    logged. *)
Lemma create_objects_no_id (d : Dict) (source_url : string) (w : World) :
  truthy (dict_get_default d "id" PNone) = false ->
  _create_objects_for_entry self (PDict d) source_url w
  = (Ok [], mkWorld (connector_state w) (log w ++ [(ERROR, MsgNoId)]) (sent w) (processed w)).
Proof.
  intros Hid. unfold _create_objects_for_entry.
  rewrite (bind_ok _ _ w w (dict_get_default d "id" PNone)) by reflexivity.
  rewrite (bind_ok _ _ w w (fallback_summary d)) by apply summary_of_dict.
  rewrite Hid. reflexivity.
Qed.

(** A record with an id but without [database_specific] yields nothing, and
    an error is logged. *)
Lemma create_objects_no_database_specific (d : Dict) (source_url : string) (w : World) :
  truthy (dict_get_default d "id" PNone) = true ->
  dict_get d "database_specific" = None ->
  _create_objects_for_entry self (PDict d) source_url w
  = (Ok [], mkWorld (connector_state w)
                    (log w ++ [(ERROR, MsgNoSha256 (dict_get_default d "id" PNone))])
                    (sent w) (processed w)).
Proof.
  intros Hid Hdb. unfold _create_objects_for_entry.
  rewrite (bind_ok _ _ w w (dict_get_default d "id" PNone)) by reflexivity.
  rewrite (bind_ok _ _ w w (fallback_summary d)) by apply summary_of_dict.
  rewrite Hid. cbn [negb].
  rewrite (bind_ok _ _ w w (PDict [])).
  2:{ unfold py_get, dict_get_default. rewrite Hdb. reflexivity. }
  reflexivity.
Qed.

End Builder.

(** * The chunk loop (step 5) *)

Lemma first_range_index (total step : nat) :
  0 < total -> 0 < step ->
  exists rest, py_range 0 total step = 0 :: rest.
Proof.
  intros Ht Hs. unfold py_range.
  assert (Hq : 0 < (total - 0 + step - 1) / step).
  { apply Nat.div_str_pos. lia. }
  destruct ((total - 0 + step - 1) / step) as [|q]; [lia|].
  simpl. eexists. reflexivity.
Qed.

(** With any object to send, the first pass of the loop raises [NameError]
    before a bundle is made: nothing is sent and the world is as it was. *)
Lemma send_in_chunks_raises (env : Env) (all_objects : list StixObject) (w : World) :
  all_objects <> [] ->
  send_in_chunks env all_objects (length all_objects) w = (Raise (NameError "chunck"), w).
Proof.
  intros Hne. unfold send_in_chunks.
  destruct (first_range_index (length all_objects) CHUNK_SIZE) as [rest Hr].
  - destruct all_objects; [congruence|simpl; lia].
  - unfold CHUNK_SIZE. lia.
  - rewrite Hr. reflexivity.
Qed.

(** C1, evaluated on the code: with 12000 accumulated objects the loop would
    cut chunks of 5000, 5000 and 2000 objects, but its first pass raises
    [NameError] on the name [chunck], so no bundle is sent; a run over one
    well-formed record sends none of its three objects either and marks the
    work as failed. *)
Theorem twelve_thousand_objects_none_sent :
  let all_objects := repeat (SRO (mkRelationship "r" "based-on" "i" "f" [TLP_CLEAR_ID])) 12000 in
  map (fun i => length (py_slice all_objects i (i + CHUNK_SIZE)))
      (py_range 0 (length all_objects) CHUNK_SIZE) = [5000; 5000; 2000]
  /\ send_in_chunks Sample.env all_objects (length all_objects) Sample.world0
     = (Raise (NameError "chunck"), Sample.world0)
  /\ sent (snd (@_process_once Sample.library Sample.connector Sample.env Sample.world0)) = []
  /\ processed (snd (@_process_once Sample.library Sample.connector Sample.env Sample.world0))
     = [("work-1", WorkFailed (NameError "chunck"))].
Proof.
  cbv zeta. repeat split; vm_compute; reflexivity.
Qed.

(** * The checkpoint and a failed dispatch *)

(** C2: a run in which the sending of step 5 raises, whatever call of the
    [try] block raised and at whichever chunk, logs the import failure and
    returns before step 6: the connector state after the run is the state
    before it. *)
Theorem failed_dispatch_keeps_state `{Library} (self : Connector) (env : Env)
        (w : World) (e : PyExn) :
  In (ERROR, MsgBundleImportFailed e) (logged w (snd (_process_once self env w))) ->
  connector_state (snd (_process_once self env w)) = connector_state w.
Proof.
  intros Hin.
  destruct (process_once_outcome self env w) as (delta & Hl & [Hs|(cur & _ & _ & Hp)]).
  - exact Hs.
  - exfalso. rewrite (logged_app _ _ _ Hl) in Hin.
    rewrite Forall_forall in Hp. exact (Hp _ Hin).
Qed.

Lemma failed_dispatch_keeps_state_witness :
  In (ERROR, MsgBundleImportFailed (NameError "chunck"))
     (logged Sample.world1
        (snd (@_process_once Sample.library Sample.connector Sample.env Sample.world1)))
  /\ connector_state
       (snd (@_process_once Sample.library Sample.connector Sample.env Sample.world1))
     = PDict [("last_commit", PStr "a1"); ("last_run", PStr "2024-04-30T00:00:00+00:00")].
Proof.
  split.
  - vm_compute. repeat (first [left; reflexivity|right]).
  - apply (@failed_dispatch_keeps_state Sample.library Sample.connector Sample.env
             Sample.world1 (NameError "chunck")).
    vm_compute. repeat (first [left; reflexivity|right]).
Defined.

(** * Identifiers *)

(** C3: when a record with declared hash [sha256] is built into objects,
    building it again from the same URL and score, at any other moment,
    gives the same objects, so the same Indicator and Relationship
    identifiers: the indicator's is [Indicator.generate_id] of the pattern
    built from the hash, the relationship's is
    [StixCoreRelationship.generate_id] of "based-on", the indicator's
    identifier and the observable's. *)
Theorem identifiers_deterministic `{Library} (self : Connector) (osv_data : PyVal)
        (source_url : string) (w1 w1' w2 : World) (objs : list StixObject) :
  _create_objects_for_entry self osv_data source_url w1 = (Ok objs, w1') ->
  objs <> [] ->
  fst (_create_objects_for_entry self osv_data source_url w2) = Ok objs
  /\ exists d sha256 f i r,
       osv_data = PDict d /\ declared_sha256 d = Some sha256 /\
       objs = [SCO f; SDO i; SRO r] /\
       indicator_id i = Indicator_generate_id (sha256_pattern sha256) /\
       relationship_id r
       = StixCoreRelationship_generate_id "based-on" (indicator_id i) (file_id f).
Proof.
  intros E Hne. split.
  - rewrite (create_objects_world_blind self osv_data source_url w2 w1), E. reflexivity.
  - apply create_objects_returns in E. destruct E as (d & -> & [[-> _]|E]); [congruence|].
    destruct E as (sha & Hsha & _ & _ & ->).
    unfold triple. do 5 eexists. repeat split; reflexivity || exact Hsha.
Qed.

Lemma identifiers_deterministic_witness :
  exists d sha256 f i r,
    Sample.mal_1 = PDict d /\ declared_sha256 d = Some sha256 /\
    fst (@_create_objects_for_entry Sample.library Sample.connector Sample.mal_1
           "https://github.com/ossf/malicious-packages/blob/b2/osv/malicious/npm/evil/MAL-1.json"
           Sample.world0) = Ok [SCO f; SDO i; SRO r] /\
    fst (@_create_objects_for_entry Sample.library Sample.connector Sample.mal_1
           "https://github.com/ossf/malicious-packages/blob/b2/osv/malicious/npm/evil/MAL-1.json"
           Sample.world1) = Ok [SCO f; SDO i; SRO r] /\
    indicator_id i = "indicator--[file:hashes.'SHA-256' = 'abc123']" /\
    relationship_id r
    = "relationship--based-on/indicator--[file:hashes.'SHA-256' = 'abc123']/file--abc123/MAL-1".
Proof.
  pose (u := "https://github.com/ossf/malicious-packages/blob/b2/osv/malicious/npm/evil/MAL-1.json").
  destruct (@identifiers_deterministic Sample.library Sample.connector Sample.mal_1 u
              Sample.world0 Sample.world0 Sample.world1
              (@triple Sample.library Sample.connector (PStr "MAL-1") (PStr "abc123")
                       (PStr "bad pkg") u))
    as (Hagain & d & sha & f & i & r & Hd & Hs & Hobjs & Hi & Hr).
  - vm_compute. reflexivity.
  - discriminate.
  - exists d, sha, f, i, r.
    split; [exact Hd|]. split; [exact Hs|].
    split; [rewrite <- Hobjs; vm_compute; reflexivity|].
    split; [rewrite <- Hobjs; exact Hagain|].
    inversion Hobjs; subst. split; vm_compute; reflexivity.
Defined.

(** * Records the builder does not survive *)

(** C4, evaluated on the code: for a record whose first origin is a string,
    and for one whose [database_specific] is [null], the builder returns
    neither the empty sequence nor a triple: it raises [AttributeError]. *)
Theorem malformed_origin_raises :
  fst (@_create_objects_for_entry Sample.library Sample.connector Sample.mal_5 "u"
         Sample.world0) = Raise (AttributeError "get")
  /\ fst (@_create_objects_for_entry Sample.library Sample.connector Sample.mal_6 "u"
            Sample.world0) = Raise (AttributeError "get").
Proof. split; vm_compute; reflexivity. Qed.

(** * Strings *)

Lemma string_length_append (a b : string) :
  String.length (a ++ b) = String.length a + String.length b.
Proof. induction a as [|c a IH]; simpl; [reflexivity|rewrite IH; reflexivity]. Qed.

Lemma substring_whole (s : string) : substring 0 (String.length s) s = s.
Proof. induction s as [|c s IH]; simpl; [reflexivity|rewrite IH; reflexivity]. Qed.

Lemma substring_prefix (a b : string) : substring 0 (String.length a) (a ++ b) = a.
Proof.
  induction a as [|c a IH]; simpl.
  - destruct b; reflexivity.
  - rewrite IH. reflexivity.
Qed.

Lemma substring_suffix (a b : string) :
  substring (String.length a) (String.length b) (a ++ b) = b.
Proof. induction a as [|c a IH]; simpl; [apply substring_whole|exact IH]. Qed.

Lemma endswith_append (a s : string) : endswith (a ++ s) s = true.
Proof.
  unfold endswith. rewrite string_length_append.
  replace (String.length a + String.length s - String.length s) with (String.length a)
    by lia.
  rewrite substring_suffix, String.eqb_refl, andb_true_r.
  apply Nat.leb_le. lia.
Qed.

Lemma endswith_split (b s : string) :
  endswith b s = true -> exists a, b = (a ++ s)%string.
Proof.
  unfold endswith. rewrite andb_true_iff, Nat.leb_le, String.eqb_eq.
  intros [Hle Hsub]. revert Hle Hsub.
  generalize (String.length s) as m. intros m. revert m.
  induction b as [|c b IH]; intros m Hle Hsub.
  - simpl in Hle. assert (m = 0) by lia. subst m. simpl in Hsub. subst s.
    exists "". reflexivity.
  - change (String.length (String c b)) with (S (String.length b)) in Hle, Hsub.
    destruct (Nat.eq_dec m (S (String.length b))) as [->|Hne].
    + rewrite Nat.sub_diag in Hsub. simpl in Hsub. rewrite substring_whole in Hsub.
      exists "". exact Hsub.
    + replace (S (String.length b) - m) with (S (String.length b - m)) in Hsub by lia.
      simpl in Hsub. destruct (IH m ltac:(lia) Hsub) as (a & ->).
      exists (String c a). reflexivity.
Qed.

Lemma append_assoc (a b c : string) : ((a ++ b) ++ c)%string = (a ++ (b ++ c))%string.
Proof. induction a as [|x a IH]; simpl; [reflexivity|rewrite IH; reflexivity]. Qed.

Lemma endswith_prepend (a b s : string) :
  endswith b s = true -> endswith (a ++ b) s = true.
Proof.
  intros Hb. destruct (endswith_split b s Hb) as (p & ->).
  rewrite <- append_assoc. apply endswith_append.
Qed.

Lemma endswith_path_join (a b s : string) :
  endswith b s = true -> endswith (path_join a b) s = true.
Proof.
  intros Hb. unfold path_join.
  destruct (startswith b "/"); [exact Hb|].
  destruct (String.eqb a "" || endswith a "/").
  - apply endswith_prepend. exact Hb.
  - apply endswith_prepend. apply (endswith_prepend "/" b s). exact Hb.
Qed.


(** * The change-set resolver *)

Lemma Node_induction (P : Node -> Prop) :
  (forall mtime, P (RegularFile mtime)) ->
  (forall entries, Forall (fun e => P (snd e)) entries -> P (Directory entries)) ->
  forall n, P n.
Proof.
  intros Hfile Hdir. fix IH 1. intros [mtime|entries].
  - apply Hfile.
  - apply Hdir. induction entries as [|[name child] entries IHentries].
    + constructor.
    + constructor; [apply IH|exact IHentries].
Qed.

Lemma in_filenames (entries : list (string * Node)) (name : string) :
  In name (filenames entries) <-> exists mtime, In (name, RegularFile mtime) entries.
Proof.
  unfold filenames. rewrite in_map_iff. split.
  - intros ([name' n] & Hname & Hin). simpl in Hname. subst name'.
    apply filter_In in Hin. destruct Hin as [Hin Hfile].
    destruct n as [mtime|es]; [|discriminate Hfile]. exists mtime. exact Hin.
  - intros (mtime & Hin). exists (name, RegularFile mtime). split; [reflexivity|].
    apply filter_In. split; [exact Hin|reflexivity].
Qed.

Lemma file_below_directory (top : string) (entries : list (string * Node))
      (name p : string) :
  file_below top (Directory entries) name p <->
  (p = path_join top name /\ exists mtime, In (name, RegularFile mtime) entries)
  \/ exists dir child, In (dir, child) entries /\ file_below (path_join top dir) child name p.
Proof.
  split.
  - intros Hb. inversion Hb; subst.
    + left. split; [reflexivity|]. eexists. eassumption.
    + right. do 2 eexists. split; eassumption.
  - intros [[-> (mtime & Hin)]|(dir & child & Hin & Hb)].
    + eapply file_here. exact Hin.
    + eapply file_deeper; eassumption.
Qed.

(** [os.walk] reaches exactly the regular files below its top, whenever
    they were last modified. *)
Lemma os_walk_json_paths (n : Node) :
  forall top p,
    In p (flat_map json_paths (os_walk top n)) <->
    exists name, file_below top n name p /\ endswith name ".json" = true.
Proof.
  induction n as [mtime|entries IH] using Node_induction; intros top p.
  - simpl. split; [intros []|]. intros (name & Hb & _). inversion Hb.
  - simpl. rewrite in_app_iff.
    assert (Hsub : In p (flat_map json_paths
                     ((fix subdirs (es : list (string * Node)) :=
                         match es with
                         | [] => []
                         | (name, child) :: es' =>
                             os_walk (path_join top name) child ++ subdirs es'
                         end) entries))
                   <-> exists dir child name,
                         In (dir, child) entries
                         /\ file_below (path_join top dir) child name p
                         /\ endswith name ".json" = true).
    { clear - IH. induction entries as [|[dir child] entries IHentries].
      - simpl. split; [intros []|]. intros (? & ? & ? & [] & _).
      - inversion IH as [|? ? Hchild Hrest]; subst. simpl in Hchild.
        rewrite flat_map_app, in_app_iff, Hchild, (IHentries Hrest). split.
        + intros [(name & Hb & Hj)|(dir' & child' & name & Hin & Hb & Hj)].
          * exists dir, child, name. split; [left; reflexivity|]. split; assumption.
          * exists dir', child', name. split; [right; exact Hin|]. split; assumption.
        + intros (dir' & child' & name & [Heq|Hin] & Hb & Hj).
          * inversion Heq; subst. left. exists name. split; assumption.
          * right. exists dir', child', name. split; [exact Hin|]. split; assumption. }
    rewrite Hsub. clear Hsub. rewrite in_map_iff. split.
    + intros [(name & <- & Hin)|(dir & child & name & Hin & Hb & Hj)].
      * apply filter_In in Hin. destruct Hin as [Hin Hj].
        apply in_filenames in Hin. destruct Hin as (mtime & Hin).
        exists name. split; [eapply file_here; exact Hin|exact Hj].
      * exists name. split; [eapply file_deeper; eassumption|exact Hj].
    + intros (name & Hb & Hj). apply file_below_directory in Hb.
      destruct Hb as [[-> Hin]|(dir & child & Hin & Hb)].
      * left. exists name. split; [reflexivity|]. apply filter_In.
        split; [apply in_filenames; exact Hin|exact Hj].
      * right. exists dir, child, name. split; [exact Hin|]. split; assumption.
Qed.

(** C5: with no previous commit the resolver returns exactly the paths of the
    regular files found at any depth below osv/malicious in the local clone
    whose name ends in .json, whatever their time of last modification. *)
Theorem full_backfill `{Library} (self : Connector) (env : Env)
        (new_commit : string) (w : World) :
  exists files,
    _get_changed_files self env PNone new_commit w = (Ok files, w) /\
    forall p, In p files <->
              exists n name, fs_at env (malicious_dir self) = Some n
                             /\ file_below (malicious_dir self) n name p
                             /\ endswith name ".json" = true.
Proof.
  unfold _get_changed_files. fold (malicious_dir self). eexists. split; [reflexivity|].
  intros p. destruct (fs_at env (malicious_dir self)) as [n|].
  - change (In p (flat_map json_paths (os_walk (malicious_dir self) n)) <->
            exists n0 name, Some n = Some n0
                            /\ file_below (malicious_dir self) n0 name p
                            /\ endswith name ".json" = true).
    rewrite os_walk_json_paths. split.
    + intros (name & Hb & Hj). exists n, name. repeat split; assumption.
    + intros (n0 & name & Heq & Hb & Hj). inversion Heq; subst. exists name. split; assumption.
  - simpl. split; [intros []|]. intros (n & name & Heq & _). discriminate Heq.
Qed.

Lemma option_string_eqb_eq (a b : option string) :
  option_string_eqb a b = true <-> a = b.
Proof.
  destruct a as [x|], b as [y|]; simpl; try (split; [discriminate|discriminate]);
    try (split; reflexivity).
  rewrite String.eqb_eq. split; [intros ->; reflexivity|intros E; inversion E; reflexivity].
Qed.

Lemma blob_at_in (t : Snapshot) (path : string) :
  blob_at t path <> None -> In path (map fst t).
Proof.
  induction t as [|[p b] t IH]; simpl; [congruence|].
  destruct (String.eqb p path) eqn:E.
  - intros _. left. apply String.eqb_eq. exact E.
  - intros Hb. right. apply IH. exact Hb.
Qed.

Lemma insert_path_In (p x : string) (l : list string) :
  In x (insert_path p l) <-> x = p \/ In x l.
Proof.
  induction l as [|q l IH]; simpl.
  - split; [intros [E|[]]; left; congruence|intros [E|[]]; left; congruence].
  - destruct (String.leb p q); simpl; [|rewrite IH]; intuition congruence.
Qed.

Lemma sort_paths_In (x : string) (l : list string) : In x (sort_paths l) <-> In x l.
Proof.
  induction l as [|p l IH]; simpl; [reflexivity|].
  rewrite insert_path_In, IH. intuition congruence.
Qed.

Lemma last_character (a b : string) (c d : ascii) :
  (a ++ String c "")%string = (b ++ String d "")%string -> c = d.
Proof.
  revert b. induction a as [|x a IH]; intros [|y b] E; simpl in E.
  - inversion E. reflexivity.
  - inversion E as [[Hc Hb]]. destruct b; discriminate Hb.
  - inversion E as [[Hc Ha]]. destruct a; discriminate Ha.
  - inversion E. eapply IH. eassumption.
Qed.

(** A path that git prints between quotes does not end in ".json": the
    resolver drops it. *)
Lemma quoted_path_is_dropped (env : Env) (path : string) :
  must_quote path = true -> endswith (print_path env path) ".json" = false.
Proof.
  intros Hq. unfold print_path. rewrite Hq.
  destruct (endswith _ ".json") eqn:E; [|reflexivity].
  apply endswith_split in E. destruct E as (pre & E).
  change (String double_quote (c_escape env path ++ String double_quote ""))
    with ((String double_quote (c_escape env path)) ++ String double_quote "")%string in E.
  change ".json" with (".jso" ++ String "n" "")%string in E.
  rewrite <- append_assoc in E. apply last_character in E. discriminate E.
Qed.

Lemma printed_json_path (env : Env) (path : string) :
  endswith (print_path env path) ".json" = true ->
  print_path env path = path /\ must_quote path = false.
Proof.
  intros E. destruct (must_quote path) eqn:Hq.
  - rewrite (quoted_path_is_dropped env path Hq) in E. discriminate E.
  - unfold print_path. rewrite Hq. split; reflexivity.
Qed.

Lemma differs_iff (a b : Snapshot) (path : string) :
  differs a b path = true <-> blob_at a path <> blob_at b path.
Proof.
  unfold differs. rewrite negb_true_iff. split.
  - intros E Heq. apply option_string_eqb_eq in Heq. congruence.
  - intros Hd. destruct (option_string_eqb _ _) eqn:E; [|reflexivity].
    apply option_string_eqb_eq in E. contradiction.
Qed.

(** What [git diff --name-only] prints. *)
Lemma git_diff_lists (env : Env) (old new pathspec : string) (a b : Snapshot) :
  revisions env old = Some a -> revisions env new = Some b ->
  exists output,
    git_diff_name_only env old new pathspec = Ok output /\
    forall line, In line output <->
      exists q, line = print_path env q
                /\ under pathspec q = true
                /\ blob_at a q <> blob_at b q
                /\ renamed_away env a b pathspec q = false.
Proof.
  intros Ha Hb. unfold git_diff_name_only. rewrite Ha, Hb. eexists. split; [reflexivity|].
  intros line. rewrite in_map_iff. split.
  - intros (q & <- & Hin). exists q. split; [reflexivity|].
    apply sort_paths_In, filter_In in Hin. destruct Hin as [_ Hf].
    rewrite !andb_true_iff, negb_true_iff, differs_iff in Hf.
    destruct Hf as [[Hu Hd] Hr]. repeat split; assumption.
  - intros (q & -> & Hu & Hd & Hr). exists q. split; [reflexivity|].
    apply sort_paths_In, filter_In. split.
    + apply nodup_In, in_app_iff.
      destruct (blob_at a q) eqn:Ea.
      * left. apply blob_at_in. congruence.
      * right. apply blob_at_in. congruence.
    + rewrite !andb_true_iff, negb_true_iff, differs_iff. repeat split; assumption.
Qed.

(** The resolver on a later run: the lines git prints that end in ".json",
    joined to the local clone. *)
Lemma get_changed_files_diff `{Library} (self : Connector) (env : Env)
      (old_commit : PyVal) (new_commit : string) (w : World) (output : list string) :
  old_commit <> PNone ->
  git_diff_name_only env (format_value old_commit) new_commit "osv/malicious" = Ok output ->
  _get_changed_files self env old_commit new_commit w
  = (Ok (map (path_join (local_repo_path self))
             (filter (fun p => endswith p ".json") output)), w).
Proof.
  intros Hold Hdiff. unfold _get_changed_files.
  destruct old_commit; try congruence;
    (rewrite (bind_ok _ _ w w output) by (unfold lift; rewrite Hdiff; reflexivity));
    reflexivity.
Qed.

(** C6, as the code has it: with a previous commit [old] and the current
    HEAD [new], both known to git, the resolver returns only paths, joined
    to the local clone, that lie under osv/malicious, end in ".json" and
    differ between the two trees: added, modified or deleted.  A deleted
    record's path is surfaced like any other changed path. *)
Theorem changed_since_checkpoint `{Library} (self : Connector) (env : Env)
        (old_commit : PyVal) (new_commit : string) (w : World) (a b : Snapshot) :
  old_commit <> PNone ->
  revisions env (format_value old_commit) = Some a ->
  revisions env new_commit = Some b ->
  exists files,
    _get_changed_files self env old_commit new_commit w = (Ok files, w) /\
    forall p, In p files ->
              exists q, p = path_join (local_repo_path self) q
                        /\ under "osv/malicious" q = true
                        /\ endswith q ".json" = true
                        /\ blob_at a q <> blob_at b q.
Proof.
  intros Hold Ha Hb.
  destruct (git_diff_lists env (format_value old_commit) new_commit "osv/malicious" a b Ha Hb)
    as (output & Hdiff & Hout).
  eexists. split; [apply get_changed_files_diff; [exact Hold|exact Hdiff]|].
  intros p Hin. apply in_map_iff in Hin. destruct Hin as (line & <- & Hin).
  apply filter_In in Hin. destruct Hin as [Hin Hj].
  apply Hout in Hin. destruct Hin as (q & -> & Hu & Hd & _).
  destruct (printed_json_path env q Hj) as [Hp _]. rewrite Hp in *.
  exists q. repeat split; assumption.
Qed.

Lemma changed_since_checkpoint_witness :
  exists files,
    @_get_changed_files Sample.library Sample.connector Sample.env (PStr "a1") "b2"
                        Sample.world1 = (Ok files, Sample.world1) /\
    forall p, In p files ->
              exists q, p = path_join "/data/repo" q
                        /\ under "osv/malicious" q = true
                        /\ endswith q ".json" = true
                        /\ blob_at [("osv/malicious/npm/evil/MAL-0.json", "blob-0");
                                    ("osv/malicious/npm/evil/MAL-1.json", "blob-1");
                                    ("README.md", "blob-r")] q
                           <> blob_at [("osv/malicious/npm/evil/MAL-1.json", "blob-b2");
                                       ("README.md", "blob-r2")] q.
Proof.
  apply (@changed_since_checkpoint Sample.library Sample.connector Sample.env
           (PStr "a1") "b2" Sample.world1).
  - discriminate.
  - reflexivity.
  - reflexivity.
Defined.

(** C6 as stated fails: between [a1] and [b2] the record MAL-0.json was
    deleted, neither added nor modified, and the resolver returns its path. *)
Lemma deleted_record_is_returned :
  exists a b files,
    revisions Sample.env "a1" = Some a /\ revisions Sample.env "b2" = Some b
    /\ fst (@_get_changed_files Sample.library Sample.connector Sample.env (PStr "a1") "b2"
              Sample.world1) = Ok files
    /\ blob_at a "osv/malicious/npm/evil/MAL-0.json" = Some "blob-0"
    /\ blob_at b "osv/malicious/npm/evil/MAL-0.json" = None
    /\ In "/data/repo/osv/malicious/npm/evil/MAL-0.json" files.
Proof.
  do 3 eexists. split; [reflexivity|]. split; [reflexivity|].
  split; [vm_compute; reflexivity|]. split; [reflexivity|]. split; [reflexivity|].
  left. reflexivity.
Qed.

(** * Records that abort a run *)

(** C7, evaluated on the code: on a first run over three files, the file
    that does not parse is skipped with a logged reason, but the next one,
    which parses to a record whose first origin is a string, is not:
    [AttributeError] leaves the file loop and the run.  The well-formed
    record after it is never built, nothing is sent, no work is marked, the
    state is not saved, and [run] only logs the error. *)
Theorem malformed_record_aborts_run :
  let r := @_process_once Sample.library Sample.connector Sample.env_malformed
                          Sample.world0 in
  fst (@_get_changed_files Sample.library Sample.connector Sample.env_malformed PNone "b2"
         Sample.world0)
  = Ok ["/data/repo/osv/malicious/npm/evil/MAL-8.json";
        "/data/repo/osv/malicious/npm/evil/MAL-5.json";
        "/data/repo/osv/malicious/npm/evil/MAL-1.json"]
  /\ fst r = Raise (AttributeError "get")
  /\ logged Sample.world0 (snd r)
     = [(INFO, MsgStarting); (INFO, MsgUpdating "/data/repo");
        (INFO, MsgLastCommit PNone "b2"); (INFO, MsgFound 3);
        (ERROR, MsgParseFailed "/data/repo/osv/malicious/npm/evil/MAL-8.json"
                  (ExternalError "json.load"))]
  /\ sent (snd r) = [] /\ processed (snd r) = []
  /\ connector_state (snd r) = connector_state Sample.world0
  /\ logged (snd r)
       (snd (@run_once Sample.library Sample.connector Sample.env_malformed Sample.world0))
     = [(ERROR, MsgProcessingError (AttributeError "get")); (INFO, MsgSleeping 3600)].
Proof. cbv zeta. repeat split; vm_compute; reflexivity. Qed.

(** * The keys of the checkpoint *)

(** C8, as the code has it: a run either leaves the connector state as it
    was or saves exactly the keys [last_commit], holding the current HEAD,
    and [last_run], holding the time of the run; and what every run reads
    from the state, and logs, is the value under [last_commit]. *)
Theorem checkpoint_keys `{Library} (self : Connector) (env : Env) (w : World) :
  (connector_state (snd (_process_once self env w)) = connector_state w
   \/ exists cur d,
        rev_parse_head env = Ok cur
        /\ connector_state (snd (_process_once self env w)) = PDict d
        /\ dict_keys d = ["last_commit"; "last_run"]
        /\ dict_get d "last_commit" = Some (PStr cur)
        /\ dict_get d "last_run" = Some (PStr (utcnow_isoformat env)))
  /\ forall v c,
       In (INFO, MsgLastCommit v c) (logged w (snd (_process_once self env w))) ->
       rev_parse_head env = Ok c
       /\ exists d, py_or (connector_state w) (PDict []) = PDict d
                    /\ v = dict_get_default d "last_commit" PNone.
Proof.
  split.
  - destruct (process_once_outcome self env w) as (delta & _ & [Hs|(cur & Hcur & Hs & _)]).
    + left. exact Hs.
    + right. exists cur, (new_state_of cur env). repeat split; assumption || reflexivity.
  - intros v c. apply process_once_reads_last_commit.
Qed.

(** C8 as stated fails: a state that holds the revision under
    [last_revision] is read as holding no previous commit, and the state the
    run saves has the keys [last_commit] and [last_run], not
    [last_revision]. *)
Lemma last_revision_is_not_read_or_written :
  let w := mkWorld (PDict [("last_revision", PStr "a1");
                           ("last_run", PStr "2024-04-30T00:00:00+00:00")]) [] [] [] in
  let w' := snd (@_process_once Sample.library Sample.connector Sample.env_quiet w) in
  In (INFO, MsgLastCommit PNone "b2") (log w')
  /\ connector_state w' = PDict [("last_commit", PStr "b2");
                                 ("last_run", PStr "2024-05-01T00:00:00+00:00")]
  /\ match connector_state w' with
     | PDict d => dict_get d "last_revision"
     | _ => None
     end = None.
Proof.
  cbv zeta. split; [vm_compute; repeat (first [left; reflexivity|right])|].
  split; vm_compute; reflexivity.
Qed.

(** * The summary *)

(** C9: when the record's summary is the empty string, the observable and
    the indicator built from it carry the details text when there is one,
    and "Malicious package" when the details are absent or empty. *)
Theorem empty_summary_falls_back `{Library} (self : Connector) (d : Dict)
        (source_url : string) (w w' : World) (objs : list StixObject) :
  dict_get d "summary" = Some (PStr "") ->
  _create_objects_for_entry self (PDict d) source_url w = (Ok objs, w') ->
  objs <> [] ->
  exists f i r,
    objs = [SCO f; SDO i; SRO r]
    /\ x_opencti_description f = description i
    /\ (forall details, dict_get d "details" = Some (PStr details) -> details <> "" ->
                        description i = PStr details)
    /\ (dict_get d "details" = None \/ dict_get d "details" = Some (PStr "") ->
        description i = PStr "Malicious package").
Proof.
  intros Hsum E Hne. apply create_objects_returns in E.
  destruct E as (d' & Hd & [[-> _]|(sha & _ & _ & _ & ->)]); [congruence|].
  inversion Hd; subst d'. unfold triple. do 3 eexists. split; [reflexivity|].
  simpl. split; [reflexivity|].
  unfold fallback_summary, py_or, dict_get_default. rewrite Hsum. simpl. split.
  - intros details Hdet Hdne. rewrite Hdet. simpl.
    destruct (String.eqb_spec details ""); [contradiction|reflexivity].
  - intros [Hdet|Hdet]; rewrite Hdet; reflexivity.
Qed.

Lemma empty_summary_falls_back_witness :
  exists f i r,
    fst (@_create_objects_for_entry Sample.library Sample.connector Sample.mal_3 "u"
           Sample.world0) = Ok [SCO f; SDO i; SRO r]
    /\ x_opencti_description f = description i
    /\ description i = PStr "steals tokens".
Proof.
  destruct (@empty_summary_falls_back Sample.library Sample.connector
              Sample.fields_3 "u" Sample.world0 Sample.world0
              (@triple Sample.library Sample.connector (PStr "MAL-3") (PStr "abc123")
                       (PStr "steals tokens") "u"))
    as (f & i & r & Hobjs & Hfi & Hdet & _).
  - reflexivity.
  - vm_compute. reflexivity.
  - discriminate.
  - exists f, i, r. split; [rewrite <- Hobjs; vm_compute; reflexivity|].
    split; [exact Hfi|]. apply Hdet; [reflexivity|discriminate].
Defined.

(** * Two ids, one hash *)

(** Two records that declare the same hash, whatever their ids, summaries
    and source URLs, give indicators with one identifier and one pattern,
    and relationships from that one identifier.  Each observable is named
    after its own record, its identifier is the library's for that name and
    the hash, and each relationship identifier is the library's for
    "based-on", the shared indicator and the record's own observable. *)
Theorem same_hash_shares_indicator `{Library} (self : Connector) (d1 d2 : Dict)
        (sha256 : PyVal) (url1 url2 : string)
        (w1 w2 w1' w2' : World) (f1 f2 : File) (i1 i2 : Indicator)
        (r1 r2 : Relationship) :
  declared_sha256 d1 = Some sha256 ->
  declared_sha256 d2 = Some sha256 ->
  _create_objects_for_entry self (PDict d1) url1 w1 = (Ok [SCO f1; SDO i1; SRO r1], w1') ->
  _create_objects_for_entry self (PDict d2) url2 w2 = (Ok [SCO f2; SDO i2; SRO r2], w2') ->
  indicator_id i1 = indicator_id i2
  /\ pattern i1 = pattern i2
  /\ source_ref r1 = source_ref r2
  /\ file_name f1 = dict_get_default d1 "id" PNone
  /\ file_name f2 = dict_get_default d2 "id" PNone
  /\ file_id f1 = File_generate_id (file_name f1) sha256
  /\ file_id f2 = File_generate_id (file_name f2) sha256
  /\ relationship_id r1
     = StixCoreRelationship_generate_id "based-on" (indicator_id i1) (file_id f1)
  /\ relationship_id r2
     = StixCoreRelationship_generate_id "based-on" (indicator_id i1) (file_id f2).
Proof.
  intros Hs1 Hs2 E1 E2.
  apply create_objects_returns in E1.
  destruct E1 as (d & Hd & [[Habs _]|(s1 & Hs1' & _ & _ & Ht1)]); [discriminate Habs|].
  inversion Hd; subst d. rewrite Hs1 in Hs1'. inversion Hs1'; subst s1. clear Hd Hs1'.
  apply create_objects_returns in E2.
  destruct E2 as (d & Hd & [[Habs _]|(s2 & Hs2' & _ & _ & Ht2)]); [discriminate Habs|].
  inversion Hd; subst d. rewrite Hs2 in Hs2'. inversion Hs2'; subst s2. clear Hd Hs2'.
  unfold triple in Ht1, Ht2.
  inversion Ht1; subst. inversion Ht2; subst. simpl.
  repeat split; reflexivity.
Qed.

Lemma same_hash_shares_indicator_witness :
  exists f1 i1 r1 f2 i2 r2,
    fst (@_create_objects_for_entry Sample.library Sample.connector Sample.mal_1 "u1"
           Sample.world0) = Ok [SCO f1; SDO i1; SRO r1]
    /\ fst (@_create_objects_for_entry Sample.library Sample.connector Sample.mal_2 "u2"
              Sample.world0) = Ok [SCO f2; SDO i2; SRO r2]
    /\ indicator_id i1 = indicator_id i2
    /\ file_name f1 = PStr "MAL-1" /\ file_name f2 = PStr "MAL-2"
    /\ external_references i1 <> external_references i2.
Proof.
  do 6 eexists. split; [vm_compute; reflexivity|]. split; [vm_compute; reflexivity|].
  edestruct (@same_hash_shares_indicator Sample.library Sample.connector
               Sample.fields_1 Sample.fields_2 (PStr "abc123") "u1" "u2"
               Sample.world0 Sample.world0 Sample.world0 Sample.world0)
    as (Hi & _ & _ & Hn1 & Hn2 & _).
  - reflexivity.
  - reflexivity.
  - vm_compute. reflexivity.
  - vm_compute. reflexivity.
  - split; [exact Hi|]. split; [exact Hn1|]. split; [exact Hn2|]. simpl. discriminate.
Defined.

(** * Further properties of the code *)

Lemma firstn_add {A} (a b : nat) (l : list A) :
  firstn (a + b) l = firstn a l ++ firstn b (skipn a l).
Proof.
  revert l. induction a as [|a IH]; intros l; simpl; [reflexivity|].
  destruct l as [|x l]; simpl.
  - rewrite firstn_nil. reflexivity.
  - rewrite IH. reflexivity.
Qed.

Lemma concat_slices {A} (step n : nat) (l : list A) :
  concat (map (fun i => py_slice l i (i + step)) (map (fun k => 0 + k * step) (seq 0 n)))
  = firstn (n * step) l.
Proof.
  induction n as [|n IH].
  - reflexivity.
  - rewrite seq_S, !map_app, concat_app, IH. simpl.
    rewrite app_nil_r. unfold py_slice.
    replace (n * step + step - n * step) with step by lia.
    replace (step + n * step) with (n * step + step) by lia.
    rewrite firstn_add. reflexivity.
Qed.

Lemma ceil_covers (total step : nat) :
  0 < step -> total <= (total - 0 + step - 1) / step * step.
Proof.
  intros Hs.
  pose proof (Nat.mul_succ_div_gt (total - 0 + step - 1) step) as Hq.
  specialize (Hq ltac:(lia)). nia.
Qed.

(** The chunks the loop cuts are the accumulated list in its order, cut
    into [ceil(L / 5000)] pieces of at most 5000 objects, none of them
    empty. *)
Theorem loop_chunks_partition {A} (all_objects : list A) :
  concat (loop_chunks all_objects) = all_objects
  /\ length (loop_chunks all_objects) = (length all_objects + CHUNK_SIZE - 1) / CHUNK_SIZE
  /\ Forall (fun chunk => 0 < length chunk <= CHUNK_SIZE) (loop_chunks all_objects).
Proof.
  unfold loop_chunks, py_range. split; [|split].
  - rewrite concat_slices. apply firstn_all2. apply ceil_covers. unfold CHUNK_SIZE. lia.
  - rewrite !length_map, length_seq. rewrite Nat.sub_0_r. reflexivity.
  - apply Forall_forall. intros chunk Hin.
    apply in_map_iff in Hin. destruct Hin as (i & <- & Hin).
    apply in_map_iff in Hin. destruct Hin as (k & <- & Hin).
    apply in_seq in Hin. unfold py_slice.
    replace (0 + k * CHUNK_SIZE + CHUNK_SIZE - (0 + k * CHUNK_SIZE)) with CHUNK_SIZE by lia.
    rewrite length_firstn, length_skipn. split; [|lia].
    assert (Hk : k * CHUNK_SIZE < length all_objects).
    { destruct Hin as [_ Hk]. rewrite Nat.add_0_l, Nat.sub_0_r in Hk.
      assert (Hc : 0 < CHUNK_SIZE) by (unfold CHUNK_SIZE; lia).
      pose proof (Nat.Div0.mul_div_le (length all_objects + CHUNK_SIZE - 1) CHUNK_SIZE)
        as Hle.
      assert (Hm : S k * CHUNK_SIZE
                   <= (length all_objects + CHUNK_SIZE - 1) / CHUNK_SIZE * CHUNK_SIZE)
        by (apply Nat.mul_le_mono_r; lia).
      rewrite Nat.mul_succ_l in Hm. lia. }
    assert (Hc : 0 < CHUNK_SIZE) by (unfold CHUNK_SIZE; lia).
    lia.
Qed.

(** Whenever the builder returns, it returns no object or three: an
    observable, an indicator and a relationship, in this order. *)
Theorem builder_returns_none_or_three `{Library} (self : Connector) (osv_data : PyVal)
        (source_url : string) (w w' : World) (objs : list StixObject) :
  _create_objects_for_entry self osv_data source_url w = (Ok objs, w') ->
  objs = [] \/ exists f i r, objs = [SCO f; SDO i; SRO r].
Proof.
  intros E. apply create_objects_returns in E.
  destruct E as (d & _ & [[-> _]|(sha & _ & _ & _ & ->)]); [left; reflexivity|].
  right. unfold triple. do 3 eexists. reflexivity.
Qed.

Lemma builder_returns_none_or_three_witness :
  fst (@_create_objects_for_entry Sample.library Sample.connector Sample.mal_7 "u"
         Sample.world0) = Ok []
  /\ (@triple Sample.library Sample.connector (PStr "MAL-1") (PStr "abc123")
              (PStr "bad pkg") "u" = []
      \/ exists f i r,
           @triple Sample.library Sample.connector (PStr "MAL-1") (PStr "abc123")
                   (PStr "bad pkg") "u" = [SCO f; SDO i; SRO r]).
Proof.
  split; [vm_compute; reflexivity|].
  apply (@builder_returns_none_or_three Sample.library Sample.connector Sample.mal_1 "u"
           Sample.world0 Sample.world0).
  vm_compute. reflexivity.
Defined.

(** A record whose id is absent or falsy, and a record with an id but no
    [database_specific], yield no object; the reason is logged and nothing
    is raised. *)
Theorem missing_id_or_hash_is_skipped `{Library} (self : Connector) (d : Dict)
        (source_url : string) (w : World) :
  (truthy (dict_get_default d "id" PNone) = false \/ dict_get d "database_specific" = None) ->
  exists reason,
    _create_objects_for_entry self (PDict d) source_url w
    = (Ok [], mkWorld (connector_state w) (log w ++ [(ERROR, reason)]) (sent w) (processed w))
    /\ (reason = MsgNoId \/ reason = MsgNoSha256 (dict_get_default d "id" PNone)).
Proof.
  intros Hcase. destruct (truthy (dict_get_default d "id" PNone)) eqn:Hid.
  - destruct Hcase as [Habs|Hdb]; [discriminate Habs|].
    exists (MsgNoSha256 (dict_get_default d "id" PNone)).
    split; [apply create_objects_no_database_specific; assumption|right; reflexivity].
  - exists MsgNoId. split; [apply create_objects_no_id; exact Hid|left; reflexivity].
Qed.

Lemma missing_id_or_hash_is_skipped_witness :
  exists reason,
    @_create_objects_for_entry Sample.library Sample.connector Sample.mal_7 "u" Sample.world0
    = (Ok [], mkWorld PNone [(ERROR, reason)] [] [])
    /\ (reason = MsgNoId \/ reason = MsgNoSha256 (PStr "MAL-7")).
Proof.
  apply (@missing_id_or_hash_is_skipped Sample.library Sample.connector
           [("id", PStr "MAL-7")] "u" Sample.world0).
  right. reflexivity.
Defined.

Section Preserves.
Context {X : Type}.
Variable f : World -> X.

Lemma preserves_ret {A} (a : A) : preserves f (ret a).
Proof. intros w. reflexivity. Qed.

Lemma preserves_raise {A} (e : PyExn) : preserves f (@raise A e).
Proof. intros w. reflexivity. Qed.

Lemma preserves_lift {A} (r : Result A) : preserves f (lift r).
Proof. intros w. reflexivity. Qed.

Lemma preserves_bind {A B} (m : M A) (k : A -> M B) :
  preserves f m -> (forall a, preserves f (k a)) -> preserves f (bind m k).
Proof.
  intros Hm Hk w. unfold bind. specialize (Hm w).
  destruct (m w) as [[a|e] w1]; simpl in *; [|exact Hm].
  rewrite Hk. exact Hm.
Qed.

Lemma preserves_try_except {A} (body : M A) (handler : PyExn -> M A) :
  preserves f body -> (forall e, preserves f (handler e)) ->
  preserves f (try_except body handler).
Proof.
  intros Hm Hk w. unfold try_except. specialize (Hm w).
  destruct (body w) as [[a|e] w1]; simpl in *; [exact Hm|].
  rewrite Hk. exact Hm.
Qed.

Lemma preserves_for_each {A S} (xs : list A) (body : A -> S -> M S) :
  (forall x acc, preserves f (body x acc)) -> forall acc, preserves f (for_each xs body acc).
Proof.
  intros Hb. induction xs as [|x xs IH]; intros acc; simpl.
  - apply preserves_ret.
  - apply preserves_bind; [apply Hb|]. intros acc'. apply IH.
Qed.

Lemma preserves_py_get (v : PyVal) (k : string) (default : PyVal) :
  preserves f (py_get v k default).
Proof. destruct v; simpl; first [apply preserves_ret|apply preserves_raise]. Qed.

Lemma preserves_get_state : preserves f get_state.
Proof. intros w. reflexivity. Qed.

End Preserves.

Lemma preserves_init_or_update_repo {X} (f : World -> X) (self : Connector) (env : Env) :
  (forall m, preserves f (log_info m)) -> preserves f (_init_or_update_repo self env).
Proof.
  intros Hlog. unfold _init_or_update_repo.
  destruct (negb (isdir env (local_repo_path self)));
    repeat first [apply Hlog|apply preserves_lift|apply preserves_bind; [|intros]].
Qed.

Lemma sent_log_info (m : Message) : preserves sent (log_info m).
Proof. intros w. reflexivity. Qed.

Lemma sent_log_error (m : Message) : preserves sent (log_error m).
Proof. intros w. reflexivity. Qed.

Lemma sent_set_state (new_state : Dict) : preserves sent (set_state new_state).
Proof. intros w. reflexivity. Qed.

Lemma sent_to_processed (env : Env) (work_id : string) (message : WorkMessage) :
  preserves sent (to_processed env work_id message).
Proof.
  intros w. unfold to_processed. destruct (to_processed_error env message); reflexivity.
Qed.

(** A pass of the chunk loop stops at the name [chunck], before the bundle
    is made and sent. *)
Lemma send_chunk_raises (env : Env) (all_objects : list StixObject) (i chunk_index : nat)
      (w : World) :
  send_chunk env all_objects i chunk_index w = (Raise (NameError "chunck"), w).
Proof. reflexivity. Qed.

Ltac sent_step :=
  first
    [ apply preserves_ret | apply preserves_raise | apply preserves_lift
    | apply preserves_py_get | apply preserves_get_state
    | apply sent_log_info | apply sent_log_error | apply sent_set_state
    | apply sent_to_processed
    | apply preserves_bind; [|intros]
    | apply preserves_try_except; [|intros]
    | apply preserves_for_each; intros
    | match goal with
      | |- preserves _ (if ?b then _ else _) => destruct b
      | |- preserves _ (match ?x with _ => _ end) => destruct x
      end ].

(** No run sends a bundle: whatever the clone, the state and the sink, the
    bundles sent after a run are those sent before it. *)
Theorem no_run_sends_a_bundle `{Library} (self : Connector) (env : Env) (w : World) :
  sent (snd (_process_once self env w)) = sent w.
Proof.
  assert (Hbuild : forall osv_data source_url,
            preserves sent (_create_objects_for_entry self osv_data source_url)).
  { intros. unfold _create_objects_for_entry, summary_of, stix2_File,
      stix2_ExternalReference, stix2_Indicator, stix2_Relationship.
    repeat sent_step. }
  assert (Hchunk : forall all_objects i chunk_index,
            preserves sent (send_chunk env all_objects i chunk_index)).
  { intros all_objects i chunk_index w0. rewrite send_chunk_raises. reflexivity. }
  revert w. change (preserves sent (_process_once self env)).
  unfold _process_once, _init_or_update_repo, _get_current_head, _get_changed_files,
    collect_objects, _parse_osv_json, send_in_chunks.
  repeat first [ apply Hbuild | apply Hchunk | sent_step ].
Qed.

(** A run that has any object to send saves no state: it logs the import
    failure raised on the name [chunck] and leaves the connector state as it
    was. *)
Theorem objects_are_never_checkpointed `{Library} (self : Connector) (env : Env)
        (w : World) (total chunk_size : nat) :
  In (INFO, MsgPreparing total chunk_size) (logged w (snd (_process_once self env w))) ->
  In (ERROR, MsgBundleImportFailed (NameError "chunck"))
     (logged w (snd (_process_once self env w)))
  /\ connector_state (snd (_process_once self env w)) = connector_state w.
Proof.
  intros Hprep.
  assert (Hfailed : In (ERROR, MsgBundleImportFailed (NameError "chunck"))
                       (logged w (snd (_process_once self env w)))).
  { revert Hprep.
    set (P := not_preparing).
    set (Post := fun w1 : World =>
           In (INFO, MsgPreparing total chunk_size) (logged w w1) ->
           In (ERROR, MsgBundleImportFailed (NameError "chunck")) (logged w w1)).
    assert (Hleft : forall w1, appends P w w1 -> Post w1).
    { intros w1 K Hin. exfalso. apply appends_logged in K.
      rewrite Forall_forall in K. exact (K _ Hin). }
    change (Post (snd (_process_once self env w))). unfold _process_once.
    apply (post_bind P Post _ _ w); [exact Hleft|apply appends_refl|repeat keeps_step|].
    intros _ w1 K1 _.
    apply (post_bind P Post _ _ w); [exact Hleft|exact K1|repeat keeps_step|].
    intros work_id w2 K2 _. clear K1 w1.
    apply (post_bind P Post _ _ w);
      [exact Hleft|exact K2|apply keeps_init_or_update_repo; intros; exact I|].
    intros _ w3 K3 _. clear K2 w2.
    apply (post_bind P Post _ _ w); [exact Hleft|exact K3|apply keeps_lift|].
    intros cur w4 K4 _. clear K3 w3.
    apply (post_bind P Post _ _ w); [exact Hleft|exact K4|apply keeps_get_state|].
    intros st w5 K5 _. clear K4 w4.
    apply (post_bind P Post _ _ w); [exact Hleft|exact K5|apply keeps_py_get|].
    intros last_commit w6 K6 _. clear K5 w5.
    apply (post_bind P Post _ _ w); [exact Hleft|exact K6|repeat keeps_step|].
    intros _ w7 K7 _. clear K6 w6.
    apply (post_bind P Post _ _ w); [exact Hleft|exact K7|apply keeps_get_changed_files|].
    intros changed_files w8 K8 _. clear K7 w7.
    apply (post_bind P Post _ _ w); [exact Hleft|exact K8|repeat keeps_step|].
    intros _ w9 K9 _. clear K8 w8.
    apply (post_bind P Post _ _ w);
      [exact Hleft|exact K9|apply keeps_collect_objects; intros; exact I|].
    intros all_objects w10 K10 _. clear K9 w9.
    destruct all_objects as [|o objs].
    - (* nothing to send: nothing of the kind is logged *)
      match goal with
      | |- Post (snd (?m w10)) => assert (G : grows P m)
      end.
      { repeat first
          [ apply grows_set_state
          | apply grows_bind; [|intros]
          | match goal with
            | |- grows _ (match ?x with _ => _ end) => destruct x
            end
          | apply keeps_grows; solve [ repeat keeps_step ] ]. }
      destruct (G w10) as (d2 & Hl2 & Hp2). destruct K10 as [_ (d1 & Hl1 & Hp1)].
      intros Hin. exfalso.
      rewrite (logged_app w _ (d1 ++ d2)) in Hin
        by (rewrite Hl2, Hl1, app_assoc; reflexivity).
      apply in_app_or in Hin. rewrite Forall_forall in Hp1, Hp2.
      destruct Hin as [Hin|Hin]; [exact (Hp1 _ Hin)|exact (Hp2 _ Hin)].
    - (* the first pass of the loop raises and the handler logs it *)
      intros _. destruct K10 as [_ (d1 & Hl1 & _)].
      set (w11 := mkWorld (connector_state w10)
                    (log w10 ++ [(INFO, MsgPreparing (length (o :: objs)) CHUNK_SIZE)])
                    (sent w10) (processed w10)).
      destruct (import_failed_handler env work_id (NameError "chunck") w11)
        as (Hf & _ & Hl').
      unfold bind at 1 2. unfold log_info at 1. unfold try_except.
      unfold bind at 1. fold w11.
      rewrite (send_in_chunks_raises env (o :: objs) w11) by discriminate.
      destruct ((log_error (MsgBundleImportFailed (NameError "chunck")) ;;;
                 to_processed env work_id (WorkFailed (NameError "chunck")) ;;;
                 ret Return) w11) as [[flow|e1] wh]; simpl in Hf, Hl'.
      + destruct flow; [congruence|]. simpl.
        rewrite (logged_app w wh
                   (d1 ++ [(INFO, MsgPreparing (length (o :: objs)) CHUNK_SIZE);
                           (ERROR, MsgBundleImportFailed (NameError "chunck"))])).
        * apply in_or_app. right. right. left. reflexivity.
        * rewrite Hl'. unfold w11. simpl log. rewrite Hl1, <- !app_assoc. reflexivity.
      + simpl.
        rewrite (logged_app w wh
                   (d1 ++ [(INFO, MsgPreparing (length (o :: objs)) CHUNK_SIZE);
                           (ERROR, MsgBundleImportFailed (NameError "chunck"))])).
        * apply in_or_app. right. right. left. reflexivity.
        * rewrite Hl'. unfold w11. simpl log. rewrite Hl1, <- !app_assoc. reflexivity. }
  split; [exact Hfailed|].
  destruct (process_once_outcome self env w) as (delta & Hl & [Hs|(cur & _ & _ & Hp)]).
  - exact Hs.
  - exfalso. rewrite (logged_app _ _ _ Hl) in Hfailed.
    rewrite Forall_forall in Hp. exact (Hp _ Hfailed).
Qed.

Lemma objects_are_never_checkpointed_witness :
  In (ERROR, MsgBundleImportFailed (NameError "chunck"))
     (logged Sample.world1
        (snd (@_process_once Sample.library Sample.connector Sample.env Sample.world1)))
  /\ connector_state
       (snd (@_process_once Sample.library Sample.connector Sample.env Sample.world1))
     = connector_state Sample.world1.
Proof.
  apply (@objects_are_never_checkpointed Sample.library Sample.connector Sample.env
           Sample.world1 3 5000).
  vm_compute. repeat (first [left; reflexivity|right]).
Defined.

(** * The builder, branch by branch *)

Section BuilderBranches.
Context `{Library}.
Variable self : Connector.

Lemma construct_accepted (osv_id sha256 summary : PyVal) (source_url : string) (w : World) :
  library_accepts self osv_id sha256 summary source_url = true ->
  (file_sco <- stix2_File osv_id sha256 summary ;;
   ext_ref <- stix2_ExternalReference "ossf-malicious-packages" source_url ;;
   indicator <- stix2_Indicator
     (mkIndicator (Indicator_generate_id (sha256_pattern sha256))
        ("Malicious package " ++ format_value osv_id)
        summary (sha256_pattern sha256) "stix" [ext_ref] [TLP_CLEAR_ID] "File"
        (default_score self)) ;;
   relation <- stix2_Relationship
     (mkRelationship
        (StixCoreRelationship_generate_id "based-on" (indicator_id indicator)
           (file_id file_sco))
        "based-on" (indicator_id indicator) (file_id file_sco) [TLP_CLEAR_ID]) ;;
   ret ([] ++ [SCO file_sco; SDO indicator; SRO relation])) w
  = (Ok (triple self osv_id sha256 summary source_url), w).
Proof.
  unfold library_accepts. cbv zeta. rewrite !andb_true_iff. intros [[[Hf He] Hi] Hr].
  unfold stix2_File, stix2_ExternalReference, stix2_Indicator, stix2_Relationship,
    bind, ret, raise, triple.
  rewrite Hf. cbv beta iota. rewrite He. cbv beta iota. rewrite Hi. cbv beta iota.
  cbn [indicator_id file_id]. rewrite Hr. reflexivity.
Qed.

Lemma construct_refused (osv_id sha256 summary : PyVal) (source_url : string) (w : World) :
  library_accepts self osv_id sha256 summary source_url = false ->
  exists cls,
  (file_sco <- stix2_File osv_id sha256 summary ;;
   ext_ref <- stix2_ExternalReference "ossf-malicious-packages" source_url ;;
   indicator <- stix2_Indicator
     (mkIndicator (Indicator_generate_id (sha256_pattern sha256))
        ("Malicious package " ++ format_value osv_id)
        summary (sha256_pattern sha256) "stix" [ext_ref] [TLP_CLEAR_ID] "File"
        (default_score self)) ;;
   relation <- stix2_Relationship
     (mkRelationship
        (StixCoreRelationship_generate_id "based-on" (indicator_id indicator)
           (file_id file_sco))
        "based-on" (indicator_id indicator) (file_id file_sco) [TLP_CLEAR_ID]) ;;
   ret ([] ++ [SCO file_sco; SDO indicator; SRO relation])) w
  = (Raise (InvalidValueError cls), w).
Proof.
  unfold library_accepts. cbv zeta.
  unfold stix2_File, stix2_ExternalReference, stix2_Indicator, stix2_Relationship,
    bind, ret, raise.
  destruct (File_accepts _); cbv beta iota; [|intros _; eexists; reflexivity].
  destruct (ExternalReference_accepts _); cbv beta iota; [|intros _; eexists; reflexivity].
  destruct (Indicator_accepts _); cbv beta iota; cbn [indicator_id file_id andb];
    [|intros _; eexists; reflexivity].
  destruct (Relationship_accepts _); [discriminate|intros _; eexists; reflexivity].
Qed.

(** The builder, on every input, by the verdict on the record. *)
Lemma create_objects_by_verdict (osv_data : PyVal) (source_url : string) (w : World) :
  match verdict osv_data with
  | Skips reason =>
      _create_objects_for_entry self osv_data source_url w
      = (Ok [], with_log w [(ERROR, reason)])
  | Trips =>
      _create_objects_for_entry self osv_data source_url w
      = (Raise (AttributeError "get"), w)
  | Builds sha256 =>
      exists d, osv_data = PDict d /\ declared_sha256 d = Some sha256 /\
        truthy (dict_get_default d "id" PNone) = true /\ truthy sha256 = true /\
        ((library_accepts self (dict_get_default d "id" PNone) sha256
                          (fallback_summary d) source_url = true
          /\ _create_objects_for_entry self osv_data source_url w
             = (Ok (triple self (dict_get_default d "id" PNone) sha256
                           (fallback_summary d) source_url), w))
         \/ (library_accepts self (dict_get_default d "id" PNone) sha256
                             (fallback_summary d) source_url = false
             /\ exists cls,
                _create_objects_for_entry self osv_data source_url w
                = (Raise (InvalidValueError cls), w)))
  end.
Proof.
  destruct osv_data as [| | | | | |d]; try reflexivity.
  unfold verdict, _create_objects_for_entry.
  rewrite (bind_ok _ _ w w (dict_get_default d "id" PNone)) by reflexivity.
  rewrite (bind_ok _ _ w w (fallback_summary d)) by apply summary_of_dict.
  destruct (truthy (dict_get_default d "id" PNone)) eqn:Hid; cbn [negb]; [|reflexivity].
  rewrite (bind_ok _ _ w w (dict_get_default d "database_specific" (PDict [])))
    by reflexivity.
  destruct (dict_get_default d "database_specific" (PDict [])) as [| | | | | |db] eqn:Hdb;
    try reflexivity.
  rewrite (bind_ok _ _ w w (dict_get_default db "malicious-packages-origins" PNone))
    by reflexivity.
  rewrite (bind_ok _ _ w w (dict_get_default db "malicious-packages-origins" PNone)).
  2:{ rewrite origins_key_unchanged. simpl.
      destruct (truthy (dict_get_default db "malicious-packages-origins" PNone));
        reflexivity. }
  destruct (dict_get_default db "malicious-packages-origins" PNone)
    as [| | | | |origins|] eqn:Ho; try reflexivity.
  destruct origins as [|first rest]; [reflexivity|].
  destruct first as [| | | | | |first]; try reflexivity.
  rewrite (bind_ok _ _ w w (dict_get_default first "sha256" PNone)) by reflexivity.
  destruct (truthy (dict_get_default first "sha256" PNone)) eqn:Hsha; cbn [negb];
    [|reflexivity].
  exists d. split; [reflexivity|].
  split; [unfold declared_sha256; rewrite Hdb, Ho; reflexivity|]. split; [exact Hid|].
  split; [exact Hsha|].
  destruct (library_accepts self (dict_get_default d "id" PNone)
              (dict_get_default first "sha256" PNone) (fallback_summary d) source_url)
    eqn:Hacc.
  - left. split; [reflexivity|]. apply construct_accepted. exact Hacc.
  - right. split; [reflexivity|]. apply construct_refused. exact Hacc.
Qed.

End BuilderBranches.

Lemma verdict_of_declared (d : Dict) (sha256 : PyVal) :
  truthy (dict_get_default d "id" PNone) = true ->
  declared_sha256 d = Some sha256 ->
  truthy sha256 = true ->
  verdict (PDict d) = Builds sha256.
Proof.
  unfold declared_sha256, verdict. intros Hid Hsha Htr. rewrite Hid. cbn [negb].
  destruct (dict_get_default d "database_specific" (PDict [])) as [| | | | | |db];
    try discriminate Hsha.
  destruct (dict_get_default db "malicious-packages-origins" PNone)
    as [| | | | |[|[| | | | | |first] rest]|]; try discriminate Hsha.
  inversion Hsha; subst. rewrite Htr. reflexivity.
Qed.

(** The builder raises [AttributeError] exactly on the inputs that make it
    call [.get] on something that is not a dict: a parsed value that is not
    an object, or an object with a truthy id whose [database_specific] is
    present and not an object, or whose origins are a non-empty list with a
    first entry that is not an object. *)
Theorem attribute_error_exactly_on_non_dicts `{Library} (self : Connector)
        (osv_data : PyVal) (source_url : string) (w : World) :
  fst (_create_objects_for_entry self osv_data source_url w) = Raise (AttributeError "get")
  <->
  is_dict osv_data = false
  \/ exists d,
       osv_data = PDict d /\ truthy (dict_get_default d "id" PNone) = true /\
       (is_dict (dict_get_default d "database_specific" (PDict [])) = false
        \/ exists db first rest,
             dict_get_default d "database_specific" (PDict []) = PDict db
             /\ dict_get_default db "malicious-packages-origins" PNone = PList (first :: rest)
             /\ is_dict first = false).
Proof.
  pose proof (create_objects_by_verdict self osv_data source_url w) as Hv.
  destruct osv_data as [| | | | | |d];
    try (simpl in Hv; rewrite Hv; split; [intros _; left; reflexivity|reflexivity]).
  unfold verdict in Hv.
  destruct (truthy (dict_get_default d "id" PNone)) eqn:Hid; cbn [negb] in Hv.
  2:{ rewrite Hv. split; [discriminate|].
      intros [Hd|(d' & Hd & Hid' & _)]; [discriminate Hd|].
      inversion Hd; subst. congruence. }
  destruct (dict_get_default d "database_specific" (PDict [])) as [| | | | | |db] eqn:Hdb;
    try (rewrite Hv; split; [|reflexivity]; intros _; right; exists d;
         split; [reflexivity|]; split; [exact Hid|]; left; rewrite Hdb; reflexivity).
  assert (Hno : forall r w1,
             _create_objects_for_entry self (PDict d) source_url w = (r, w1) ->
             r <> Raise (AttributeError "get") ->
             (forall first rest,
                 dict_get_default db "malicious-packages-origins" PNone = PList (first :: rest) ->
                 is_dict first = true) ->
             fst (_create_objects_for_entry self (PDict d) source_url w)
             = Raise (AttributeError "get")
             <-> is_dict (PDict d) = false
                 \/ exists d0,
                      PDict d = PDict d0 /\ truthy (dict_get_default d0 "id" PNone) = true /\
                      (is_dict (dict_get_default d0 "database_specific" (PDict [])) = false
                       \/ exists db0 first rest,
                            dict_get_default d0 "database_specific" (PDict []) = PDict db0
                            /\ dict_get_default db0 "malicious-packages-origins" PNone
                               = PList (first :: rest)
                            /\ is_dict first = false)).
  { intros r w1 E Hr Hfirst. rewrite E. simpl. split; [intros Habs; contradiction|].
    intros [Hd|(d0 & Hd & _ & [Hnd|(db0 & first & rest & Hdb0 & Ho & Hf)])].
    - discriminate Hd.
    - inversion Hd; subst d0. rewrite Hdb in Hnd. discriminate Hnd.
    - inversion Hd; subst d0. rewrite Hdb in Hdb0. inversion Hdb0; subst db0.
      rewrite (Hfirst _ _ Ho) in Hf. discriminate Hf. }
  destruct (dict_get_default db "malicious-packages-origins" PNone)
    as [| | | | |origins|] eqn:Ho;
    try (eapply Hno; [exact Hv|discriminate|intros ? ? Habs; discriminate Habs]).
  destruct origins as [|first rest];
    [eapply Hno; [exact Hv|discriminate|intros ? ? Habs; discriminate Habs]|].
  destruct first as [| | | | | |first];
    try (rewrite Hv; split; [|reflexivity]; intros _; right; exists d;
         split; [reflexivity|]; split; [exact Hid|]; right;
         do 3 eexists; split; [exact Hdb|]; split; [exact Ho|reflexivity]).
  destruct (truthy (dict_get_default first "sha256" PNone)) eqn:Hsha.
  - destruct Hv as (d' & _ & _ & _ & _ & [[_ E]|[_ (cls & E)]]);
      (eapply Hno; [exact E|discriminate|];
       intros f r Hfr; inversion Hfr; reflexivity).
  - eapply Hno; [exact Hv|discriminate|]. intros f r Hfr; inversion Hfr; reflexivity.
Qed.

(** A record with an id whose origins are absent, falsy, not a list, or
    whose first origin is an object without a truthy [sha256], yields no
    object: the missing hash is logged under the record's id and nothing is
    raised. *)
Theorem record_without_hash_is_skipped `{Library} (self : Connector) (d db : Dict)
        (source_url : string) (w : World) :
  truthy (dict_get_default d "id" PNone) = true ->
  dict_get_default d "database_specific" (PDict []) = PDict db ->
  match dict_get_default db "malicious-packages-origins" PNone with
  | PList (first :: _) =>
      exists f, first = PDict f /\ truthy (dict_get_default f "sha256" PNone) = false
  | _ => True
  end ->
  _create_objects_for_entry self (PDict d) source_url w
  = (Ok [], with_log w [(ERROR, MsgNoSha256 (dict_get_default d "id" PNone))]).
Proof.
  intros Hid Hdb Hshape.
  pose proof (create_objects_by_verdict self (PDict d) source_url w) as Hv.
  unfold verdict in Hv. rewrite Hid, Hdb in Hv. cbn [negb] in Hv.
  destruct (dict_get_default db "malicious-packages-origins" PNone)
    as [| | | | |[|first rest]|]; try exact Hv.
  destruct Hshape as (f & -> & Hsha). rewrite Hsha in Hv. exact Hv.
Qed.

Lemma record_without_hash_is_skipped_witness :
  @_create_objects_for_entry Sample.library Sample.connector (PDict Sample.fields_9) "u"
                             Sample.world1
  = (Ok [], with_log Sample.world1 [(ERROR, MsgNoSha256 (PStr "MAL-9"))]).
Proof.
  apply (@record_without_hash_is_skipped Sample.library Sample.connector Sample.fields_9
           [("malicious-packages-origins", PStr "abc123")] "u" Sample.world1).
  - reflexivity.
  - reflexivity.
  - exact I.
Defined.

(** A record with a truthy id and a truthy declared hash, whose objects the
    library accepts, is built into exactly its triple; nothing is logged and
    the world is left as it was. *)
Theorem accepted_record_is_built `{Library} (self : Connector) (d : Dict)
        (sha256 : PyVal) (source_url : string) (w : World) :
  truthy (dict_get_default d "id" PNone) = true ->
  declared_sha256 d = Some sha256 ->
  truthy sha256 = true ->
  library_accepts self (dict_get_default d "id" PNone) sha256 (fallback_summary d)
                  source_url = true ->
  _create_objects_for_entry self (PDict d) source_url w
  = (Ok (triple self (dict_get_default d "id" PNone) sha256 (fallback_summary d)
                source_url), w).
Proof.
  intros Hid Hsha Htr Hacc.
  pose proof (create_objects_by_verdict self (PDict d) source_url w) as Hv.
  rewrite (verdict_of_declared d sha256 Hid Hsha Htr) in Hv.
  destruct Hv as (d' & Hd & _ & _ & _ & [[_ E]|[Hrej _]]); inversion Hd; subst d'.
  - exact E.
  - congruence.
Qed.

Lemma accepted_record_is_built_witness :
  @_create_objects_for_entry Sample.library Sample.connector Sample.mal_1 "u" Sample.world1
  = (Ok (@triple Sample.library Sample.connector (PStr "MAL-1") (PStr "abc123")
                 (PStr "bad pkg") "u"), Sample.world1).
Proof.
  apply (@accepted_record_is_built Sample.library Sample.connector Sample.fields_1
           (PStr "abc123") "u" Sample.world1); reflexivity.
Defined.

(** When the builder raises it has logged nothing and changed nothing, and
    the exception is [AttributeError] or the [InvalidValueError] of a
    constructor that refused its arguments. *)
Theorem builder_raises_without_a_trace `{Library} (self : Connector) (osv_data : PyVal)
        (source_url : string) (w w' : World) (e : PyExn) :
  _create_objects_for_entry self osv_data source_url w = (Raise e, w') ->
  w' = w /\ (e = AttributeError "get" \/ exists cls, e = InvalidValueError cls).
Proof.
  intros E.
  pose proof (create_objects_by_verdict self osv_data source_url w) as Hv.
  destruct (verdict osv_data).
  - rewrite Hv in E. discriminate E.
  - rewrite Hv in E. inversion E. split; [reflexivity|left; reflexivity].
  - destruct Hv as (d & _ & _ & _ & _ & [[_ E']|[_ (cls & E')]]); rewrite E' in E.
    + discriminate E.
    + inversion E. split; [reflexivity|right; exists cls; reflexivity].
Qed.

Lemma builder_raises_without_a_trace_witness :
  snd (@_create_objects_for_entry Sample.library Sample.connector Sample.mal_5 "u"
         Sample.world1) = Sample.world1
  /\ (AttributeError "get" = AttributeError "get"
      \/ exists cls, AttributeError "get" = InvalidValueError cls).
Proof.
  apply (@builder_raises_without_a_trace Sample.library Sample.connector Sample.mal_5 "u"
           Sample.world1
           (snd (@_create_objects_for_entry Sample.library Sample.connector Sample.mal_5 "u"
                   Sample.world1))
           (AttributeError "get")).
  vm_compute. reflexivity.
Defined.

(** The builder reads four fields of a record and no other: two records
    that agree on [id], [summary], [details] and [database_specific] are
    built alike, whatever else they hold. *)
Theorem unknown_fields_are_ignored `{Library} (self : Connector) (d1 d2 : Dict)
        (source_url : string) (w : World) :
  (forall k, In k ["id"; "summary"; "details"; "database_specific"] ->
             dict_get d1 k = dict_get d2 k) ->
  _create_objects_for_entry self (PDict d1) source_url w
  = _create_objects_for_entry self (PDict d2) source_url w.
Proof.
  intros Hagree.
  assert (Hget : forall k default,
             In k ["id"; "summary"; "details"; "database_specific"] ->
             dict_get_default d1 k default = dict_get_default d2 k default).
  { intros k default Hk. unfold dict_get_default. rewrite (Hagree k Hk). reflexivity. }
  assert (Hsum : fallback_summary d1 = fallback_summary d2).
  { unfold fallback_summary.
    rewrite (Hget "summary"), (Hget "details") by (simpl; tauto). reflexivity. }
  unfold _create_objects_for_entry.
  rewrite (bind_ok _ _ w w (dict_get_default d1 "id" PNone)) by reflexivity.
  rewrite (bind_ok _ _ w w (fallback_summary d1)) by apply summary_of_dict.
  symmetry.
  rewrite (bind_ok _ _ w w (dict_get_default d2 "id" PNone)) by reflexivity.
  rewrite (bind_ok _ _ w w (fallback_summary d2)) by apply summary_of_dict.
  cbn [py_get].
  rewrite Hsum, (Hget "id"), (Hget "database_specific") by (simpl; tauto).
  reflexivity.
Qed.

Lemma unknown_fields_are_ignored_witness :
  @_create_objects_for_entry Sample.library Sample.connector (PDict Sample.fields_1_full)
                             "u" Sample.world1
  = @_create_objects_for_entry Sample.library Sample.connector (PDict Sample.fields_1)
                               "u" Sample.world1.
Proof.
  apply (@unknown_fields_are_ignored Sample.library Sample.connector Sample.fields_1_full
           Sample.fields_1 "u" Sample.world1).
  intros k [<-|[<-|[<-|[<-|[]]]]]; reflexivity.
Defined.

(** Only the first origin counts: two records that agree on [id], [summary]
    and [details] and whose origin lists start with the same entry are built
    alike, whatever the later origins and the rest of [database_specific]. *)
Theorem only_first_origin_is_used `{Library} (self : Connector) (d1 d2 db1 db2 : Dict)
        (first : PyVal) (rest1 rest2 : list PyVal) (source_url : string) (w : World) :
  (forall k, In k ["id"; "summary"; "details"] -> dict_get d1 k = dict_get d2 k) ->
  dict_get d1 "database_specific" = Some (PDict db1) ->
  dict_get d2 "database_specific" = Some (PDict db2) ->
  dict_get db1 "malicious-packages-origins" = Some (PList (first :: rest1)) ->
  dict_get db2 "malicious-packages-origins" = Some (PList (first :: rest2)) ->
  _create_objects_for_entry self (PDict d1) source_url w
  = _create_objects_for_entry self (PDict d2) source_url w.
Proof.
  intros Hagree Hd1 Hd2 Ho1 Ho2.
  assert (Hget : forall k default,
             In k ["id"; "summary"; "details"] ->
             dict_get_default d1 k default = dict_get_default d2 k default).
  { intros k default Hk. unfold dict_get_default. rewrite (Hagree k Hk). reflexivity. }
  assert (Hsum : fallback_summary d1 = fallback_summary d2).
  { unfold fallback_summary.
    rewrite (Hget "summary"), (Hget "details") by (simpl; tauto). reflexivity. }
  assert (Hstep : forall d db rest,
             dict_get d "database_specific" = Some (PDict db) ->
             dict_get db "malicious-packages-origins" = Some (PList (first :: rest)) ->
             forall k : PyVal -> M (list StixObject),
               (db_spec <- py_get (PDict d) "database_specific" (PDict []) ;;
                o <- py_get db_spec "malicious-packages-origins" PNone ;;
                origins <- (if truthy o then ret o
                            else py_get db_spec
                                   (str_replace "_" "-" "malicious-packages-origins")
                                   PNone) ;;
                sha256 <- match origins with
                          | PList (first :: _) => py_get first "sha256" PNone
                          | _ => ret PNone
                          end ;;
                k sha256) w
               = (sha256 <- py_get first "sha256" PNone ;; k sha256) w).
  { intros d db rest Hd Ho k.
    rewrite (bind_ok _ _ w w (PDict db))
      by (unfold py_get, dict_get_default; rewrite Hd; reflexivity).
    rewrite (bind_ok _ _ w w (PList (first :: rest)))
      by (unfold py_get, dict_get_default; rewrite Ho; reflexivity).
    rewrite (bind_ok _ _ w w (PList (first :: rest))) by reflexivity.
    reflexivity. }
  unfold _create_objects_for_entry.
  rewrite (bind_ok _ _ w w (dict_get_default d1 "id" PNone)) by reflexivity.
  rewrite (bind_ok _ _ w w (fallback_summary d1)) by apply summary_of_dict.
  symmetry.
  rewrite (bind_ok _ _ w w (dict_get_default d2 "id" PNone)) by reflexivity.
  rewrite (bind_ok _ _ w w (fallback_summary d2)) by apply summary_of_dict.
  rewrite <- Hsum, <- (Hget "id") by (simpl; tauto).
  destruct (negb (truthy (dict_get_default d1 "id" PNone))); [reflexivity|].
  cbv zeta.
  rewrite (Hstep d2 db2 rest2 Hd2 Ho2), (Hstep d1 db1 rest1 Hd1 Ho1). reflexivity.
Qed.

Lemma only_first_origin_is_used_witness :
  @_create_objects_for_entry Sample.library Sample.connector
                             (PDict Sample.fields_1_two_origins) "u" Sample.world1
  = @_create_objects_for_entry Sample.library Sample.connector (PDict Sample.fields_1)
                               "u" Sample.world1.
Proof.
  apply (@only_first_origin_is_used Sample.library Sample.connector
           Sample.fields_1_two_origins Sample.fields_1
           [("malicious-packages-origins",
             PList [PDict [("sha256", PStr "abc123")]; PDict [("sha256", PStr "def456")]])]
           [("malicious-packages-origins", PList [PDict [("sha256", PStr "abc123")]])]
           (PDict [("sha256", PStr "abc123")])
           [PDict [("sha256", PStr "def456")]] [] "u" Sample.world1).
  - intros k [<-|[<-|[<-|[]]]]; reflexivity.
  - reflexivity.
  - reflexivity.
  - reflexivity.
  - reflexivity.
Defined.

(** Every object the builder returns carries the TLP:CLEAR marking and no
    other. *)
Theorem built_objects_are_marked_clear `{Library} (self : Connector) (osv_data : PyVal)
        (source_url : string) (w w' : World) (objs : list StixObject) :
  _create_objects_for_entry self osv_data source_url w = (Ok objs, w') ->
  Forall (fun o => marking_refs o = [TLP_CLEAR_ID]) objs.
Proof.
  intros E. apply create_objects_returns in E.
  destruct E as (d & _ & [[-> _]|(sha & _ & _ & _ & ->)]); [constructor|].
  unfold triple. repeat constructor.
Qed.

Lemma built_objects_are_marked_clear_witness :
  Forall (fun o => marking_refs o = [TLP_CLEAR_ID])
         (@triple Sample.library Sample.connector (PStr "MAL-1") (PStr "abc123")
                  (PStr "bad pkg") "u").
Proof.
  apply (@built_objects_are_marked_clear Sample.library Sample.connector Sample.mal_1 "u"
           Sample.world1 Sample.world1).
  vm_compute. reflexivity.
Defined.

(** In a triple the builder returns, the relationship is "based-on" from
    the indicator to the observable of the same triple; the indicator's
    pattern is [file:hashes.'SHA-256' = '<hash>'] for the hash of the
    observable, and its identifier was generated from this pattern; its one external reference is the given URL under
    "ossf-malicious-packages", its score the configured default; the
    observable is named after the record's id.  Building logs nothing. *)
Theorem triple_is_linked `{Library} (self : Connector) (d : Dict)
        (source_url : string) (w w' : World)
        (f : File) (i : Indicator) (r : Relationship) :
  _create_objects_for_entry self (PDict d) source_url w = (Ok [SCO f; SDO i; SRO r], w') ->
  w' = w
  /\ relationship_type r = "based-on"
  /\ source_ref r = indicator_id i /\ target_ref r = file_id f
  /\ pattern_type i = "stix"
  /\ pattern i
     = ("[file:hashes.'SHA-256' = '" ++ format_value (file_sha256 f) ++ "']")%string
  /\ indicator_id i = Indicator_generate_id (pattern i)
  /\ external_references i = [mkExternalReference "ossf-malicious-packages" source_url]
  /\ x_opencti_score i = default_score self
  /\ x_opencti_main_observable_type i = "File"
  /\ file_name f = dict_get_default d "id" PNone
  /\ declared_sha256 d = Some (file_sha256 f)
  /\ forall s, file_sha256 f = PStr s ->
               pattern i = ("[file:hashes.'SHA-256' = '" ++ s ++ "']")%string.
Proof.
  intros E.
  pose proof (create_objects_by_verdict self (PDict d) source_url w) as Hv.
  destruct (verdict (PDict d)).
  - rewrite Hv in E. discriminate E.
  - rewrite Hv in E. discriminate E.
  - destruct Hv as (d' & Hd & Hsha & _ & _ & [[_ E']|[_ (cls & E')]]);
      rewrite E' in E; [|discriminate E].
    inversion Hd; subst d'. unfold triple in E. inversion E; subst. simpl.
    split; [reflexivity|]. repeat (split; [reflexivity|]).
    split; [exact Hsha|].
    intros s Hs. unfold sha256_pattern. rewrite Hs. reflexivity.
Qed.

Lemma triple_is_linked_witness :
  exists f i r,
    @triple Sample.library Sample.connector (PStr "MAL-1") (PStr "abc123") (PStr "bad pkg")
            "https://example.org/MAL-1.json" = [SCO f; SDO i; SRO r]
    /\ source_ref r = indicator_id i /\ target_ref r = file_id f
    /\ external_references i
       = [mkExternalReference "ossf-malicious-packages" "https://example.org/MAL-1.json"]
    /\ x_opencti_score i = 80%Z
    /\ pattern i = "[file:hashes.'SHA-256' = 'abc123']".
Proof.
  unfold triple. do 3 eexists. split; [reflexivity|].
  match goal with
  | |- source_ref ?r = indicator_id ?i /\ target_ref ?r = file_id ?f /\ _ =>
      destruct (@triple_is_linked Sample.library Sample.connector Sample.fields_1
                  "https://example.org/MAL-1.json" Sample.world1 Sample.world1 f i r)
        as (_ & _ & Hs & Ht & _ & _ & _ & He & Hsc & _ & _ & _ & Hp)
  end.
  - vm_compute. reflexivity.
  - split; [exact Hs|]. split; [exact Ht|]. split; [exact He|]. split; [exact Hsc|].
    apply (Hp "abc123"). reflexivity.
Defined.

(** * The file loop (step 4) *)

Section FileLoop.
Context `{Library}.
Variable self : Connector.
Variable env : Env.
Variable current_head : string.

Lemma collect_objects_for_each (changed_files : list string) :
  collect_objects self env changed_files current_head
  = for_each changed_files (collect_step self env current_head) [].
Proof. reflexivity. Qed.

(** One file adds its objects after those gathered so far. *)
Lemma collect_step_acc (file_path : string) (acc : list StixObject) (w : World) :
  collect_step self env current_head file_path acc w
  = match collect_step self env current_head file_path [] w with
    | (Ok objs, w') => (Ok (acc ++ objs), w')
    | (Raise e, w') => (Raise e, w')
    end.
Proof.
  unfold collect_step, bind.
  destruct (_parse_osv_json env file_path w) as [[parsed|e] w1]; [|reflexivity].
  destruct (negb (truthy parsed)); [simpl; rewrite app_nil_r; reflexivity|].
  destruct (_create_objects_for_entry self parsed
              (_build_github_blob_url self file_path current_head) w1)
    as [[objs|e] w2]; [|reflexivity].
  destruct objs; simpl; [rewrite app_nil_r|]; reflexivity.
Qed.

Lemma for_each_collect_acc (files : list string) :
  forall (acc : list StixObject) (w : World),
    for_each files (collect_step self env current_head) acc w
    = match for_each files (collect_step self env current_head) [] w with
      | (Ok objs, w') => (Ok (acc ++ objs), w')
      | (Raise e, w') => (Raise e, w')
      end.
Proof.
  induction files as [|x files IH]; intros acc w; simpl.
  - unfold ret. rewrite app_nil_r. reflexivity.
  - unfold bind. rewrite (collect_step_acc x acc w).
    destruct (collect_step self env current_head x [] w) as [[o|e] w1]; [|reflexivity].
    rewrite (IH (acc ++ o) w1), (IH o w1).
    destruct (for_each files (collect_step self env current_head) [] w1)
      as [[objs|e] w2]; [|reflexivity].
    rewrite app_assoc. reflexivity.
Qed.

Lemma collect_objects_cons (x : string) (files : list string) (w : World) :
  collect_objects self env (x :: files) current_head w
  = match collect_step self env current_head x [] w with
    | (Ok o, w1) =>
        match collect_objects self env files current_head w1 with
        | (Ok objs, w2) => (Ok (o ++ objs), w2)
        | (Raise e, w2) => (Raise e, w2)
        end
    | (Raise e, w1) => (Raise e, w1)
    end.
Proof.
  rewrite !collect_objects_for_each. simpl. unfold bind.
  destruct (collect_step self env current_head x [] w) as [[o|e] w1]; [|reflexivity].
  rewrite (for_each_collect_acc files o w1). reflexivity.
Qed.

End FileLoop.

(** Gathering over two lists of files, one after the other, is gathering
    over the first, then over the second in the world the first left, with
    the objects in this order; when a file of the first list makes the loop
    raise, no file after it is read. *)
Theorem collect_objects_app `{Library} (self : Connector) (env : Env)
        (xs ys : list string) (current_head : string) (w : World) :
  collect_objects self env (xs ++ ys) current_head w
  = match collect_objects self env xs current_head w with
    | (Ok o1, w1) =>
        match collect_objects self env ys current_head w1 with
        | (Ok o2, w2) => (Ok (o1 ++ o2), w2)
        | (Raise e, w2) => (Raise e, w2)
        end
    | (Raise e, w1) => (Raise e, w1)
    end.
Proof.
  revert w. induction xs as [|x xs IH]; intros w.
  - simpl app.
    assert (E0 : collect_objects self env [] current_head w = (Ok [], w)) by reflexivity.
    rewrite E0.
    destruct (collect_objects self env ys current_head w) as [[o2|e] w2]; reflexivity.
  - simpl app. rewrite !collect_objects_cons.
    destruct (collect_step self env current_head x [] w) as [[o|e] w1]; [|reflexivity].
    rewrite IH.
    destruct (collect_objects self env xs current_head w1) as [[o1|e] w2]; [|reflexivity].
    destruct (collect_objects self env ys current_head w2) as [[o2|e] w3]; [|reflexivity].
    rewrite app_assoc. reflexivity.
Qed.

(** The objects a run gathers come in whole triples: three for each file
    that was built, none for the others. *)
Theorem collected_objects_come_in_triples `{Library} (self : Connector) (env : Env)
        (changed_files : list string) (current_head : string) (w w' : World)
        (all_objects : list StixObject) :
  collect_objects self env changed_files current_head w = (Ok all_objects, w') ->
  exists built, built <= length changed_files /\ length all_objects = 3 * built.
Proof.
  revert w all_objects w'. induction changed_files as [|x files IH]; intros w all_objects w' E.
  - inversion E. exists 0. split; [apply Nat.le_refl|reflexivity].
  - rewrite collect_objects_cons in E.
    destruct (collect_step self env current_head x [] w) as [[o|e] w1] eqn:Ex;
      [|discriminate E].
    destruct (collect_objects self env files current_head w1) as [[objs|e] w2] eqn:Er;
      [|discriminate E].
    inversion E; subst. destruct (IH _ _ _ Er) as (built & Hle & Hlen).
    assert (Ho : length o = 0 \/ length o = 3).
    { unfold collect_step, bind in Ex.
      destruct (_parse_osv_json env x w) as [[parsed|e] w0]; [|discriminate Ex].
      destruct (negb (truthy parsed)); [inversion Ex; left; reflexivity|].
      destruct (_create_objects_for_entry self parsed
                  (_build_github_blob_url self x current_head) w0)
        as [[built_objs|e] w3] eqn:Eb; [|discriminate Ex].
      apply create_objects_returns in Eb.
      destruct Eb as (d & _ & [[-> _]|(sha & _ & _ & _ & ->)]).
      - inversion Ex. left. reflexivity.
      - inversion Ex. right. reflexivity. }
    rewrite length_app. destruct Ho as [Ho|Ho]; rewrite Ho.
    + exists built. split; [simpl; lia|lia].
    + exists (S built). split; [simpl; lia|lia].
Qed.

Lemma collected_objects_come_in_triples_witness :
  exists built,
    built <= 1
    /\ length (@triple Sample.library Sample.connector (PStr "MAL-1") (PStr "abc123")
                       (PStr "bad pkg")
                       "https://github.com/ossf/malicious-packages/blob/b2/osv/malicious/npm/evil/MAL-1.json")
       = 3 * built.
Proof.
  apply (@collected_objects_come_in_triples Sample.library Sample.connector Sample.env
           ["/data/repo/osv/malicious/npm/evil/MAL-1.json"] "b2" Sample.world1 Sample.world1).
  vm_compute. reflexivity.
Defined.

(** Files that cannot be read or parsed, or that parse to a falsy value,
    add no object and never stop the loop: each unreadable file leaves one
    error record, in the order of the files, and an empty or null file
    leaves none. *)
Theorem passed_over_files_add_nothing `{Library} (self : Connector) (env : Env)
        (changed_files : list string) (current_head : string) (w : World) :
  Forall (passed_over env) changed_files ->
  collect_objects self env changed_files current_head w
  = (Ok [], with_log w (flat_map (parse_log env) changed_files)).
Proof.
  revert w. induction changed_files as [|x files IH]; intros w Hall.
  - unfold with_log. simpl. rewrite app_nil_r. destruct w; reflexivity.
  - inversion Hall as [|? ? Hx Hfiles]; subst.
    rewrite collect_objects_cons.
    assert (Ex : collect_step self env current_head x [] w
                 = (Ok [], with_log w (parse_log env x))).
    { unfold collect_step, bind, _parse_osv_json, try_except, lift, parse_log.
      unfold passed_over in Hx.
      destruct (json_load env x) as [v|e].
      - rewrite Hx. simpl. unfold with_log. simpl. rewrite app_nil_r.
        destruct w; reflexivity.
      - reflexivity. }
    rewrite Ex, (IH _ Hfiles). simpl.
    unfold with_log. simpl. rewrite app_assoc. reflexivity.
Qed.

Lemma passed_over_files_add_nothing_witness :
  @collect_objects Sample.library Sample.connector Sample.env_malformed
                   ["/data/repo/osv/malicious/npm/evil/MAL-8.json";
                    "/data/repo/osv/malicious/npm/evil/MAL-0.json"] "b2" Sample.world1
  = (Ok [], with_log Sample.world1
              [(ERROR, MsgParseFailed "/data/repo/osv/malicious/npm/evil/MAL-8.json"
                         (ExternalError "json.load"));
               (ERROR, MsgParseFailed "/data/repo/osv/malicious/npm/evil/MAL-0.json"
                         (ExternalError "open"))]).
Proof.
  apply (@passed_over_files_add_nothing Sample.library Sample.connector Sample.env_malformed
           ["/data/repo/osv/malicious/npm/evil/MAL-8.json";
            "/data/repo/osv/malicious/npm/evil/MAL-0.json"] "b2" Sample.world1).
  repeat constructor.
Defined.

(** The objects gathered from one file name that file: the file parsed to a
    record, the observable bears the record's id, and the indicator's
    external reference is the blob URL of this file at the current HEAD. *)
Theorem gathered_indicator_points_to_its_file `{Library} (self : Connector) (env : Env)
        (file_path current_head : string) (w w' : World)
        (f : File) (i : Indicator) (r : Relationship) :
  collect_objects self env [file_path] current_head w = (Ok [SCO f; SDO i; SRO r], w') ->
  w' = w
  /\ exists d,
       json_load env file_path = Ok (PDict d)
       /\ file_name f = dict_get_default d "id" PNone
       /\ external_references i
          = [mkExternalReference "ossf-malicious-packages"
               (_build_github_blob_url self file_path current_head)].
Proof.
  intros E. rewrite collect_objects_cons in E.
  assert (E0 : forall w1, collect_objects self env [] current_head w1 = (Ok [], w1))
    by reflexivity.
  unfold collect_step, bind, _parse_osv_json, try_except, lift in E.
  destruct (json_load env file_path) as [v|e].
  - destruct (negb (truthy v)); [cbn in E; discriminate E|].
    pose proof (create_objects_by_verdict self v
                  (_build_github_blob_url self file_path current_head) w) as Hv.
    destruct (verdict v).
    + rewrite Hv in E. cbn in E. discriminate E.
    + rewrite Hv in E. discriminate E.
    + destruct Hv as (d & -> & _ & _ & _ & [[_ Hb]|[_ (cls & Hb)]]); rewrite Hb in E;
        [|discriminate E].
      unfold triple, ret in E. cbn [app] in E. cbv beta iota in E. rewrite E0 in E.
      inversion E; subst. split; [reflexivity|]. exists d. repeat split.
  - cbn in E. discriminate E.
Qed.

Lemma gathered_indicator_points_to_its_file_witness :
  exists f i r d,
    fst (@collect_objects Sample.library Sample.connector Sample.env
           ["/data/repo/osv/malicious/npm/evil/MAL-1.json"] "b2" Sample.world1)
    = Ok [SCO f; SDO i; SRO r]
    /\ json_load Sample.env "/data/repo/osv/malicious/npm/evil/MAL-1.json" = Ok (PDict d)
    /\ file_name f = dict_get_default d "id" PNone
    /\ external_references i
       = [mkExternalReference "ossf-malicious-packages"
            "https://github.com/ossf/malicious-packages/blob/b2/osv/malicious/npm/evil/MAL-1.json"].
Proof.
  pose (u := "https://github.com/ossf/malicious-packages/blob/b2/osv/malicious/npm/evil/MAL-1.json").
  pose (fi := mkFile "file--abc123/MAL-1" (PStr "MAL-1") (PStr "abc123") (PStr "bad pkg")
                     [TLP_CLEAR_ID]).
  pose (ii := mkIndicator "indicator--[file:hashes.'SHA-256' = 'abc123']"
                "Malicious package MAL-1" (PStr "bad pkg")
                "[file:hashes.'SHA-256' = 'abc123']" "stix"
                [mkExternalReference "ossf-malicious-packages" u] [TLP_CLEAR_ID] "File" 80%Z).
  pose (ri := mkRelationship
                "relationship--based-on/indicator--[file:hashes.'SHA-256' = 'abc123']/file--abc123/MAL-1"
                "based-on" "indicator--[file:hashes.'SHA-256' = 'abc123']"
                "file--abc123/MAL-1" [TLP_CLEAR_ID]).
  destruct (@gathered_indicator_points_to_its_file Sample.library Sample.connector Sample.env
              "/data/repo/osv/malicious/npm/evil/MAL-1.json" "b2" Sample.world1 Sample.world1
              fi ii ri) as (_ & d & Hload & Hname & Href).
  - vm_compute. reflexivity.
  - exists fi, ii, ri, d. split; [vm_compute; reflexivity|]. split; [exact Hload|].
    split; [exact Hname|]. exact Href.
Defined.

(** * Whole runs *)

Section WholeRuns.
Context `{Library}.
Variable self : Connector.
Variable env : Env.

Lemma init_or_update_repo_ready (w : World) :
  repo_ready self env ->
  _init_or_update_repo self env w = (Ok tt, with_log w [repo_record self env]).
Proof.
  unfold repo_ready, repo_commands, repo_record, _init_or_update_repo.
  destruct (isdir env (local_repo_path self)); cbn [negb]; intros Hready.
  - inversion Hready as [|c1 l1 H1 Hrest1]; subst.
    inversion Hrest1 as [|c2 l2 H2 Hrest2]; subst.
    inversion Hrest2 as [|c3 l3 H3 _]; subst.
    unfold bind, log_info, lift. rewrite H1, H2, H3. reflexivity.
  - inversion Hready as [|c1 l1 H1 _]; subst.
    unfold bind, log_info, lift. rewrite H1. reflexivity.
Qed.

Lemma init_or_update_repo_fails (w : World) :
  Exists (fun cmd => check_call env cmd <> Ok tt) (repo_commands self env) ->
  exists e,
    _init_or_update_repo self env w = (Raise e, with_log w [repo_record self env])
    /\ Exists (fun cmd => check_call env cmd = Raise e) (repo_commands self env).
Proof.
  unfold repo_commands, repo_record, _init_or_update_repo.
  destruct (isdir env (local_repo_path self)); cbn [negb]; intros Hfail;
    unfold bind, log_info, lift.
  - destruct (check_call env ["git"; "-C"; local_repo_path self; "fetch"; "origin";
                              github_branch self]) as [[]|e1] eqn:E1.
    2:{ exists e1. split; [reflexivity|]. apply Exists_cons_hd. exact E1. }
    destruct (check_call env ["git"; "-C"; local_repo_path self; "checkout";
                              github_branch self]) as [[]|e2] eqn:E2.
    2:{ exists e2. split; [reflexivity|]. apply Exists_cons_tl, Exists_cons_hd. exact E2. }
    destruct (check_call env ["git"; "-C"; local_repo_path self; "pull"; "origin";
                              github_branch self]) as [[]|e3] eqn:E3.
    2:{ exists e3. split; [reflexivity|].
        apply Exists_cons_tl, Exists_cons_tl, Exists_cons_hd. exact E3. }
    exfalso. rewrite !Exists_cons, Exists_nil in Hfail.
    destruct Hfail as [Hf|[Hf|[Hf|[]]]]; apply Hf; assumption.
  - destruct (check_call env ["git"; "clone"; "--branch"; github_branch self;
                              github_repo_url self; local_repo_path self]) as [[]|e1] eqn:E1.
    2:{ exists e1. split; [reflexivity|]. apply Exists_cons_hd. exact E1. }
    exfalso. rewrite Exists_cons, Exists_nil in Hfail.
    destruct Hfail as [Hf|[]]; apply Hf; assumption.
Qed.

Lemma process_once_no_files (w : World) (work_id cur : string) (d : Dict) :
  initiate_work env "OSSF Malicious Packages full run" = Ok work_id ->
  repo_ready self env ->
  rev_parse_head env = Ok cur ->
  py_or (connector_state w) (PDict []) = PDict d ->
  (forall w0, _get_changed_files self env (dict_get_default d "last_commit" PNone) cur w0
              = (Ok [], w0)) ->
  _process_once self env w
  = match to_processed_error env (WorkDone cur) with
    | None =>
        (Ok tt,
         mkWorld (PDict (new_state_of cur env))
                 (log w ++ [(INFO, MsgStarting); repo_record self env;
                            (INFO, MsgLastCommit (dict_get_default d "last_commit" PNone) cur);
                            (INFO, MsgFound 0);
                            (INFO, MsgNoNewObjects);
                            (INFO, MsgStateUpdated (new_state_of cur env));
                            (INFO, MsgSuccess cur)])
                 (sent w)
                 (processed w ++ [(work_id, WorkDone cur)]))
    | Some e =>
        (Raise e,
         mkWorld (PDict (new_state_of cur env))
                 (log w ++ [(INFO, MsgStarting); repo_record self env;
                            (INFO, MsgLastCommit (dict_get_default d "last_commit" PNone) cur);
                            (INFO, MsgFound 0);
                            (INFO, MsgNoNewObjects);
                            (INFO, MsgStateUpdated (new_state_of cur env))])
                 (sent w) (processed w))
    end.
Proof.
  intros Hwork Hinit Hhead Hstate Hfiles.
  unfold _process_once, _get_current_head.
  rewrite Hwork, Hhead.
  rewrite (bind_ok _ _ w (with_log w [(INFO, MsgStarting)]) tt) by reflexivity.
  rewrite (bind_ok _ _ _ (with_log w [(INFO, MsgStarting)]) work_id) by reflexivity.
  set (w2 := with_log (with_log w [(INFO, MsgStarting)]) [repo_record self env]).
  rewrite (bind_ok _ _ _ w2 tt) by (apply init_or_update_repo_ready; exact Hinit).
  rewrite (bind_ok _ _ _ w2 cur) by reflexivity.
  rewrite (bind_ok _ _ _ w2 (connector_state w)) by reflexivity.
  rewrite Hstate.
  rewrite (bind_ok _ _ _ w2 (dict_get_default d "last_commit" PNone)) by reflexivity.
  rewrite (bind_ok _ _ _
             (with_log w2
                       [(INFO, MsgLastCommit (dict_get_default d "last_commit" PNone) cur)])
             tt) by reflexivity.
  rewrite (bind_ok _ _ _
             (with_log w2
                       [(INFO, MsgLastCommit (dict_get_default d "last_commit" PNone) cur)])
             []) by apply Hfiles.
  subst w2.
  unfold collect_objects, for_each, bind, log_info, ret, set_state, to_processed, with_log.
  cbn [log sent processed connector_state length].
  destruct (to_processed_error env (WorkDone cur));
    cbn [log sent processed connector_state]; unfold new_state_of;
    rewrite <- !app_assoc; reflexivity.
Qed.

Lemma option_string_eqb_refl (a : option string) : option_string_eqb a a = true.
Proof. destruct a; simpl; [apply String.eqb_refl|reflexivity]. Qed.

Lemma git_diff_of_same_revision (rev pathspec : string) (t : Snapshot) :
  revisions env rev = Some t ->
  git_diff_name_only env rev rev pathspec = Ok [].
Proof.
  intros Hrev. unfold git_diff_name_only. rewrite Hrev. f_equal.
  assert (E : filter (fun p => under pathspec p && differs t t p
                               && negb (renamed_away env t t pathspec p))
                     (nodup string_dec (map fst t ++ map fst t)) = []).
  { induction (nodup string_dec (map fst t ++ map fst t)) as [|p l IH]; [reflexivity|].
    simpl. unfold differs at 1. rewrite option_string_eqb_refl, andb_false_r. exact IH. }
  rewrite E. reflexivity.
Qed.

End WholeRuns.

(** When HEAD has not moved since the saved commit, a run finds no file,
    sends nothing, saves the state again with the same commit and the new
    time, and marks its work as done; if marking the work raises, the run
    raises with the state already saved. *)
Theorem unchanged_head_resaves_checkpoint `{Library} (self : Connector) (env : Env)
        (w : World) (work_id cur : string) (d : Dict) (t : Snapshot) :
  initiate_work env "OSSF Malicious Packages full run" = Ok work_id ->
  repo_ready self env ->
  rev_parse_head env = Ok cur ->
  connector_state w = PDict d ->
  dict_get d "last_commit" = Some (PStr cur) ->
  revisions env cur = Some t ->
  _process_once self env w
  = match to_processed_error env (WorkDone cur) with
    | None =>
        (Ok tt,
         mkWorld (PDict (new_state_of cur env))
                 (log w ++ [(INFO, MsgStarting); repo_record self env;
                            (INFO, MsgLastCommit (PStr cur) cur);
                            (INFO, MsgFound 0); (INFO, MsgNoNewObjects);
                            (INFO, MsgStateUpdated (new_state_of cur env));
                            (INFO, MsgSuccess cur)])
                 (sent w)
                 (processed w ++ [(work_id, WorkDone cur)]))
    | Some e =>
        (Raise e,
         mkWorld (PDict (new_state_of cur env))
                 (log w ++ [(INFO, MsgStarting); repo_record self env;
                            (INFO, MsgLastCommit (PStr cur) cur);
                            (INFO, MsgFound 0); (INFO, MsgNoNewObjects);
                            (INFO, MsgStateUpdated (new_state_of cur env))])
                 (sent w) (processed w))
    end.
Proof.
  intros Hwork Hinit Hhead Hstate Hlast Hrev.
  assert (Hd : py_or (connector_state w) (PDict []) = PDict d).
  { rewrite Hstate. unfold py_or. destruct d; [discriminate Hlast|reflexivity]. }
  assert (Hget : dict_get_default d "last_commit" PNone = PStr cur).
  { unfold dict_get_default. rewrite Hlast. reflexivity. }
  rewrite (process_once_no_files self env w work_id cur d Hwork Hinit Hhead Hd).
  - rewrite Hget. reflexivity.
  - intros w0. rewrite Hget. unfold _get_changed_files.
    rewrite (bind_ok _ _ w0 w0 [])
      by (unfold lift; simpl format_value;
          rewrite (git_diff_of_same_revision env cur "osv/malicious" t Hrev); reflexivity).
    reflexivity.
Qed.

Lemma unchanged_head_resaves_checkpoint_witness :
  @_process_once Sample.library Sample.connector Sample.env
     (mkWorld (PDict [("last_commit", PStr "b2"); ("last_run", PStr "2024-04-30T00:00:00+00:00")])
              [] [] [])
  = (Ok tt,
     mkWorld (PDict [("last_commit", PStr "b2"); ("last_run", PStr "2024-05-01T00:00:00+00:00")])
             [(INFO, MsgStarting); (INFO, MsgUpdating "/data/repo");
              (INFO, MsgLastCommit (PStr "b2") "b2");
              (INFO, MsgFound 0); (INFO, MsgNoNewObjects);
              (INFO, MsgStateUpdated [("last_commit", PStr "b2");
                                      ("last_run", PStr "2024-05-01T00:00:00+00:00")]);
              (INFO, MsgSuccess "b2")]
             [] [("work-1", WorkDone "b2")]).
Proof.
  apply (@unchanged_head_resaves_checkpoint Sample.library Sample.connector Sample.env
           (mkWorld (PDict [("last_commit", PStr "b2");
                            ("last_run", PStr "2024-04-30T00:00:00+00:00")]) [] [] [])
           "work-1" "b2"
           [("last_commit", PStr "b2"); ("last_run", PStr "2024-04-30T00:00:00+00:00")]
           [("osv/malicious/npm/evil/MAL-1.json", "blob-b2"); ("README.md", "blob-r2")]);
    try reflexivity.
  repeat constructor.
Defined.

(** A first run on a clone that has no osv/malicious directory does not
    fail: it finds no file, saves HEAD as the last commit and marks its
    work as done, so no later run goes back over the tree. *)
Theorem first_run_without_directory_saves_checkpoint `{Library} (self : Connector)
        (env : Env) (w : World) (work_id cur : string) (d : Dict) :
  initiate_work env "OSSF Malicious Packages full run" = Ok work_id ->
  repo_ready self env ->
  rev_parse_head env = Ok cur ->
  to_processed_error env (WorkDone cur) = None ->
  py_or (connector_state w) (PDict []) = PDict d ->
  dict_get d "last_commit" = None ->
  fs_at env (malicious_dir self) = None ->
  _process_once self env w
  = (Ok tt,
     mkWorld (PDict (new_state_of cur env))
             (log w ++ [(INFO, MsgStarting); repo_record self env;
                        (INFO, MsgLastCommit PNone cur);
                        (INFO, MsgFound 0); (INFO, MsgNoNewObjects);
                        (INFO, MsgStateUpdated (new_state_of cur env));
                        (INFO, MsgSuccess cur)])
             (sent w)
             (processed w ++ [(work_id, WorkDone cur)])).
Proof.
  intros Hwork Hinit Hhead Hdone Hd Hlast Hfs.
  assert (Hget : dict_get_default d "last_commit" PNone = PNone).
  { unfold dict_get_default. rewrite Hlast. reflexivity. }
  rewrite (process_once_no_files self env w work_id cur d Hwork Hinit Hhead Hd).
  - rewrite Hdone, Hget. reflexivity.
  - intros w0. rewrite Hget. unfold _get_changed_files. fold (malicious_dir self).
    rewrite Hfs. reflexivity.
Qed.

Lemma first_run_without_directory_saves_checkpoint_witness :
  @_process_once Sample.library
     (mkConnector "https://github.com/ossf/malicious-packages.git" "main" "/srv/other"
                  3600 80)
     Sample.env Sample.world0
  = (Ok tt,
     mkWorld (PDict [("last_commit", PStr "b2"); ("last_run", PStr "2024-05-01T00:00:00+00:00")])
             [(INFO, MsgStarting);
              (INFO, MsgCloning "https://github.com/ossf/malicious-packages.git" "/srv/other");
              (INFO, MsgLastCommit PNone "b2");
              (INFO, MsgFound 0); (INFO, MsgNoNewObjects);
              (INFO, MsgStateUpdated [("last_commit", PStr "b2");
                                      ("last_run", PStr "2024-05-01T00:00:00+00:00")]);
              (INFO, MsgSuccess "b2")]
             [] [("work-1", WorkDone "b2")]).
Proof.
  apply (@first_run_without_directory_saves_checkpoint Sample.library
           (mkConnector "https://github.com/ossf/malicious-packages.git" "main" "/srv/other"
                        3600 80)
           Sample.env Sample.world0 "work-1" "b2" []); try reflexivity.
  repeat constructor.
Defined.

(** When a git command of the update fails, the run stops there: the
    exception of that command leaves [_process_once] after two log records,
    the start of the run and the clone or update of the repository.  HEAD
    and the state are not read, nothing is sent or saved, and the work that
    was initiated is not marked. *)
Theorem failed_update_aborts_run `{Library} (self : Connector) (env : Env)
        (w : World) (work_id : string) :
  initiate_work env "OSSF Malicious Packages full run" = Ok work_id ->
  Exists (fun cmd => check_call env cmd <> Ok tt) (repo_commands self env) ->
  exists e,
    Exists (fun cmd => check_call env cmd = Raise e) (repo_commands self env)
    /\ _process_once self env w
       = (Raise e, with_log w [(INFO, MsgStarting); repo_record self env]).
Proof.
  intros Hwork Hfail.
  destruct (init_or_update_repo_fails self env
              (with_log w [(INFO, MsgStarting)]) Hfail) as (e & E & He).
  exists e. split; [exact He|].
  unfold _process_once. rewrite Hwork.
  rewrite (bind_ok _ _ w (with_log w [(INFO, MsgStarting)]) tt) by reflexivity.
  rewrite (bind_ok _ _ _ (with_log w [(INFO, MsgStarting)]) work_id) by reflexivity.
  rewrite (bind_raise _ _ _ _ e E).
  unfold with_log. cbn [log sent processed connector_state].
  rewrite <- app_assoc. reflexivity.
Qed.

Lemma failed_update_aborts_run_witness :
  @_process_once Sample.library Sample.connector Sample.env_offline Sample.world1
  = (Raise (ExternalError "git"),
     mkWorld (connector_state Sample.world1)
             [(INFO, MsgStarting); (INFO, MsgUpdating "/data/repo")] [] []).
Proof.
  destruct (@failed_update_aborts_run Sample.library Sample.connector Sample.env_offline
              Sample.world1 "work-1") as (e & He & E).
  - reflexivity.
  - apply Exists_cons_hd. discriminate.
  - rewrite E. clear E. apply Exists_exists in He. destruct He as (cmd & _ & Hcmd).
    simpl in Hcmd. inversion Hcmd. reflexivity.
Defined.

(** A saved commit that git no longer resolves is not taken for "no
    changes": the diff fails, the run raises before any file is read, and
    the state, the bundles sent and the works marked are left as they were;
    the log has the start of the run, the update of the clone and the two
    commits, and nothing after them. *)
Theorem unknown_checkpoint_aborts_run `{Library} (self : Connector) (env : Env)
        (w : World) (work_id cur : string) (d : Dict) (last_commit : PyVal) :
  initiate_work env "OSSF Malicious Packages full run" = Ok work_id ->
  repo_ready self env ->
  rev_parse_head env = Ok cur ->
  connector_state w = PDict d ->
  dict_get d "last_commit" = Some last_commit ->
  last_commit <> PNone ->
  revisions env (format_value last_commit) = None ->
  _process_once self env w
  = (Raise (ExternalError "git diff"),
     with_log w [(INFO, MsgStarting); repo_record self env;
                 (INFO, MsgLastCommit last_commit cur)]).
Proof.
  intros Hwork Hinit Hhead Hstate Hlast Hsome Hrev.
  assert (Hd : py_or (connector_state w) (PDict []) = PDict d).
  { rewrite Hstate. unfold py_or. destruct d; [discriminate Hlast|reflexivity]. }
  unfold _process_once, _get_current_head.
  rewrite Hwork, Hhead.
  rewrite (bind_ok _ _ w (with_log w [(INFO, MsgStarting)]) tt) by reflexivity.
  rewrite (bind_ok _ _ _ (with_log w [(INFO, MsgStarting)]) work_id) by reflexivity.
  set (w2 := with_log (with_log w [(INFO, MsgStarting)]) [repo_record self env]).
  rewrite (bind_ok _ _ _ w2 tt) by (apply init_or_update_repo_ready; exact Hinit).
  rewrite (bind_ok _ _ _ w2 cur) by reflexivity.
  rewrite (bind_ok _ _ _ w2 (connector_state w)) by reflexivity.
  rewrite Hd.
  rewrite (bind_ok _ _ _ w2 last_commit)
    by (unfold py_get, dict_get_default; rewrite Hlast; reflexivity).
  rewrite (bind_ok _ _ _ (with_log w2 [(INFO, MsgLastCommit last_commit cur)]) tt)
    by reflexivity.
  rewrite (bind_raise _ _ _ (with_log w2 [(INFO, MsgLastCommit last_commit cur)])
             (ExternalError "git diff")).
  - subst w2. unfold with_log. cbn [log sent processed connector_state].
    rewrite <- !app_assoc. reflexivity.
  - unfold _get_changed_files.
    destruct last_commit; try congruence;
      (apply bind_raise; unfold lift, git_diff_name_only; rewrite Hrev; reflexivity).
Qed.

Lemma unknown_checkpoint_aborts_run_witness :
  @_process_once Sample.library Sample.connector Sample.env
     (mkWorld (PDict [("last_commit", PStr "gone")]) [] [] [])
  = (Raise (ExternalError "git diff"),
     mkWorld (PDict [("last_commit", PStr "gone")])
             [(INFO, MsgStarting); (INFO, MsgUpdating "/data/repo");
              (INFO, MsgLastCommit (PStr "gone") "b2")] [] []).
Proof.
  apply (@unknown_checkpoint_aborts_run Sample.library Sample.connector Sample.env
           (mkWorld (PDict [("last_commit", PStr "gone")]) [] [] [])
           "work-1" "b2" [("last_commit", PStr "gone")] (PStr "gone")).
  - reflexivity.
  - repeat constructor.
  - reflexivity.
  - reflexivity.
  - reflexivity.
  - discriminate.
  - reflexivity.
Defined.

Lemma processed_log_info (m : Message) : preserves processed (log_info m).
Proof. intros w. reflexivity. Qed.

Lemma processed_log_error (m : Message) : preserves processed (log_error m).
Proof. intros w. reflexivity. Qed.

Lemma processed_set_state (new_state : Dict) : preserves processed (set_state new_state).
Proof. intros w. reflexivity. Qed.

Lemma processed_load_name {A} (scope : list (string * A)) (name : string) :
  preserves processed (load_name scope name).
Proof.
  induction scope as [|[n v] scope IH]; simpl.
  - apply preserves_raise.
  - destruct (String.eqb n name); [apply preserves_ret|exact IH].
Qed.

Lemma processed_stix2_create_bundle (env : Env) (objects : list StixObject) :
  preserves processed (stix2_create_bundle env objects).
Proof.
  unfold stix2_create_bundle.
  destruct (create_bundle_error env objects); [apply preserves_raise|apply preserves_ret].
Qed.

Lemma processed_send_stix2_bundle (env : Env) (bundle : Bundle) :
  preserves processed (send_stix2_bundle env bundle).
Proof.
  intros w. unfold send_stix2_bundle.
  destruct (send_error env (length (sent w)) bundle); reflexivity.
Qed.

Ltac processed_step :=
  first
    [ apply preserves_ret | apply preserves_raise | apply preserves_lift
    | apply preserves_py_get | apply preserves_get_state
    | apply processed_log_info | apply processed_log_error | apply processed_set_state
    | apply processed_load_name | apply processed_stix2_create_bundle
    | apply processed_send_stix2_bundle
    | apply preserves_bind; [|intros]
    | apply preserves_try_except; [|intros]
    | apply preserves_for_each; intros
    | match goal with
      | |- preserves _ (if ?b then _ else _) => destruct b
      | |- preserves _ (match ?x with _ => _ end) => destruct x
      end ].

(** To establish [Post] of what a [bind] gives, when [Post] holds of every
    exception raised in a world that agrees with [w] on [f]. *)
Lemma result_bind {A B X} (f : World -> X) (Post : Result B * World -> Prop)
      (m : M A) (k : A -> M B) (w w0 : World) :
  (forall e w1, f w1 = f w -> Post (Raise e, w1)) ->
  f w0 = f w ->
  preserves f m ->
  (forall a w1, f w1 = f w -> m w0 = (Ok a, w1) -> Post (k a w1)) ->
  Post (bind m k w0).
Proof.
  intros Hraise H0 Hm Hk. specialize (Hm w0). destruct (m w0) as [[a|e] w1] eqn:E.
  - rewrite (bind_ok m k w0 w1 a E). apply Hk; [|reflexivity]. simpl in Hm. congruence.
  - rewrite (bind_raise m k w0 w1 e E). apply Hraise. simpl in Hm. congruence.
Qed.

(** A run returns exactly when it has marked its work, once, as done or as
    failed; a run that raises leaves its work unmarked. *)
Theorem a_run_returns_iff_it_marked_its_work `{Library} (self : Connector) (env : Env)
        (w : World) :
  (exists work_id message,
      fst (_process_once self env w) = Ok tt
      /\ initiate_work env "OSSF Malicious Packages full run" = Ok work_id
      /\ processed (snd (_process_once self env w)) = processed w ++ [(work_id, message)])
  \/ (exists e,
         fst (_process_once self env w) = Raise e
         /\ processed (snd (_process_once self env w)) = processed w).
Proof.
  set (Post := fun r : Result unit * World =>
         (exists work_id message,
             fst r = Ok tt
             /\ initiate_work env "OSSF Malicious Packages full run" = Ok work_id
             /\ processed (snd r) = processed w ++ [(work_id, message)])
         \/ (exists e, fst r = Raise e /\ processed (snd r) = processed w)).
  assert (Hraise : forall e w1, processed w1 = processed w -> Post (Raise e, w1)).
  { intros e w1 Hp. right. exists e. split; [reflexivity|exact Hp]. }
  change (Post (_process_once self env w)). unfold _process_once.
  apply (result_bind processed Post _ _ w); [exact Hraise|reflexivity|processed_step|].
  intros _ w1 K1 _.
  apply (result_bind processed Post _ _ w); [exact Hraise|exact K1|processed_step|].
  intros work_id w2 K2 Ework.
  assert (Hwork : initiate_work env "OSSF Malicious Packages full run" = Ok work_id).
  { unfold lift in Ework. inversion Ework. reflexivity. }
  clear Ework K1 w1.
  apply (result_bind processed Post _ _ w);
    [exact Hraise|exact K2
    |apply preserves_init_or_update_repo; exact processed_log_info|].
  intros _ w3 K3 _. clear K2 w2.
  apply (result_bind processed Post _ _ w); [exact Hraise|exact K3|apply preserves_lift|].
  intros cur w4 K4 _. clear K3 w3.
  apply (result_bind processed Post _ _ w); [exact Hraise|exact K4|apply preserves_get_state|].
  intros st w5 K5 _. clear K4 w4.
  apply (result_bind processed Post _ _ w); [exact Hraise|exact K5|apply preserves_py_get|].
  intros last_commit w6 K6 _. clear K5 w5.
  apply (result_bind processed Post _ _ w); [exact Hraise|exact K6|processed_step|].
  intros _ w7 K7 _. clear K6 w6.
  apply (result_bind processed Post _ _ w); [exact Hraise|exact K7| |].
  { unfold _get_changed_files. repeat processed_step. }
  intros changed_files w8 K8 _. clear K7 w7.
  apply (result_bind processed Post _ _ w); [exact Hraise|exact K8|processed_step|].
  intros _ w9 K9 _. clear K8 w8.
  apply (result_bind processed Post _ _ w); [exact Hraise|exact K9| |].
  { unfold collect_objects, _parse_osv_json, _create_objects_for_entry, summary_of,
      stix2_File, stix2_ExternalReference, stix2_Indicator, stix2_Relationship.
    repeat processed_step. }
  intros all_objects w10 K10 _. clear K9 w9.
  (* the last two steps, from a world where the work is still unmarked *)
  assert (Hsave : forall w11, processed w11 = processed w ->
            Post ((set_state [("last_commit", PStr cur);
                              ("last_run", PStr (utcnow_isoformat env))] ;;;
                   log_info (MsgStateUpdated
                               [("last_commit", PStr cur);
                                ("last_run", PStr (utcnow_isoformat env))]) ;;;
                   to_processed env work_id (WorkDone cur) ;;;
                   log_info (MsgSuccess cur)) w11)).
  { intros w11 K11. unfold bind, set_state, log_info, to_processed.
    cbn [log sent processed connector_state].
    destruct (to_processed_error env (WorkDone cur)); cbn [log sent processed connector_state].
    - right. eexists. split; [reflexivity|exact K11].
    - left. exists work_id, (WorkDone cur). split; [reflexivity|]. split; [exact Hwork|].
      simpl. rewrite K11. reflexivity. }
  destruct all_objects as [|o objs].
  - apply (result_bind processed Post _ _ w); [exact Hraise|exact K10|repeat processed_step|].
    intros flow w11 K11 Eflow.
    assert (flow = Next).
    { unfold bind, log_info, ret in Eflow. inversion Eflow. reflexivity. }
    subst flow. apply Hsave. exact K11.
  - (* the first pass of the chunk loop raises; the handler marks the work *)
    set (w11 := mkWorld (connector_state w10)
                  (log w10 ++ [(INFO, MsgPreparing (length (o :: objs)) CHUNK_SIZE)])
                  (sent w10) (processed w10)).
    unfold bind at 1 2. unfold log_info at 1. unfold try_except.
    unfold bind at 1. fold w11.
    rewrite (send_in_chunks_raises env (o :: objs) w11) by discriminate.
    unfold bind, log_error, to_processed, ret.
    cbn [log sent processed connector_state].
    destruct (to_processed_error env (WorkFailed (NameError "chunck")));
      cbn [log sent processed connector_state].
    + right. eexists. split; [reflexivity|]. simpl. exact K10.
    + left. exists work_id, (WorkFailed (NameError "chunck")).
      split; [reflexivity|]. split; [exact Hwork|]. simpl. rewrite K10. reflexivity.
Qed.

(** * Paths and URLs *)

(** Whatever the previous commit, every path the resolver returns ends in
    ".json": no other file of the tree or of the diff reaches the parser. *)
Theorem changed_files_end_in_json `{Library} (self : Connector) (env : Env)
        (old_commit : PyVal) (new_commit : string) (w w' : World) (files : list string) :
  _get_changed_files self env old_commit new_commit w = (Ok files, w') ->
  Forall (fun p => endswith p ".json" = true) files.
Proof.
  intros E.
  assert (Hdiff : forall output,
             Forall (fun p => endswith p ".json" = true)
                    (map (path_join (local_repo_path self))
                         (filter (fun p => endswith p ".json") output))).
  { intros output. apply Forall_forall. intros p Hin.
    apply in_map_iff in Hin. destruct Hin as (q & <- & Hq).
    apply filter_In in Hq. destruct Hq as [_ Hj].
    apply endswith_path_join. exact Hj. }
  unfold _get_changed_files in E.
  destruct old_commit;
    try (unfold bind, lift in E;
         destruct (git_diff_name_only env _ new_commit "osv/malicious") as [output|e];
         [|discriminate E]; unfold ret in E; inversion E; apply Hdiff).
  unfold ret in E. inversion E. apply Forall_forall. intros p Hin.
  apply in_flat_map in Hin. destruct Hin as ([[root dirs] names] & _ & Hin).
  apply in_map_iff in Hin. destruct Hin as (q & <- & Hq).
  apply filter_In in Hq. destruct Hq as [_ Hj].
  apply endswith_path_join. exact Hj.
Qed.

Lemma changed_files_end_in_json_witness :
  Forall (fun p => endswith p ".json" = true)
         ["/data/repo/osv/malicious/npm/evil/MAL-0.json";
          "/data/repo/osv/malicious/npm/evil/MAL-1.json"].
Proof.
  apply (@changed_files_end_in_json Sample.library Sample.connector Sample.env (PStr "a1")
           "b2" Sample.world1 Sample.world1).
  vm_compute. reflexivity.
Defined.

(** On a later run, a record that the new tree holds under osv/malicious,
    added or modified since the previous commit, at a path that ends in
    ".json" and has no byte git would escape, is among the paths returned. *)
Theorem added_or_modified_record_is_returned `{Library} (self : Connector) (env : Env)
        (old_commit : PyVal) (new_commit : string) (w : World) (a b : Snapshot)
        (q blob : string) :
  old_commit <> PNone ->
  revisions env (format_value old_commit) = Some a ->
  revisions env new_commit = Some b ->
  under "osv/malicious" q = true ->
  endswith q ".json" = true ->
  must_quote q = false ->
  blob_at b q = Some blob ->
  blob_at a q <> Some blob ->
  exists files,
    _get_changed_files self env old_commit new_commit w = (Ok files, w)
    /\ In (path_join (local_repo_path self) q) files.
Proof.
  intros Hold Ha Hb Hu Hj Hq Hnew Hdiff.
  destruct (git_diff_lists env (format_value old_commit) new_commit "osv/malicious" a b Ha Hb)
    as (output & Hgit & Hout).
  eexists. split; [apply get_changed_files_diff; [exact Hold|exact Hgit]|].
  apply in_map. apply filter_In. split; [|exact Hj].
  apply Hout. exists q. split; [unfold print_path; rewrite Hq; reflexivity|].
  split; [exact Hu|]. split; [congruence|].
  unfold renamed_away, deleted. rewrite Hnew. destruct (blob_at a q); reflexivity.
Qed.

Lemma added_or_modified_record_is_returned_witness :
  exists files,
    @_get_changed_files Sample.library Sample.connector Sample.env (PStr "a1") "b2"
                        Sample.world1 = (Ok files, Sample.world1)
    /\ In "/data/repo/osv/malicious/npm/evil/MAL-1.json" files.
Proof.
  apply (@added_or_modified_record_is_returned Sample.library Sample.connector Sample.env
           (PStr "a1") "b2" Sample.world1
           [("osv/malicious/npm/evil/MAL-0.json", "blob-0");
            ("osv/malicious/npm/evil/MAL-1.json", "blob-1");
            ("README.md", "blob-r")]
           [("osv/malicious/npm/evil/MAL-1.json", "blob-b2"); ("README.md", "blob-r2")]
           "osv/malicious/npm/evil/MAL-1.json" "blob-b2").
  - discriminate.
  - reflexivity.
  - reflexivity.
  - reflexivity.
  - reflexivity.
  - reflexivity.
  - reflexivity.
  - discriminate.
Defined.




(** For a repository URL that ends in ".git", the provenance URL is built on
    the URL without that suffix (one suffix only is removed): root, "/blob/",
    the commit, "/", and the path relative to the local clone. *)
Theorem blob_url_drops_git_suffix `{Library} (self : Connector) (root file_path commit : string) :
  github_repo_url self = (root ++ ".git")%string ->
  _build_github_blob_url self file_path commit
  = (root ++ "/blob/" ++ commit ++ "/" ++ relpath file_path (local_repo_path self))%string.
Proof.
  intros Hurl. unfold _build_github_blob_url. rewrite Hurl, endswith_append.
  rewrite string_length_append.
  replace (String.length root + String.length ".git" - 4) with (String.length root)
    by (simpl; lia).
  rewrite substring_prefix. reflexivity.
Qed.

Lemma blob_url_drops_git_suffix_witness :
  @_build_github_blob_url Sample.library Sample.connector
     "/data/repo/osv/malicious/npm/evil/MAL-1.json" "b2"
  = "https://github.com/ossf/malicious-packages/blob/b2/osv/malicious/npm/evil/MAL-1.json".
Proof.
  apply (@blob_url_drops_git_suffix Sample.library Sample.connector
           "https://github.com/ossf/malicious-packages"
           "/data/repo/osv/malicious/npm/evil/MAL-1.json" "b2").
  reflexivity.
Defined.

(** * The main loop *)

Lemma filter_not_sleeping (delta : list (Level * Message)) :
  Forall not_sleeping delta -> filter is_sleeping delta = [].
Proof.
  induction 1 as [|[level m] delta Hr _ IH]; [reflexivity|].
  simpl. unfold not_sleeping in Hr. unfold is_sleeping. simpl in *.
  destruct m; try exact IH. contradiction.
Qed.

Lemma time_sleep_returns (env : Env) (secs : Z) (w : World) :
  (0 <= secs)%Z -> sleep_error env secs = None -> time_sleep env secs w = (Ok tt, w).
Proof.
  intros Hpos Hnone. unfold time_sleep.
  destruct (Z.ltb_spec secs 0); [lia|]. rewrite Hnone. reflexivity.
Qed.

Lemma time_sleep_refuses (env : Env) (secs : Z) (w : World) :
  (secs < 0)%Z ->
  time_sleep env secs w = (Raise (ValueError "sleep length must be non-negative"), w).
Proof.
  intros Hneg. unfold time_sleep. destruct (Z.ltb_spec secs 0); [reflexivity|lia].
Qed.

(** One turn up to its sleep never raises: it logs what the run logs, the
    error of a run that raised, and last the sleep it is about to take. *)
Lemma run_once_turn `{Library} (self : Connector) (env : Env) (w : World) :
  exists w' delta,
    run_once self env w = time_sleep env (run_interval self) w'
    /\ log w' = log w ++ delta ++ [(INFO, MsgSleeping (run_interval self))]
    /\ Forall not_sleeping delta.
Proof.
  assert (G : grows not_sleeping
                (try_except (_process_once self env)
                            (fun e => log_error (MsgProcessingError e)))).
  { unfold _process_once, _get_current_head.
    repeat first
      [ apply grows_set_state
      | apply grows_bind; [|intros]
      | apply grows_try_except; [|intros]
      | match goal with
        | |- grows _ (match ?x with _ => _ end) => destruct x
        end
      | apply keeps_grows;
        solve [ apply keeps_get_changed_files
              | apply keeps_collect_objects; intros; exact I
              | apply keeps_send_in_chunks; intros; exact I
              | apply keeps_init_or_update_repo; intros; exact I
              | repeat keeps_step ] ]. }
  destruct (G w) as (delta & Hl & Hp).
  unfold run_once.
  assert (Hok : exists w1, try_except (_process_once self env)
                             (fun e => log_error (MsgProcessingError e)) w = (Ok tt, w1)).
  { unfold try_except. destruct (_process_once self env w) as [[[]|e] w1].
    - eexists. reflexivity.
    - eexists. reflexivity. }
  destruct Hok as (w1 & Hok). rewrite Hok in Hl. simpl in Hl.
  rewrite (bind_ok _ _ w w1 tt Hok).
  rewrite (bind_ok _ _ w1 (with_log w1 [(INFO, MsgSleeping (run_interval self))]) tt)
    by reflexivity.
  eexists. exists delta. split; [reflexivity|]. split; [|exact Hp].
  simpl. rewrite Hl, app_assoc. reflexivity.
Qed.

(** The main loop outlives every run: with a run interval that is not
    negative and a sleep that returns, any number of turns completes without
    an exception, whatever the turns find and whatever their runs raise, and
    each turn reaches its sleep, once. *)
Theorem run_outlives_every_exception `{Library} (self : Connector) (envs : nat -> Env)
        (turns : nat) (w : World) :
  (0 <= run_interval self)%Z ->
  (forall k, k < turns -> sleep_error (envs k) (run_interval self) = None) ->
  fst (run self envs turns w) = Ok tt
  /\ length (filter is_sleeping (logged w (snd (run self envs turns w)))) = turns.
Proof.
  intros Hpos.
  assert (Hgen : forall turns envs w,
             (forall k, k < turns -> sleep_error (envs k) (run_interval self) = None) ->
             exists w' delta,
               run_turns self envs turns w = (Ok tt, w')
               /\ log w' = log w ++ delta
               /\ length (filter is_sleeping delta) = turns).
  { clear w envs turns. intros turns. induction turns as [|n IH]; intros envs w Hsleep.
    - exists w, []. split; [reflexivity|]. split; [rewrite app_nil_r|]; reflexivity.
    - simpl. destruct (run_once_turn self (envs 0) w) as (w1 & d1 & E1 & Hl1 & Hp1).
      rewrite (time_sleep_returns (envs 0) _ w1 Hpos (Hsleep 0 ltac:(lia))) in E1.
      rewrite (bind_ok _ _ w w1 tt E1).
      destruct (IH (fun k => envs (S k)) w1) as (w2 & d2 & E2 & Hl2 & Hc2).
      { intros k Hk. apply Hsleep. lia. }
      exists w2, ((d1 ++ [(INFO, MsgSleeping (run_interval self))]) ++ d2).
      split; [exact E2|]. split.
      + rewrite Hl2, Hl1, !app_assoc. reflexivity.
      + rewrite !filter_app, !length_app, (filter_not_sleeping d1 Hp1), Hc2. reflexivity. }
  intros Hsleep.
  destruct (Hgen turns envs (with_log w [(INFO, MsgMainLoop)]) Hsleep)
    as (w' & delta & E & Hl & Hc).
  unfold run. rewrite (bind_ok _ _ w (with_log w [(INFO, MsgMainLoop)]) tt) by reflexivity.
  rewrite E. simpl. split; [reflexivity|].
  rewrite (logged_app w w' ((INFO, MsgMainLoop) :: delta)).
  - exact Hc.
  - rewrite Hl. simpl. rewrite <- app_assoc. reflexivity.
Qed.

Lemma run_outlives_every_exception_witness :
  fst (@run Sample.library Sample.connector (fun _ => Sample.env_malformed) 2 Sample.world0)
  = Ok tt
  /\ length (filter is_sleeping
               (logged Sample.world0
                  (snd (@run Sample.library Sample.connector (fun _ => Sample.env_malformed)
                          2 Sample.world0)))) = 2
  /\ In (ERROR, MsgProcessingError (AttributeError "get"))
        (log (snd (@run Sample.library Sample.connector (fun _ => Sample.env_malformed)
                     2 Sample.world0))).
Proof.
  destruct (@run_outlives_every_exception Sample.library Sample.connector
              (fun _ => Sample.env_malformed) 2 Sample.world0) as [Hok Hsleeps].
  - simpl. lia.
  - intros k _. reflexivity.
  - split; [exact Hok|]. split; [exact Hsleeps|].
    vm_compute. repeat (first [left; reflexivity|right]).
Defined.

(** A negative run interval ends the main loop on its first turn: after one
    run and one record of the sleep to come, [time.sleep] refuses the length
    and its [ValueError], raised outside the [try], leaves [run]; no later
    turn takes place. *)
Theorem negative_interval_ends_the_loop `{Library} (self : Connector) (envs : nat -> Env)
        (turns : nat) (w : World) :
  (run_interval self < 0)%Z ->
  fst (run self envs (S turns) w) = Raise (ValueError "sleep length must be non-negative")
  /\ snd (run self envs (S turns) w) = snd (run self envs 1 w)
  /\ length (filter is_sleeping (logged w (snd (run self envs (S turns) w)))) = 1.
Proof.
  intros Hneg. unfold run.
  rewrite !(bind_ok _ _ w (with_log w [(INFO, MsgMainLoop)]) tt) by reflexivity.
  set (w0 := with_log w [(INFO, MsgMainLoop)]).
  destruct (run_once_turn self (envs 0) w0) as (w1 & d1 & E1 & Hl1 & Hp1).
  rewrite (time_sleep_refuses (envs 0) _ w1 Hneg) in E1.
  simpl run_turns. rewrite !(bind_raise _ _ w0 w1 _ E1). simpl.
  split; [reflexivity|]. split; [reflexivity|].
  rewrite (logged_app w w1 ((INFO, MsgMainLoop) :: d1
                            ++ [(INFO, MsgSleeping (run_interval self))])).
  - simpl. rewrite filter_app, length_app, (filter_not_sleeping d1 Hp1). reflexivity.
  - rewrite Hl1. unfold w0. simpl. rewrite <- app_assoc. reflexivity.
Qed.

Lemma negative_interval_ends_the_loop_witness :
  fst (@run Sample.library
         (mkConnector "https://github.com/ossf/malicious-packages.git" "main" "/data/repo"
                      (-1) 80)
         (fun _ => Sample.env_quiet) 3 Sample.world0)
  = Raise (ValueError "sleep length must be non-negative").
Proof.
  apply (@negative_interval_ends_the_loop Sample.library
           (mkConnector "https://github.com/ossf/malicious-packages.git" "main" "/data/repo"
                        (-1) 80)
           (fun _ => Sample.env_quiet) 2 Sample.world0).
  simpl. lia.
Defined.

(** * What a run reads of the saved state *)

Lemma with_state_same (w : World) : with_state (connector_state w) w = w.
Proof. destruct w; reflexivity. Qed.

Lemma agree_with_state (w1 w2 : World) :
  agree w1 w2 -> w1 = with_state (connector_state w1) w2.
Proof. destruct w1, w2. unfold agree, with_state. simpl. intros (-> & -> & ->). reflexivity. Qed.

Lemma state_blind_ret {A} (a : A) : state_blind (ret a).
Proof. intros w s. reflexivity. Qed.

Lemma state_blind_raise {A} (e : PyExn) : state_blind (@raise A e).
Proof. intros w s. reflexivity. Qed.

Lemma state_blind_lift {A} (r : Result A) : state_blind (lift r).
Proof. intros w s. reflexivity. Qed.

Lemma state_blind_bind {A B} (m : M A) (k : A -> M B) :
  state_blind m -> (forall a, state_blind (k a)) -> state_blind (bind m k).
Proof.
  intros Hm Hk w s. unfold bind. rewrite (Hm w s).
  destruct (m w) as [[a|e] w1]; simpl; [|reflexivity].
  rewrite (Hk a w1 s). reflexivity.
Qed.

Lemma state_blind_try_except {A} (body : M A) (handler : PyExn -> M A) :
  state_blind body -> (forall e, state_blind (handler e)) ->
  state_blind (try_except body handler).
Proof.
  intros Hm Hk w s. unfold try_except. rewrite (Hm w s).
  destruct (body w) as [[a|e] w1]; simpl; [reflexivity|].
  rewrite (Hk e w1 s). reflexivity.
Qed.

Lemma state_blind_for_each {A S} (xs : list A) (body : A -> S -> M S) :
  (forall x acc, state_blind (body x acc)) -> forall acc, state_blind (for_each xs body acc).
Proof.
  intros Hb. induction xs as [|x xs IH]; intros acc; simpl.
  - apply state_blind_ret.
  - apply state_blind_bind; [apply Hb|]. intros acc'. apply IH.
Qed.

Lemma state_blind_log_info (m : Message) : state_blind (log_info m).
Proof. intros w s. reflexivity. Qed.

Lemma state_blind_log_error (m : Message) : state_blind (log_error m).
Proof. intros w s. reflexivity. Qed.

Lemma state_blind_py_get (v : PyVal) (k : string) (default : PyVal) :
  state_blind (py_get v k default).
Proof. destruct v; simpl; first [apply state_blind_ret|apply state_blind_raise]. Qed.

Lemma state_blind_load_name {A} (scope : list (string * A)) (name : string) :
  state_blind (load_name scope name).
Proof.
  induction scope as [|[n v] scope IH]; simpl.
  - apply state_blind_raise.
  - destruct (String.eqb n name); [apply state_blind_ret|exact IH].
Qed.

Lemma state_blind_stix2_create_bundle (env : Env) (objects : list StixObject) :
  state_blind (stix2_create_bundle env objects).
Proof.
  unfold stix2_create_bundle.
  destruct (create_bundle_error env objects); [apply state_blind_raise|apply state_blind_ret].
Qed.

Lemma state_blind_send_stix2_bundle (env : Env) (bundle : Bundle) :
  state_blind (send_stix2_bundle env bundle).
Proof.
  intros w s. unfold send_stix2_bundle, with_state. simpl.
  destruct (send_error env (length (sent w)) bundle); reflexivity.
Qed.

Lemma state_blind_to_processed (env : Env) (work_id : string) (message : WorkMessage) :
  state_blind (to_processed env work_id message).
Proof.
  intros w s. unfold to_processed, with_state. simpl.
  destruct (to_processed_error env message); reflexivity.
Qed.

Ltac state_blind_step :=
  first
    [ apply state_blind_ret | apply state_blind_raise | apply state_blind_lift
    | apply state_blind_py_get | apply state_blind_load_name
    | apply state_blind_log_info | apply state_blind_log_error
    | apply state_blind_stix2_create_bundle | apply state_blind_send_stix2_bundle
    | apply state_blind_to_processed
    | apply state_blind_bind; [|intros]
    | apply state_blind_try_except; [|intros]
    | apply state_blind_for_each; intros
    | match goal with
      | |- state_blind (if ?b then _ else _) => destruct b
      | |- state_blind (match ?x with _ => _ end) => destruct x
      end ].

(** Two runs of a state-blind computation from worlds that agree give the
    same result and leave worlds that agree, each with its own state. *)
Lemma state_blind_agree {A} (m : M A) (w1 w2 : World) :
  state_blind m -> agree w1 w2 ->
  fst (m w1) = fst (m w2)
  /\ agree (snd (m w1)) (snd (m w2))
  /\ connector_state (snd (m w1)) = connector_state w1
  /\ connector_state (snd (m w2)) = connector_state w2.
Proof.
  intros Hm Ha.
  assert (H2 : connector_state (snd (m w2)) = connector_state w2).
  { pose proof (Hm w2 (connector_state w2)) as E. rewrite with_state_same in E.
    rewrite E at 1. reflexivity. }
  rewrite (agree_with_state w1 w2 Ha), (Hm w2 (connector_state w1)). simpl.
  repeat split; try reflexivity. exact H2.
Qed.

Lemma lockstep_bind {A B} (m : M A) (k1 k2 : A -> M B) (s1 s2 : PyVal)
      (C : Result B * World -> Result B * World -> Prop) (u1 u2 : World) :
  state_blind m ->
  agree u1 u2 -> connector_state u1 = s1 -> connector_state u2 = s2 ->
  (forall e v1 v2, agree v1 v2 -> connector_state v1 = s1 -> connector_state v2 = s2 ->
                   C (Raise e, v1) (Raise e, v2)) ->
  (forall a v1 v2, agree v1 v2 -> connector_state v1 = s1 -> connector_state v2 = s2 ->
                   C (k1 a v1) (k2 a v2)) ->
  C (bind m k1 u1) (bind m k2 u2).
Proof.
  intros Hm Ha H1 H2 Hraise Hk.
  destruct (state_blind_agree m u1 u2 Hm Ha) as (Hr & Ha' & Hs1 & Hs2).
  unfold bind. destruct (m u1) as [[a1|e1] v1], (m u2) as [[a2|e2] v2]; simpl in *;
    try discriminate Hr.
  - inversion Hr; subst a2. apply Hk; [exact Ha'|congruence|congruence].
  - inversion Hr; subst e2. apply Hraise; [exact Ha'|congruence|congruence].
Qed.

Lemma agree_refl (w : World) : agree w w.
Proof. repeat split. Qed.

Lemma with_state_agree (s : PyVal) (w1 w2 : World) :
  agree w1 w2 -> with_state s w1 = with_state s w2.
Proof. destruct w1, w2. unfold agree, with_state. simpl. intros (-> & -> & ->). reflexivity. Qed.

(** Of the saved state a run reads [last_commit] and nothing else: started
    from two states that hold the same [last_commit], in worlds otherwise
    alike, a run gives the same result, the same log, bundles and works, and
    either leaves both states as they were or saves the same state in
    both. *)
Theorem run_reads_only_last_commit `{Library} (self : Connector) (env : Env)
        (w1 w2 : World) (d1 d2 : Dict) :
  agree w1 w2 ->
  py_or (connector_state w1) (PDict []) = PDict d1 ->
  py_or (connector_state w2) (PDict []) = PDict d2 ->
  dict_get d1 "last_commit" = dict_get d2 "last_commit" ->
  fst (_process_once self env w1) = fst (_process_once self env w2)
  /\ agree (snd (_process_once self env w1)) (snd (_process_once self env w2))
  /\ ((connector_state (snd (_process_once self env w1)) = connector_state w1
       /\ connector_state (snd (_process_once self env w2)) = connector_state w2)
      \/ connector_state (snd (_process_once self env w1))
         = connector_state (snd (_process_once self env w2))).
Proof.
  intros Ha Hd1 Hd2 Hlast.
  set (C := fun r1 r2 : Result unit * World =>
         fst r1 = fst r2 /\ agree (snd r1) (snd r2)
         /\ ((connector_state (snd r1) = connector_state w1
              /\ connector_state (snd r2) = connector_state w2)
             \/ connector_state (snd r1) = connector_state (snd r2))).
  assert (Hraise : forall e v1 v2,
             agree v1 v2 -> connector_state v1 = connector_state w1 ->
             connector_state v2 = connector_state w2 -> C (Raise e, v1) (Raise e, v2)).
  { intros e v1 v2 Hv H1 H2. split; [reflexivity|]. split; [exact Hv|]. left. split; assumption. }
  change (C (_process_once self env w1) (_process_once self env w2)).
  unfold _process_once, _init_or_update_repo, _get_current_head.
  apply (lockstep_bind _ _ _ (connector_state w1) (connector_state w2));
    [apply state_blind_log_info|exact Ha|reflexivity|reflexivity|exact Hraise|].
  intros _ u1 u2 Hu H1 H2.
  apply (lockstep_bind _ _ _ (connector_state w1) (connector_state w2));
    [apply state_blind_lift|exact Hu|exact H1|exact H2|exact Hraise|].
  clear u1 u2 Hu H1 H2. intros work_id u1 u2 Hu H1 H2.
  apply (lockstep_bind _ _ _ (connector_state w1) (connector_state w2));
    [|exact Hu|exact H1|exact H2|exact Hraise|].
  { destruct (negb (isdir env (local_repo_path self))); repeat state_blind_step. }
  clear u1 u2 Hu H1 H2. intros _ u1 u2 Hu H1 H2.
  apply (lockstep_bind _ _ _ (connector_state w1) (connector_state w2));
    [apply state_blind_lift|exact Hu|exact H1|exact H2|exact Hraise|].
  clear u1 u2 Hu H1 H2. intros cur u1 u2 Hu H1 H2.
  (* the state is read: its last_commit is all that goes on *)
  rewrite (bind_ok get_state _ u1 u1 (connector_state w1))
    by (unfold get_state; rewrite H1; reflexivity).
  rewrite (bind_ok get_state _ u2 u2 (connector_state w2))
    by (unfold get_state; rewrite H2; reflexivity).
  rewrite Hd1, Hd2.
  rewrite (bind_ok _ _ u1 u1 (dict_get_default d1 "last_commit" PNone)) by reflexivity.
  rewrite (bind_ok _ _ u2 u2 (dict_get_default d1 "last_commit" PNone))
    by (unfold py_get, ret, dict_get_default; rewrite Hlast; reflexivity).
  apply (lockstep_bind _ _ _ (connector_state w1) (connector_state w2));
    [apply state_blind_log_info|exact Hu|exact H1|exact H2|exact Hraise|].
  clear u1 u2 Hu H1 H2. intros _ u1 u2 Hu H1 H2.
  apply (lockstep_bind _ _ _ (connector_state w1) (connector_state w2));
    [|exact Hu|exact H1|exact H2|exact Hraise|].
  { unfold _get_changed_files. repeat state_blind_step. }
  clear u1 u2 Hu H1 H2. intros changed_files u1 u2 Hu H1 H2.
  apply (lockstep_bind _ _ _ (connector_state w1) (connector_state w2));
    [apply state_blind_log_info|exact Hu|exact H1|exact H2|exact Hraise|].
  clear u1 u2 Hu H1 H2. intros _ u1 u2 Hu H1 H2.
  apply (lockstep_bind _ _ _ (connector_state w1) (connector_state w2));
    [|exact Hu|exact H1|exact H2|exact Hraise|].
  { unfold collect_objects, _parse_osv_json, _create_objects_for_entry, summary_of,
      stix2_File, stix2_ExternalReference, stix2_Indicator, stix2_Relationship.
    repeat state_blind_step. }
  clear u1 u2 Hu H1 H2. intros all_objects u1 u2 Hu H1 H2.
  apply (lockstep_bind _ _ _ (connector_state w1) (connector_state w2));
    [|exact Hu|exact H1|exact H2|exact Hraise|].
  { unfold send_in_chunks, send_chunk. repeat state_blind_step. }
  clear u1 u2 Hu H1 H2. intros flow u1 u2 Hu H1 H2.
  destruct flow.
  - (* step 6 saves the same state in both worlds *)
    assert (Hsame : forall k : unit -> M unit,
               bind (set_state [("last_commit", PStr cur);
                                ("last_run", PStr (utcnow_isoformat env))]) k u1
               = bind (set_state [("last_commit", PStr cur);
                                  ("last_run", PStr (utcnow_isoformat env))]) k u2).
    { intros k. unfold bind, set_state.
      change (k tt (with_state (PDict [("last_commit", PStr cur);
                                       ("last_run", PStr (utcnow_isoformat env))]) u1)
              = k tt (with_state (PDict [("last_commit", PStr cur);
                                         ("last_run", PStr (utcnow_isoformat env))]) u2)).
      rewrite (with_state_agree _ u1 u2 Hu). reflexivity. }
    rewrite Hsame. split; [reflexivity|]. split; [apply agree_refl|]. right. reflexivity.
  - split; [reflexivity|]. split; [exact Hu|]. left. split; assumption.
Qed.

Lemma run_reads_only_last_commit_witness :
  fst (@_process_once Sample.library Sample.connector Sample.env_quiet Sample.world1)
  = fst (@_process_once Sample.library Sample.connector Sample.env_quiet
           (mkWorld (PDict [("last_run", PStr "never"); ("last_commit", PStr "a1");
                            ("last_revision", PStr "zz")]) [] [] []))
  /\ agree (snd (@_process_once Sample.library Sample.connector Sample.env_quiet Sample.world1))
           (snd (@_process_once Sample.library Sample.connector Sample.env_quiet
                   (mkWorld (PDict [("last_run", PStr "never"); ("last_commit", PStr "a1");
                                    ("last_revision", PStr "zz")]) [] [] [])))
  /\ connector_state
       (snd (@_process_once Sample.library Sample.connector Sample.env_quiet Sample.world1))
     = connector_state
         (snd (@_process_once Sample.library Sample.connector Sample.env_quiet
                 (mkWorld (PDict [("last_run", PStr "never"); ("last_commit", PStr "a1");
                                  ("last_revision", PStr "zz")]) [] [] []))).
Proof.
  destruct (@run_reads_only_last_commit Sample.library Sample.connector Sample.env_quiet
              Sample.world1
              (mkWorld (PDict [("last_run", PStr "never"); ("last_commit", PStr "a1");
                               ("last_revision", PStr "zz")]) [] [] [])
              [("last_commit", PStr "a1"); ("last_run", PStr "2024-04-30T00:00:00+00:00")]
              [("last_run", PStr "never"); ("last_commit", PStr "a1");
               ("last_revision", PStr "zz")])
    as (Hr & Ha & _).
  - repeat split.
  - reflexivity.
  - reflexivity.
  - reflexivity.
  - split; [exact Hr|]. split; [exact Ha|]. vm_compute. reflexivity.
Defined.
